(** * Dynamic form builder: validation engine, derived values and schema upkeep

    A shallow embedding of the TypeScript sources of the form builder
    ([utils/validation.ts], [utils/derivedFields.ts], the field configuration
    panel, the validation-rules editor, the form-builder slice and the cleanup
    effect of the create page), followed by the properties established about
    them.

    Layout: the JavaScript runtime that the code relies on ([Js]), the data
    model ([types/index.ts]), the program's functions module by module, and
    then the theorems. *)

From Stdlib Require Import ZArith List Bool Ascii String Lia.
From Stdlib Require Import Floats.SpecFloat.
From stdpp Require Import gmap strings list.

Local Open Scope string_scope.
Local Open Scope list_scope.
Local Open Scope Z_scope.

(* ===================================================================== *)
(** * The JavaScript runtime used by the program *)
(* ===================================================================== *)

Module Js.

(** ** Strings

    A JavaScript string is a sequence of code units.  The model keeps the
    code units 0..255 ([ascii]); [length] is the number of code units. *)

Definition code (c : ascii) : Z := Z.of_N (N_of_ascii c).
Definition chars (s : string) : list ascii := list_ascii_of_string s.
Definition str (l : list ascii) : string := string_of_list_ascii l.

(** [WhiteSpace] and [LineTerminator] of ECMAScript within the range
    0..255: TAB, LF, VT, FF, CR, SP and NBSP.  This is the class [\s] of
    regular expressions and the set stripped by [String.prototype.trim]. *)
Definition isWhiteSpace (c : ascii) : bool :=
  let n := code c in
  ((9 <=? n) && (n <=? 13)) || (n =? 32) || (n =? 160).

(** Line terminators: the characters that the regular expression [.] does
    not match. *)
Definition isLineTerminator (c : ascii) : bool :=
  let n := code c in (n =? 10) || (n =? 13).

Definition isDigit (c : ascii) : bool :=
  let n := code c in (48 <=? n) && (n <=? 57).

Definition isLower (c : ascii) : bool :=
  let n := code c in (97 <=? n) && (n <=? 122).

Fixpoint dropWhile {A} (p : A -> bool) (l : list A) : list A :=
  match l with
  | [] => []
  | x :: l' => if p x then dropWhile p l' else l
  end.

Fixpoint takeWhile {A} (p : A -> bool) (l : list A) : list A :=
  match l with
  | [] => []
  | x :: l' => if p x then x :: takeWhile p l' else []
  end.

Definition trimStart (l : list ascii) : list ascii := dropWhile isWhiteSpace l.
Definition trimEnd (l : list ascii) : list ascii := rev (trimStart (rev l)).

(** [String.prototype.trim]. *)
Definition trim (s : string) : string := str (trimEnd (trimStart (chars s))).

(** Truthiness of a string: every string but the empty one. *)
Definition truthy (s : string) : bool :=
  match s with EmptyString => false | String _ _ => true end.

(** [String.prototype.length], as an integer. *)
Definition strlen (s : string) : Z := Z.of_nat (String.length s).

(** [Array.prototype.join] with a separator. *)
Fixpoint join (sep : string) (l : list string) : string :=
  match l with
  | [] => ""
  | [x] => x
  | x :: l' => x +:+ sep +:+ join sep l'
  end.

(** ** Numbers

    A JavaScript number is an IEEE 754 binary64 value.  [spec_float] with a
    53 bit significand and [emax = 1024] is that format, with one NaN. *)

Definition number : Type := spec_float.
Definition prec : Z := 53.
Definition emax : Z := 1024.

Definition NaN : number := S754_nan.
Definition Infinity : number := S754_infinity false.
Definition zero : number := S754_zero false.

(** The number of an integer (rounded to nearest even beyond 2^53). *)
Definition ofZ (z : Z) : number := binary_normalize prec emax z 0 false.

Definition isNaN (x : number) : bool :=
  match x with S754_nan => true | _ => false end.

(** Truthiness of a number: every number but [+0], [-0] and [NaN]. *)
Definition truthyNumber (x : number) : bool :=
  match x with S754_zero _ | S754_nan => false | _ => true end.

Definition add (x y : number) : number := SFadd prec emax x y.
Definition lt (x y : number) : bool := SFltb x y.
Definition gt (x y : number) : bool := SFltb y x.
Definition ge (x y : number) : bool := SFleb y x.

(** The number nearest to [m * 10^e] for a natural [m], with the sign
    [neg].  For a negative exponent the quotient is taken with 64 extra bits
    and a sticky bit, so that the single rounding of [binary_normalize] is
    the correct one. *)
Definition ofDecimal (neg : bool) (m e : Z) : number :=
  let sgn := if neg then (-1) else 1 in
  if m =? 0 then S754_zero neg
  else if 0 <=? e then binary_normalize prec emax (sgn * (m * 10 ^ e)) 0 neg
  else
    let d := 10 ^ (- e) in
    let s := 64 + 4 * (- e) in
    let q := (m * 2 ^ s) / d in
    let r := (m * 2 ^ s) mod d in
    let mant := 2 * q + (if r =? 0 then 0 else 1) in
    binary_normalize prec emax (sgn * mant) (- s - 1) neg.

(** *** Numeric literals in strings *)

Definition digitVal (c : ascii) : Z := code c - 48.

Definition digitsToZ (ds : list ascii) : Z :=
  fold_left (fun acc c => 10 * acc + digitVal c) ds 0.

Fixpoint stripPrefix (p s : list ascii) : option (list ascii) :=
  match p, s with
  | [], _ => Some s
  | a :: p', b :: s' => if Ascii.eqb a b then stripPrefix p' s' else None
  | _ :: _, [] => None
  end.

(** An optional sign: whether it is [-], and what follows it. *)
Definition scanSign (s : list ascii) : bool * list ascii :=
  match s with
  | "-"%char :: r => (true, r)
  | "+"%char :: r => (false, r)
  | _ => (false, s)
  end.

(** [ExponentPart]: [e] or [E], an optional sign and at least one digit.
    When it is not well formed nothing is consumed. *)
Definition scanExponent (s : list ascii) : Z * list ascii :=
  match s with
  | c :: r =>
      if Ascii.eqb c "e" || Ascii.eqb c "E" then
        let '(neg, r1) := scanSign r in
        match takeWhile isDigit r1 with
        | [] => (0, s)
        | ds => ((if neg then - digitsToZ ds else digitsToZ ds),
                 dropWhile isDigit r1)
        end
      else (0, s)
  | [] => (0, s)
  end.

(** The longest prefix that is a [StrUnsignedDecimalLiteral], read with the
    sign [neg]: its value and the rest of the input. *)
Definition scanUnsignedDecimal (neg : bool) (s : list ascii)
  : option (number * list ascii) :=
  match stripPrefix (chars "Infinity") s with
  | Some r => Some (S754_infinity neg, r)
  | None =>
      let ip := takeWhile isDigit s in
      let r1 := dropWhile isDigit s in
      let mantissa fp r2 :=
        let '(e, r3) := scanExponent r2 in
        Some (ofDecimal neg (digitsToZ (ip ++ fp)) (e - Z.of_nat (length fp)), r3) in
      match r1 with
      | "."%char :: r =>
          let fp := takeWhile isDigit r in
          match ip, fp with
          | [], [] => None
          | _, _ => mantissa fp (dropWhile isDigit r)
          end
      | _ =>
          match ip with
          | [] => None
          | _ => mantissa [] r1
          end
      end
  end.

(** The longest prefix that is a [StrDecimalLiteral]. *)
Definition scanDecimal (s : list ascii) : option (number * list ascii) :=
  let '(neg, r) := scanSign s in scanUnsignedDecimal neg r.

(** Digits of a radix up to 16, for [0x], [0o] and [0b] literals. *)
Definition radixDigit (radix : Z) (c : ascii) : option Z :=
  let n := code c in
  let v := if (48 <=? n) && (n <=? 57) then n - 48
           else if (97 <=? n) && (n <=? 102) then n - 87
           else if (65 <=? n) && (n <=? 70) then n - 55
           else 16 in
  if v <? radix then Some v else None.

Definition isRadixDigit (radix : Z) (c : ascii) : bool :=
  match radixDigit radix c with Some _ => true | None => false end.

Definition radixToZ (radix : Z) (ds : list ascii) : Z :=
  fold_left (fun acc c => radix * acc + default 0 (radixDigit radix c)) ds 0.

Definition radixOfPrefix (s : list ascii) : option (Z * list ascii) :=
  match s with
  | "0"%char :: c :: r =>
      if Ascii.eqb c "x" || Ascii.eqb c "X" then Some (16, r)
      else if Ascii.eqb c "o" || Ascii.eqb c "O" then Some (8, r)
      else if Ascii.eqb c "b" || Ascii.eqb c "B" then Some (2, r)
      else None
  | _ => None
  end.

(** [StringToNumber]: the conversion applied by [Number(s)] to a string. *)
Definition stringToNumber (s : string) : number :=
  let t := trimEnd (trimStart (chars s)) in
  match t with
  | [] => zero
  | _ =>
      match radixOfPrefix t with
      | Some (radix, ds) =>
          match ds with
          | [] => NaN
          | _ => if forallb (isRadixDigit radix) ds
                 then ofZ (radixToZ radix ds) else NaN
          end
      | None =>
          match scanDecimal t with
          | Some (v, []) => v
          | _ => NaN
          end
      end
  end.

(** The global [parseFloat]: leading white space is skipped and the longest
    decimal literal at the front is read; [NaN] when there is none. *)
Definition parseFloat (s : string) : number :=
  match scanDecimal (trimStart (chars s)) with
  | Some (v, _) => v
  | None => NaN
  end.

(** The global [parseInt] without a radix argument. *)
Definition parseInt (s : string) : number :=
  let '(neg, r) := scanSign (trimStart (chars s)) in
  let '(radix, r1) :=
    match r with
    | "0"%char :: c :: r' =>
        if Ascii.eqb c "x" || Ascii.eqb c "X" then (16, r') else (10, r)
    | _ => (10, r)
    end in
  match takeWhile (isRadixDigit radix) r1 with
  | [] => NaN
  | ds =>
      let v := radixToZ radix ds in
      if v =? 0 then S754_zero neg
      else binary_normalize prec emax (if neg then - v else v) 0 neg
  end.

(** *** [Number.prototype.toString] *)

Definition digitChar (d : Z) : ascii := ascii_of_N (Z.to_N (48 + d)).

Fixpoint decDigits (fuel : nat) (n : Z) (acc : list ascii) : list ascii :=
  match fuel with
  | O => acc
  | S k =>
      let acc' := digitChar (n mod 10) :: acc in
      if n / 10 =? 0 then acc' else decDigits k (n / 10) acc'
  end.

(** The decimal digits of a natural number. *)
Definition natDigits (n : Z) : list ascii :=
  decDigits (S (Z.to_nat (Z.log2 n))) n [].

(** A positive finite number [m * 2^e] as a fraction of two naturals. *)
Definition fraction (m : positive) (e : Z) : Z * Z :=
  if 0 <=? e then (Zpos m * 2 ^ e, 1) else (Zpos m, 2 ^ (- e)).

(** Whether the fraction is below [10^n]. *)
Definition belowPow10 (pq : Z * Z) (n : Z) : bool :=
  let '(p, q) := pq in
  if 0 <=? n then p <? 10 ^ n * q else p * 10 ^ (- n) <? q.

Fixpoint searchExponent (fuel : nat) (pq : Z * Z) (n : Z) : Z :=
  match fuel with
  | O => n
  | S k => if belowPow10 pq n then n else searchExponent k pq (n + 1)
  end.

(** The [n] with [10^(n-1) <= x < 10^n]. *)
Definition decimalExponent (pq : Z * Z) : Z :=
  let '(p, q) := pq in
  searchExponent 8 pq (((Z.log2 p - Z.log2 q - 1) * 30103) / 100000 - 1).

Definition sameNumber (x y : number) : bool :=
  match SFcompare x y with Some Eq => true | _ => false end.

(** The digits [s] (with [k] digits) and the exponent [n] of the shortest
    decimal [s * 10^(n-k)] whose number is [x]; of two such decimals the one
    nearer to [x], the even one at a tie. *)
Fixpoint shortestDigits (fuel : nat) (x : number) (pq : Z * Z) (n k : Z)
  : Z * Z :=
  let '(p, q) := pq in
  let '(num, den) :=
    if 0 <=? k - n then (p * 10 ^ (k - n), q) else (p, q * 10 ^ (n - k)) in
  let lo := num / den in
  let r := num mod den in
  let hi := lo + 1 in
  let okLo := sameNumber (ofDecimal false lo (n - k)) x in
  let okHi := sameNumber (ofDecimal false hi (n - k)) x in
  let pickHi := if hi =? 10 ^ k then (10 ^ (k - 1), n + 1) else (hi, n) in
  match fuel with
  | O => (lo, n)
  | S f =>
      if okLo && okHi then
        if 2 * r <? den then (lo, n)
        else if den <? 2 * r then pickHi
        else if Z.even lo then (lo, n) else pickHi
      else if okLo then (lo, n)
      else if okHi then pickHi
      else shortestDigits f x pq n (k + 1)
  end.

Definition zeros (n : Z) : list ascii := repeat "0"%char (Z.to_nat n).

Definition formatDecimal (ds : list ascii) (n : Z) : list ascii :=
  let k := Z.of_nat (length ds) in
  if (k <=? n) && (n <=? 21) then ds ++ zeros (n - k)
  else if (0 <? n) && (n <=? 21) then
    take (Z.to_nat n) ds ++ "."%char :: drop (Z.to_nat n) ds
  else if (-6 <? n) && (n <=? 0) then
    "0"%char :: "."%char :: zeros (- n) ++ ds
  else
    let e := n - 1 in
    let expo := "e"%char :: (if e <? 0 then "-"%char else "+"%char)
                         :: natDigits (Z.abs e) in
    match ds with
    | [d] => d :: expo
    | d :: rest => d :: "."%char :: rest ++ expo
    | [] => expo
    end.

Definition numberToString (x : number) : string :=
  match x with
  | S754_nan => "NaN"
  | S754_zero _ => "0"
  | S754_infinity s => if s then "-Infinity" else "Infinity"
  | S754_finite s m e =>
      let pq := fraction m e in
      let '(digits, n) :=
        shortestDigits 17 (S754_finite false m e) pq (decimalExponent pq) 1 in
      let body := formatDecimal (natDigits digits) n in
      str (if s then "-"%char :: body else body)
  end.

(** ** Regular expressions

    The two patterns of the program are anchored at both ends, so
    [RegExp.prototype.test] is a match of the whole string.  Patterns are
    built from character classes; a lookahead at the start of an anchored
    pattern is a conjunction with "this prefix, then anything". *)

Inductive regex : Type :=
| Void : regex
| Eps : regex
| Class : (ascii -> bool) -> regex
| Cat : regex -> regex -> regex
| Alt : regex -> regex -> regex
| And : regex -> regex -> regex
| Star : regex -> regex.

Fixpoint nullable (r : regex) : bool :=
  match r with
  | Void => false
  | Eps => true
  | Class _ => false
  | Cat r1 r2 => nullable r1 && nullable r2
  | Alt r1 r2 => nullable r1 || nullable r2
  | And r1 r2 => nullable r1 && nullable r2
  | Star _ => true
  end.

(** The derivative of a pattern by a character. *)
Fixpoint deriv (c : ascii) (r : regex) : regex :=
  match r with
  | Void => Void
  | Eps => Void
  | Class p => if p c then Eps else Void
  | Cat r1 r2 =>
      if nullable r1 then Alt (Cat (deriv c r1) r2) (deriv c r2)
      else Cat (deriv c r1) r2
  | Alt r1 r2 => Alt (deriv c r1) (deriv c r2)
  | And r1 r2 => And (deriv c r1) (deriv c r2)
  | Star r1 => Cat (deriv c r1) (Star r1)
  end.

Fixpoint matches (r : regex) (s : list ascii) : bool :=
  match s with
  | [] => nullable r
  | c :: s' => matches (deriv c r) s'
  end.

(** [r.test(s)] for a pattern anchored with [^] and [$]. *)
Definition test (r : regex) (s : string) : bool := matches r (chars s).

Definition Plus (r : regex) : regex := Cat r (Star r).
Definition Chr (c : ascii) : regex := Class (Ascii.eqb c).
Definition anyChar : regex := Class (fun _ => true).
(** [.]: any character but a line terminator. *)
Definition dot : regex := Class (fun c => negb (isLineTerminator c)).
(** [(?=r)] at the start of an anchored pattern. *)
Definition lookahead (r : regex) : regex := Cat r (Star anyChar).
Fixpoint atLeast (n : nat) (r : regex) : regex :=
  match n with
  | O => Star r
  | S k => Cat r (atLeast k r)
  end.

(** ** Dates

    A [Date] object is described by what the program reads from it: whether
    it is valid, its time value, its calendar fields in local time, and its
    rendering by [toString]. *)

Record DateFields : Type := mkDateFields {
  getTime : Z;            (* milliseconds since the epoch *)
  getFullYear : Z;
  getMonth : Z;           (* 0 = January ... 11 = December *)
  getDate : Z;            (* day of the month, from 1 *)
  dateText : string       (* Date.prototype.toString *)
}.

Inductive Date : Type :=
| InvalidDate : Date
| ValidDate : DateFields -> Date.

Definition dateToString (d : Date) : string :=
  match d with
  | InvalidDate => "Invalid Date"
  | ValidDate f => dateText f
  end.

(** [d.getTime()] as a number: [NaN] for an invalid date. *)
Definition dateTime (d : Date) : number :=
  match d with
  | InvalidDate => NaN
  | ValidDate f => ofZ (getTime f)
  end.

(** What [calculateAge] takes from its environment: the parser behind
    [new Date(string)], which is implementation defined outside the ISO
    format and reads the local time zone, and the clock behind
    [new Date()]. *)
Record Host : Type := mkHost {
  Date_parse : string -> Date;
  Date_now : DateFields
}.

End Js.

(* ===================================================================== *)
(** * The data model ([types/index.ts]) *)
(* ===================================================================== *)

Inductive FieldType : Type :=
  text | number | textarea | select | radio | checkbox | date.

Inductive ValidationRuleType : Type :=
  notEmpty | minLength | maxLength | email | password.

#[global] Instance FieldType_eq_dec : EqDecision FieldType.
Proof. solve_decision. Defined.

#[global] Instance ValidationRuleType_eq_dec : EqDecision ValidationRuleType.
Proof. solve_decision. Defined.

(** [FieldValue = string | number | boolean | string[] | Date | null].  A
    value read from a form-data object under an absent key is [undefined],
    and the code is written for it ([value?.toString()]), so the model has it
    too. *)
Inductive FieldValue : Type :=
| VString : string -> FieldValue
| VNumber : Js.number -> FieldValue
| VBoolean : bool -> FieldValue
| VArray : list string -> FieldValue
| VDate : Js.Date -> FieldValue
| VNull : FieldValue
| VUndefined : FieldValue.

Module ValidationRule.
Record t : Type := mk {
  type : ValidationRuleType;
  value : option Js.number;        (* [value?: number] *)
  message : string
}.
End ValidationRule.

Module DerivedFieldConfig.
Record t : Type := mk {
  parentFieldIds : list string;
  formula : string
}.
End DerivedFieldConfig.

Module FormField.
Record t : Type := mk {
  id : string;
  type : FieldType;
  label : string;
  required : bool;
  defaultValue : FieldValue;
  validationRules : list ValidationRule.t;
  options : option (list string);               (* [options?: string[]] *)
  isDerived : bool;
  derivedConfig : option DerivedFieldConfig.t   (* [derivedConfig?: ...] *)
}.
End FormField.

(** [Partial<FormField>]: every key may be left out.  For the two optional
    keys of [FormField] a present key may carry [undefined]. *)
Module Partial.
Record t : Type := mk {
  id : option string;
  type : option FieldType;
  label : option string;
  required : option bool;
  defaultValue : option FieldValue;
  validationRules : option (list ValidationRule.t);
  options : option (option (list string));
  isDerived : option bool;
  derivedConfig : option (option DerivedFieldConfig.t)
}.
End Partial.

Module FormSchema.
Record t : Type := mk {
  id : string;
  name : string;
  fields : list FormField.t;
  createdAt : string;
  updatedAt : string
}.
End FormSchema.

(** [PreviewData]: an object used as a map from field ids to values. *)
Abbreviation PreviewData := (gmap string FieldValue).

(** [{ ...field, ...updates }]. *)
Definition spread (f : FormField.t) (u : Partial.t) : FormField.t :=
  {| FormField.id := default (FormField.id f) (Partial.id u);
     FormField.type := default (FormField.type f) (Partial.type u);
     FormField.label := default (FormField.label f) (Partial.label u);
     FormField.required := default (FormField.required f) (Partial.required u);
     FormField.defaultValue :=
       default (FormField.defaultValue f) (Partial.defaultValue u);
     FormField.validationRules :=
       default (FormField.validationRules f) (Partial.validationRules u);
     FormField.options := default (FormField.options f) (Partial.options u);
     FormField.isDerived :=
       default (FormField.isDerived f) (Partial.isDerived u);
     FormField.derivedConfig :=
       default (FormField.derivedConfig f) (Partial.derivedConfig u) |}.

(** ** Coercions of field values *)

(** [value?.toString()]: [None] is the [undefined] that the optional chain
    gives for [null] and [undefined]. *)
Definition toString (v : FieldValue) : option string :=
  match v with
  | VString s => Some s
  | VNumber n => Some (Js.numberToString n)
  | VBoolean b => Some (if b then "true" else "false")
  | VArray l => Some (Js.join "," l)
  | VDate d => Some (Js.dateToString d)
  | VNull | VUndefined => None
  end.

(** [a || b] on strings and [undefined]. *)
Definition orString (a : option string) (b : string) : string :=
  match a with
  | Some s => if Js.truthy s then s else b
  | None => b
  end.

(** [Number(value)]. *)
Definition Number (v : FieldValue) : Js.number :=
  match v with
  | VString s => Js.stringToNumber s
  | VNumber n => n
  | VBoolean b => if b then Js.ofZ 1 else Js.zero
  | VArray l => Js.stringToNumber (Js.join "," l)
  | VDate d => Js.dateTime d
  | VNull => Js.zero
  | VUndefined => Js.NaN
  end.

(** Truthiness of a field value. *)
Definition truthyValue (v : FieldValue) : bool :=
  match v with
  | VString s => Js.truthy s
  | VNumber n => Js.truthyNumber n
  | VBoolean b => b
  | VArray _ | VDate _ => true
  | VNull | VUndefined => false
  end.

(** [rule.value || 0]. *)
Definition valueOrZero (v : option Js.number) : Js.number :=
  match v with
  | Some n => if Js.truthyNumber n then n else Js.zero
  | None => Js.zero
  end.

(* ===================================================================== *)
(** * [utils/validation.ts] *)
(* ===================================================================== *)

(** A second copy of this file is appended to [utils/derivedFields.ts]; it
    differs in the two texts returned for the bounds of a number field, which
    it builds from [rule.value].  The pages import this one. *)
Module Validation.

Definition getAvailableValidationRules (fieldType : FieldType)
  : list ValidationRuleType :=
  let baseRules := [notEmpty] in
  match fieldType with
  | text | textarea => baseRules ++ [minLength; maxLength; email; password]
  | number => baseRules ++ [minLength; maxLength]
  | select | radio => baseRules
  | checkbox => baseRules
  | date => baseRules
  end.

(** [/^[^\s@]+@[^\s@]+\.[^\s@]+$/] *)
Definition notSpaceAt (c : ascii) : bool :=
  negb (Js.isWhiteSpace c || Ascii.eqb c "@").

Definition emailRegex : Js.regex :=
  Js.Cat (Js.Plus (Js.Class notSpaceAt))
    (Js.Cat (Js.Chr "@")
       (Js.Cat (Js.Plus (Js.Class notSpaceAt))
          (Js.Cat (Js.Chr ".") (Js.Plus (Js.Class notSpaceAt))))).

(** [/^(?=.*\d)(?=.*[a-z]).{8,}$/] *)
Definition passwordRegex : Js.regex :=
  Js.And (Js.lookahead (Js.Cat (Js.Star Js.dot) (Js.Class Js.isDigit)))
    (Js.And (Js.lookahead (Js.Cat (Js.Star Js.dot) (Js.Class Js.isLower)))
       (Js.atLeast 8 Js.dot)).

Definition validateRule (rule : ValidationRule.t) (value : FieldValue)
    (fieldType : FieldType) : option string :=
  let stringValue := orString (toString value) "" in
  match ValidationRule.type rule with
  | notEmpty =>
      if bool_decide (fieldType = checkbox) then
        let arrayValue := match value with VArray l => l | _ => [] end in
        if bool_decide (length arrayValue = 0%nat)
        then Some (ValidationRule.message rule) else None
      else
        if negb (Js.truthy (Js.trim stringValue))
        then Some (ValidationRule.message rule) else None
  | minLength =>
      if bool_decide (fieldType = number) then
        let numValue := Number value in
        if negb (Js.isNaN numValue)
           && Js.lt numValue (valueOrZero (ValidationRule.value rule))
        then Some (ValidationRule.message rule) else None
      else
        if Js.lt (Js.ofZ (Js.strlen stringValue))
             (valueOrZero (ValidationRule.value rule))
        then Some (ValidationRule.message rule) else None
  | maxLength =>
      if bool_decide (fieldType = number) then
        let numValue := Number value in
        if negb (Js.isNaN numValue)
           && Js.gt numValue (valueOrZero (ValidationRule.value rule))
        then Some (ValidationRule.message rule) else None
      else
        if Js.gt (Js.ofZ (Js.strlen stringValue))
             (valueOrZero (ValidationRule.value rule))
        then Some (ValidationRule.message rule) else None
  | email =>
      if Js.truthy stringValue && negb (Js.test emailRegex stringValue)
      then Some (ValidationRule.message rule) else None
  | password =>
      if Js.truthy stringValue && negb (Js.test passwordRegex stringValue)
      then Some (ValidationRule.message rule) else None
  end.

(** [if (error)]: the truthiness of a [string | null]. *)
Definition truthyError (error : option string) : bool :=
  match error with
  | Some s => Js.truthy s
  | None => false
  end.

(** The [for ... of] loop of [validateField] over the rules that remain. *)
Fixpoint validateRules (rules : list ValidationRule.t) (value : FieldValue)
    (fieldType : FieldType) : option string :=
  match rules with
  | [] => None
  | rule :: rest =>
      let error := validateRule rule value fieldType in
      if truthyError error then error
      else validateRules rest value fieldType
  end.

Definition validateField (field : FormField.t) (value : FieldValue)
  : option string :=
  validateRules (FormField.validationRules field) value (FormField.type field).

End Validation.

(* ===================================================================== *)
(** * [utils/derivedFields.ts] *)
(* ===================================================================== *)

Module DerivedFields.

(** [formData[fieldId]]: an absent key reads as [undefined]. *)
Definition get (formData : PreviewData) (fieldId : string) : FieldValue :=
  default VUndefined (formData !! fieldId).

(** The callback of [reduce] in [calculateSum]. *)
Definition sumStep (formData : PreviewData) (sum : Js.number)
    (fieldId : string) : Js.number :=
  let value := get formData fieldId in
  let numValue :=
    match value with
    | VNumber n => n
    | _ => Js.parseFloat (orString (toString value) "0")
    end in
  Js.add sum (if Js.isNaN numValue then Js.zero else numValue).

Definition calculateSum (parentFieldIds : list string)
    (formData : PreviewData) : Js.number :=
  fold_left (sumStep formData) parentFieldIds Js.zero.

(** The calendar fields are integers of at most six digits, on which the
    arithmetic of numbers is exact; it is carried out in [Z] and the result
    is returned as a number.  [birthdateFieldId] is [parentFieldIds[0]],
    which is [undefined] for an empty list and then names the key
    ["undefined"]. *)
Definition calculateAge (host : Js.Host) (birthdateFieldId : option string)
    (formData : PreviewData) : Js.number :=
  let birthdate := toString (get formData (default "undefined" birthdateFieldId)) in
  match birthdate with
  | None => Js.ofZ 0
  | Some birthdate =>
      if negb (Js.truthy birthdate) then Js.ofZ 0
      else
        let birthDate := Js.Date_parse host birthdate in
        let today := Js.Date_now host in
        match birthDate with
        | Js.InvalidDate => Js.ofZ 0
        | Js.ValidDate birthDate =>
            let age := Js.getFullYear today - Js.getFullYear birthDate in
            let monthDiff := Js.getMonth today - Js.getMonth birthDate in
            let age :=
              if (monthDiff <? 0)
                 || ((monthDiff =? 0)
                     && (Js.getDate today <? Js.getDate birthDate))
              then age - 1 else age in
            Js.ofZ (Z.max 0 age)
        end
  end.

Definition calculateDerivedValue (host : Js.Host) (field : FormField.t)
    (formData : PreviewData) : FieldValue :=
  match FormField.isDerived field, FormField.derivedConfig field with
  | true, Some config =>
      let formula := DerivedFieldConfig.formula config in
      let parentFieldIds := DerivedFieldConfig.parentFieldIds config in
      if String.eqb formula "sum" then
        VNumber (calculateSum parentFieldIds formData)
      else if String.eqb formula "age_from_birthdate" then
        VNumber (calculateAge host (head parentFieldIds) formData)
      else VString ""
  | _, _ =>
      if truthyValue (FormField.defaultValue field)
      then FormField.defaultValue field else VString ""
  end.

End DerivedFields.

(* ===================================================================== *)
(** * [store/slices/formBuilderSlice.ts] *)
(* ===================================================================== *)

Module FormBuilderSlice.

Record FormBuilderState : Type := mkState {
  currentForm : option FormSchema.t;
  isLoading : bool;
  error : option string
}.

Definition withFields (now : string) (form : FormSchema.t)
    (fields : list FormField.t) : FormSchema.t :=
  {| FormSchema.id := FormSchema.id form;
     FormSchema.name := FormSchema.name form;
     FormSchema.fields := fields;
     FormSchema.createdAt := FormSchema.createdAt form;
     FormSchema.updatedAt := now |}.

Definition withForm (state : FormBuilderState) (form : FormSchema.t)
  : FormBuilderState :=
  {| currentForm := Some form;
     isLoading := isLoading state;
     error := error state |}.

(** [fields.findIndex(f => f.id === fieldId)], [None] for [-1]. *)
Fixpoint findIndex (fieldId : string) (fields : list FormField.t)
  : option nat :=
  match fields with
  | [] => None
  | f :: rest =>
      if String.eqb (FormField.id f) fieldId then Some 0%nat
      else S <$> findIndex fieldId rest
  end.

(** Every reducer that stamps [updatedAt] takes the time [now] of its
    dispatch, [new Date().toISOString()]. *)
Definition addField (now : string) (field : FormField.t)
    (state : FormBuilderState) : FormBuilderState :=
  match currentForm state with
  | Some form =>
      withForm state (withFields now form (FormSchema.fields form ++ [field]))
  | None => state
  end.

Definition updateField (now : string) (fieldId : string) (field : Partial.t)
    (state : FormBuilderState) : FormBuilderState :=
  match currentForm state with
  | Some form =>
      match findIndex fieldId (FormSchema.fields form) with
      | Some fieldIndex =>
          match FormSchema.fields form !! fieldIndex with
          | Some old =>
              withForm state
                (withFields now form
                   (<[fieldIndex := spread old field]> (FormSchema.fields form)))
          | None => state
          end
      | None => state
      end
  | None => state
  end.

Definition deleteField (now : string) (fieldId : string)
    (state : FormBuilderState) : FormBuilderState :=
  match currentForm state with
  | Some form =>
      withForm state
        (withFields now form
           (filter (fun f => FormField.id f ≠ fieldId) (FormSchema.fields form)))
  | None => state
  end.


(** [createNewForm]: [id] is the [nanoid()] of the dispatch, [createdAt] and
    [updatedAt] the times of its two [new Date().toISOString()]. *)
Definition createNewForm (id createdAt updatedAt : string)
    (state : FormBuilderState) : FormBuilderState :=
  withForm state
    {| FormSchema.id := id;
       FormSchema.name := "Untitled Form";
       FormSchema.fields := [];
       FormSchema.createdAt := createdAt;
       FormSchema.updatedAt := updatedAt |}.

Definition setCurrentForm (payload : option FormSchema.t)
    (state : FormBuilderState) : FormBuilderState :=
  {| currentForm := payload;
     isLoading := isLoading state;
     error := error state |}.

Definition updateFormName (now : string) (payload : string)
    (state : FormBuilderState) : FormBuilderState :=
  match currentForm state with
  | Some form =>
      withForm state
        {| FormSchema.id := FormSchema.id form;
           FormSchema.name := payload;
           FormSchema.fields := FormSchema.fields form;
           FormSchema.createdAt := FormSchema.createdAt form;
           FormSchema.updatedAt := now |}
  | None => state
  end.

Definition reorderFields (now : string) (payload : list FormField.t)
    (state : FormBuilderState) : FormBuilderState :=
  match currentForm state with
  | Some form => withForm state (withFields now form payload)
  | None => state
  end.

Definition clearCurrentForm (state : FormBuilderState) : FormBuilderState :=
  {| currentForm := None;
     isLoading := isLoading state;
     error := error state |}.

Definition setLoading (payload : bool) (state : FormBuilderState)
  : FormBuilderState :=
  {| currentForm := currentForm state;
     isLoading := payload;
     error := error state |}.

Definition setError (payload : option string) (state : FormBuilderState)
  : FormBuilderState :=
  {| currentForm := currentForm state;
     isLoading := isLoading state;
     error := payload |}.

(** The actions of the slice.  An action that reads the clock or draws an id
    carries what it read. *)
Inductive Action : Type :=
| CreateNewForm (id createdAt updatedAt : string)
| SetCurrentForm (payload : option FormSchema.t)
| UpdateFormName (now payload : string)
| AddField (now : string) (payload : FormField.t)
| UpdateField (now fieldId : string) (field : Partial.t)
| DeleteField (now payload : string)
| ReorderFields (now : string) (payload : list FormField.t)
| ClearCurrentForm
| SetLoading (payload : bool)
| SetError (payload : option string).

Definition reducer (state : FormBuilderState) (action : Action)
  : FormBuilderState :=
  match action with
  | CreateNewForm id createdAt updatedAt =>
      createNewForm id createdAt updatedAt state
  | SetCurrentForm payload => setCurrentForm payload state
  | UpdateFormName now payload => updateFormName now payload state
  | AddField now payload => addField now payload state
  | UpdateField now fieldId field => updateField now fieldId field state
  | DeleteField now payload => deleteField now payload state
  | ReorderFields now payload => reorderFields now payload state
  | ClearCurrentForm => clearCurrentForm state
  | SetLoading payload => setLoading payload state
  | SetError payload => setError payload state
  end.

End FormBuilderSlice.

(* ===================================================================== *)
(** * [store/slices/savedFormsSlice.ts] *)
(* ===================================================================== *)

Module SavedFormsSlice.

Record SavedFormsState : Type := mkState {
  forms : list FormSchema.t;
  isLoading : bool;
  error : option string
}.

Definition initialState : SavedFormsState :=
  {| forms := []; isLoading := false; error := None |}.

Definition withForms (state : SavedFormsState) (forms : list FormSchema.t)
  : SavedFormsState :=
  {| forms := forms; isLoading := isLoading state; error := error state |}.

(** [state.forms.findIndex(f => f.id === id)], [None] for [-1]. *)
Fixpoint findIndex (id : string) (forms : list FormSchema.t) : option nat :=
  match forms with
  | [] => None
  | f :: rest =>
      if String.eqb (FormSchema.id f) id then Some 0%nat
      else S <$> findIndex id rest
  end.

Definition loadSavedForms (payload : list FormSchema.t)
    (state : SavedFormsState) : SavedFormsState :=
  withForms state payload.

Definition saveForm (payload : FormSchema.t) (state : SavedFormsState)
  : SavedFormsState :=
  match findIndex (FormSchema.id payload) (forms state) with
  | Some existingIndex =>
      withForms state (<[existingIndex := payload]> (forms state))
  | None => withForms state (forms state ++ [payload])
  end.

Definition deleteForm (payload : string) (state : SavedFormsState)
  : SavedFormsState :=
  withForms state
    (filter (fun f => FormSchema.id f ≠ payload) (forms state)).

Definition setLoading (payload : bool) (state : SavedFormsState)
  : SavedFormsState :=
  {| forms := forms state; isLoading := payload; error := error state |}.

Definition setError (payload : option string) (state : SavedFormsState)
  : SavedFormsState :=
  {| forms := forms state; isLoading := isLoading state; error := payload |}.

End SavedFormsSlice.

(* ===================================================================== *)
(** * The validation-rules editor ([fieldConfig/validationRules.tsx]) *)
(* ===================================================================== *)

(** The component receives [rules], [fieldType] and [isRequired] as props and
    reports every edit through its two callbacks.  A handler is modelled by
    the callbacks it invokes, in order; a handler that can fail returns an
    option. *)
Module ValidationRules.

Inductive Callback : Type :=
| onChange : list ValidationRule.t -> Callback
| onRequiredChange : bool -> Callback.

Record Props : Type := mkProps {
  rules : list ValidationRule.t;
  fieldType : FieldType;
  isRequired : bool
}.

(** [Partial<ValidationRule>]; a present [value] key may carry
    [undefined]. *)
Record PartialRule : Type := mkPartialRule {
  p_type : option ValidationRuleType;
  p_value : option (option Js.number);
  p_message : option string
}.

Definition spreadRule (r : ValidationRule.t) (u : PartialRule)
  : ValidationRule.t :=
  {| ValidationRule.type := default (ValidationRule.type r) (p_type u);
     ValidationRule.value := default (ValidationRule.value r) (p_value u);
     ValidationRule.message := default (ValidationRule.message r) (p_message u) |}.

Definition isType (t : ValidationRuleType) (rule : ValidationRule.t) : bool :=
  bool_decide (ValidationRule.type rule = t).

(** [rules.some(rule => rule.type === 'notEmpty')] *)
Definition hasRequiredRule (rules : list ValidationRule.t) : bool :=
  existsb (isType notEmpty) rules.

Definition getDefaultMessage (fieldType : FieldType)
    (type : ValidationRuleType) : string :=
  match type with
  | notEmpty =>
      if bool_decide (fieldType = checkbox)
      then "Please select at least one option" else "This field is required"
  | email => "Please enter a valid email address"
  | password => "Password must be at least 8 characters with a number"
  | minLength =>
      if bool_decide (fieldType = number)
      then "Value must be at least the minimum" else "Minimum length required"
  | maxLength =>
      if bool_decide (fieldType = number)
      then "Value must not exceed the maximum" else "Maximum length exceeded"
  end.

(** The first effect: a required field without a [notEmpty] rule gets one
    appended. *)
Definition requiredEffect (p : Props) : list Callback :=
  if isRequired p && negb (hasRequiredRule (rules p)) then
    [onChange (rules p ++
       [ValidationRule.mk notEmpty None (getDefaultMessage (fieldType p) notEmpty)])]
  else [].

Definition usedTypes (rs : list ValidationRule.t) : list ValidationRuleType :=
  map ValidationRule.type rs.

Definition availableForAdd (p : Props) : list ValidationRuleType :=
  filter (fun t => t ∉ usedTypes (rules p))
    (Validation.getAvailableValidationRules (fieldType p)).

Definition addRule (p : Props) : list Callback :=
  match availableForAdd p with
  | ruleType :: _ =>
      let newRule :=
        ValidationRule.mk ruleType
          (if bool_decide (ruleType = minLength) || bool_decide (ruleType = maxLength)
           then Some (Js.ofZ 1) else None)
          (getDefaultMessage (fieldType p) ruleType) in
      [onChange (rules p ++ [newRule])]
  | [] => []
  end.

(** [newRules[index] = { ...newRules[index], ...updatedRule }].  The
    rendered rows pass indices of the list.  Beyond its end the assignment
    would leave an array with holes, which is no list of rules: the model has
    no result there. *)
Definition updateRule (p : Props) (index : nat) (updatedRule : PartialRule)
  : option (list Callback) :=
  match rules p !! index with
  | Some old => Some [onChange (<[index := spreadRule old updatedRule]> (rules p))]
  | None => None
  end.

(** [rules.filter((_, i) => i !== index)] *)
Definition removeAt {A} (index : nat) (l : list A) : list A :=
  take index l ++ drop (S index) l.

(** [ruleToDelete.type] throws when [rules[index]] is [undefined]. *)
Definition deleteRule (p : Props) (index : nat) : option (list Callback) :=
  match rules p !! index with
  | Some ruleToDelete =>
      let newRules := removeAt index (rules p) in
      Some ((if isType notEmpty ruleToDelete then [onRequiredChange false] else [])
            ++ [onChange newRules])
  | None => None
  end.

Definition handleRuleTypeChange (p : Props) (index : nat)
    (newType : ValidationRuleType) : option (list Callback) :=
  updateRule p index
    {| p_type := Some newType;
       p_value :=
         Some (if bool_decide (newType = minLength) || bool_decide (newType = maxLength)
               then Some (Js.ofZ 1) else None);
       p_message := Some (getDefaultMessage (fieldType p) newType) |}.

Definition handleValueChange (p : Props) (index : nat) (value : string)
  : option (list Callback) :=
  if String.eqb value "" then
    updateRule p index (mkPartialRule None (Some (Some (Js.ofZ 1))) None)
  else
    let numValue := Js.parseInt value in
    if negb (Js.isNaN numValue) && Js.ge numValue (Js.ofZ 1) then
      updateRule p index (mkPartialRule None (Some (Some numValue)) None)
    else Some [].

Definition handleMessageChange (p : Props) (index : nat) (message : string)
  : option (list Callback) :=
  updateRule p index (mkPartialRule None None (Some message)).

(** The field type is a [FieldType], so ['email'] and ['password'] in the
    lists of the source never equal it: [email] is kept on [text] and
    [textarea], [password] on [text], and the length rules are dropped on
    [checkbox], [radio] and [select]. *)
Definition relevant (fieldType : FieldType) (rule : ValidationRule.t) : bool :=
  if isType email rule
     && negb (bool_decide (fieldType = text) || bool_decide (fieldType = textarea))
  then false
  else if isType password rule && negb (bool_decide (fieldType = text))
  then false
  else if (isType minLength rule || isType maxLength rule)
          && (bool_decide (fieldType = checkbox)
              || bool_decide (fieldType = radio)
              || bool_decide (fieldType = select))
  then false
  else true.

Definition getRelevantRules (fieldType : FieldType)
    (rules : list ValidationRule.t) : list ValidationRule.t :=
  List.filter (relevant fieldType) rules.

(** The second effect: rules that do not belong to the field type are
    removed when the type (or the rule list) changes. *)
Definition cleanupEffect (p : Props) : list Callback :=
  let relevantRules := getRelevantRules (fieldType p) (rules p) in
  if bool_decide (length relevantRules ≠ length (rules p))
  then [onChange relevantRules] else [].

(** The effects of one render, in the order of their declaration; both read
    the props of that render. *)
Definition effects (p : Props) : list Callback :=
  requiredEffect p ++ cleanupEffect p.

End ValidationRules.

(* ===================================================================== *)
(** * The derived-field component ([fieldConfig/derivedFieldConfig.tsx]) *)
(* ===================================================================== *)

(** The component reports through [onChange]; a handler is modelled by the
    calls of [onChange] that it makes. *)
Module DerivedFieldConfigComponent.

Record Props : Type := mkProps {
  fieldType : FieldType;
  isDerived : bool;
  config : option DerivedFieldConfig.t;
  availableFields : list FormField.t
}.

(** The arguments of one call of [onChange(isDerived, config?)]. *)
Record Change : Type := mkChange {
  c_isDerived : bool;
  c_config : option DerivedFieldConfig.t
}.

(** [Partial<DerivedFieldConfig>] *)
Record PartialConfig : Type := mkPartialConfig {
  p_parentFieldIds : option (list string);
  p_formula : option string
}.

(** The value of the parent select: an array when the select is [multiple],
    a string otherwise. *)
Inductive SelectValue : Type :=
| Several : list string -> SelectValue
| One : string -> SelectValue.

Definition canBeDerivable (p : Props) : bool :=
  bool_decide (fieldType p = number).

Definition isPlainNumber (f : FormField.t) : bool :=
  bool_decide (FormField.type f = number) && negb (FormField.isDerived f).

Definition isDate (f : FormField.t) : bool :=
  bool_decide (FormField.type f = date).

Definition getCompatibleFields (p : Props) (formula : option string)
  : list FormField.t :=
  match formula with
  | Some formula =>
      if String.eqb formula "sum" then
        List.filter isPlainNumber (availableFields p)
      else if String.eqb formula "age_from_birthdate" then
        List.filter isDate (availableFields p)
      else []
  | None => []
  end.

Definition hasNumberFields (p : Props) : bool :=
  existsb isPlainNumber (availableFields p).

Definition hasDateFields (p : Props) : bool :=
  existsb isDate (availableFields p).

Definition handleDerivedToggle (p : Props) (checked : bool) : list Change :=
  if checked && canBeDerivable p then
    let defaultFormula :=
      if hasDateFields p then "age_from_birthdate" else "sum" in
    [mkChange true
       (Some {| DerivedFieldConfig.parentFieldIds := [];
                DerivedFieldConfig.formula := defaultFormula |})]
  else [mkChange false None].

(** [{ ...config, ...updates }] *)
Definition spreadConfig (config : DerivedFieldConfig.t)
    (updates : PartialConfig) : DerivedFieldConfig.t :=
  {| DerivedFieldConfig.parentFieldIds :=
       default (DerivedFieldConfig.parentFieldIds config)
         (p_parentFieldIds updates);
     DerivedFieldConfig.formula :=
       default (DerivedFieldConfig.formula config) (p_formula updates) |}.

Definition clearParents (config : DerivedFieldConfig.t)
  : DerivedFieldConfig.t :=
  {| DerivedFieldConfig.parentFieldIds := [];
     DerivedFieldConfig.formula := DerivedFieldConfig.formula config |}.

Definition updateConfig (p : Props) (updates : PartialConfig) : list Change :=
  match config p with
  | Some config =>
      let newConfig := spreadConfig config updates in
      let newConfig :=
        match p_formula updates with
        | Some formula =>
            if Js.truthy formula then clearParents newConfig else newConfig
        | None => newConfig
        end in
      [mkChange true (Some newConfig)]
  | None => []
  end.

Definition handleFormulaChange (p : Props) (formula : string) : list Change :=
  updateConfig p (mkPartialConfig None (Some formula)).

(** [config?.formula === 'sum' ? value as string[] : [value as string]]: the
    casts hold when the value has the shape of the select that produced it;
    for the other shape the model has no result. *)
Definition handleParentFieldsChange (p : Props) (value : SelectValue)
  : option (list Change) :=
  let isSum :=
    match config p with
    | Some config => String.eqb (DerivedFieldConfig.formula config) "sum"
    | None => false
    end in
  match isSum, value with
  | true, Several ids => Some (updateConfig p (mkPartialConfig (Some ids) None))
  | false, One id => Some (updateConfig p (mkPartialConfig (Some [id]) None))
  | _, _ => None
  end.

(** What the switch and the two selects of the component can do. *)
Inductive Action : Type :=
| DerivedToggle : bool -> Action
| FormulaChange : string -> Action
| ParentFieldsChange : SelectValue -> Action.

Definition changes (p : Props) (action : Action) : option (list Change) :=
  match action with
  | DerivedToggle checked => Some (handleDerivedToggle p checked)
  | FormulaChange formula => Some (handleFormulaChange p formula)
  | ParentFieldsChange value => handleParentFieldsChange p value
  end.

End DerivedFieldConfigComponent.

(** The copy of the component whose comments read "Fixed: ...". *)
Module DerivedFieldConfigComponentFixed.
Import DerivedFieldConfigComponent.

Definition handleDerivedToggle (p : Props) (checked : bool) : list Change :=
  if negb (canBeDerivable p) then []
  else if checked then
    let defaultFormula :=
      if hasDateFields p then "age_from_birthdate" else "sum" in
    [mkChange true
       (Some {| DerivedFieldConfig.parentFieldIds := [];
                DerivedFieldConfig.formula := defaultFormula |})]
  else [mkChange false None].

Definition updateConfig (p : Props) (updates : PartialConfig) : list Change :=
  match config p with
  | Some config =>
      let newConfig := spreadConfig config updates in
      let newConfig :=
        match p_formula updates with
        | Some formula =>
            if Js.truthy formula
               && negb (String.eqb formula (DerivedFieldConfig.formula config))
            then clearParents newConfig else newConfig
        | None => newConfig
        end in
      [mkChange true (Some newConfig)]
  | None => []
  end.

Definition handleFormulaChange (p : Props) (formula : string) : list Change :=
  updateConfig p (mkPartialConfig None (Some formula)).

End DerivedFieldConfigComponentFixed.

(* ===================================================================== *)
(** * The options component ([fieldConfig/fieldOptions.tsx]) *)
(* ===================================================================== *)

(** A handler is modelled by the callbacks that it invokes, in order. *)
Module FieldOptions.

Inductive Callback : Type :=
| onChange : list string -> Callback
| onDefaultValueChange : FieldValue -> Callback.

Record Props : Type := mkProps {
  options : list string;
  defaultValue : FieldValue;
  fieldType : FieldType
}.

(** [Array.isArray(defaultValue) ? defaultValue : []] *)
Definition currentDefaults (p : Props) : list string :=
  match defaultValue p with
  | VArray l => l
  | _ => []
  end.

(** [defaultValue === option], where [option] is [options[index]] and so
    [undefined] beyond the end. *)
Definition isOption (v : FieldValue) (option : option string) : bool :=
  match v, option with
  | VString s, Some o => String.eqb s o
  | VUndefined, None => true
  | _, _ => false
  end.

(** [val !== option] *)
Definition differs (option : option string) (val : string) : bool :=
  match option with
  | Some o => negb (String.eqb val o)
  | None => true
  end.

Definition includes (l : list string) (s : string) : bool :=
  existsb (String.eqb s) l.

(** [addOption]; [newOption] is the text of the input. *)
Definition addOption (p : Props) (newOption : string) : list Callback :=
  if Js.truthy (Js.trim newOption)
  then [onChange (options p ++ [Js.trim newOption])]
  else [].

(** [newOptions[index] = value].  The rendered rows pass indices of the
    list; at or beyond its end the assignment extends the array, and the
    model has no result there. *)
Definition updateOption (p : Props) (index : nat) (value : string)
  : option (list Callback) :=
  match options p !! index with
  | Some oldValue =>
      let newOptions := <[index := value]> (options p) in
      Some
        (onChange newOptions ::
         if bool_decide (fieldType p = checkbox) then
           if includes (currentDefaults p) oldValue then
             [onDefaultValueChange
                (VArray (map (fun def => if String.eqb def oldValue
                                         then value else def)
                           (currentDefaults p)))]
           else []
         else
           if isOption (defaultValue p) (Some oldValue)
           then [onDefaultValueChange (VString value)] else [])
  | None => None
  end.

Definition deleteOption (p : Props) (index : nat) : list Callback :=
  let optionToDelete := options p !! index in
  let newOptions := ValidationRules.removeAt index (options p) in
  onChange newOptions ::
  if bool_decide (fieldType p = checkbox) then
    [onDefaultValueChange
       (VArray (List.filter (differs optionToDelete) (currentDefaults p)))]
  else
    if isOption (defaultValue p) optionToDelete
    then [onDefaultValueChange (VString "")] else [].

Definition handleCheckboxDefaultChange (p : Props) (option : string)
    (checked : bool) : list Callback :=
  let newDefaults :=
    if checked then currentDefaults p ++ [option]
    else List.filter (differs (Some option)) (currentDefaults p) in
  [onDefaultValueChange (VArray newDefaults)].

Definition handleDefaultValueSelectChange (value : string) : list Callback :=
  [onDefaultValueChange (VString value)].

(** What the rows, the input and the select of the component can do. *)
Inductive Action : Type :=
| AddOption : string -> Action
| UpdateOption : nat -> string -> Action
| DeleteOption : nat -> Action
| CheckboxDefaultChange : string -> bool -> Action
| DefaultValueSelectChange : string -> Action.

Definition callbacks (p : Props) (action : Action) : option (list Callback) :=
  match action with
  | AddOption newOption => Some (addOption p newOption)
  | UpdateOption index value => updateOption p index value
  | DeleteOption index => Some (deleteOption p index)
  | CheckboxDefaultChange option checked =>
      Some (handleCheckboxDefaultChange p option checked)
  | DefaultValueSelectChange value =>
      Some (handleDefaultValueSelectChange value)
  end.

End FieldOptions.

(* ===================================================================== *)
(** * The field configuration panel ([fieldConfig/fieldConfigPanel.tsx]) *)
(* ===================================================================== *)

(** Every handler of the panel ends in [handleUpdate(updates)], which hands
    the [Partial<FormField>] to the store; a handler is modelled by the
    updates it hands over. *)
Module FieldConfigPanel.

Definition isChoice (type : FieldType) : bool :=
  bool_decide (type = select) || bool_decide (type = radio)
  || bool_decide (type = checkbox).

Definition handleRequiredToggle (field : FormField.t) (checked : bool)
  : Partial.t :=
  let currentRules := FormField.validationRules field in
  let newRules :=
    if checked then
      if ValidationRules.hasRequiredRule currentRules then currentRules
      else
        ValidationRule.mk notEmpty None
          (if bool_decide (FormField.type field = checkbox)
           then "Please select at least one option"
           else "This field is required")
        :: currentRules
    else
      List.filter (fun rule => negb (ValidationRules.isType notEmpty rule))
        currentRules in
  {| Partial.id := None; Partial.type := None; Partial.label := None;
     Partial.required := Some checked;
     Partial.defaultValue := None;
     Partial.validationRules := Some newRules;
     Partial.options := None; Partial.isDerived := None;
     Partial.derivedConfig := None |}.

Definition handleValidationRulesChange (rules : list ValidationRule.t)
  : Partial.t :=
  let hasRequiredRule := ValidationRules.hasRequiredRule rules in
  {| Partial.id := None; Partial.type := None; Partial.label := None;
     Partial.required := Some hasRequiredRule;
     Partial.defaultValue := None;
     Partial.validationRules := Some rules;
     Partial.options := None; Partial.isDerived := None;
     Partial.derivedConfig := None |}.

Definition handleFieldTypeChange (field : FormField.t) (type : FieldType)
  : Partial.t :=
  {| Partial.id := None;
     Partial.type := Some type;
     Partial.label := None;
     Partial.required := None;
     Partial.defaultValue :=
       if (bool_decide (FormField.type field = checkbox)
           && negb (bool_decide (type = checkbox)))
          || (negb (bool_decide (FormField.type field = checkbox))
              && bool_decide (type = checkbox))
       then Some (VString "") else None;
     Partial.validationRules := None;
     Partial.options :=
       if negb (isChoice type) then Some None
       else Some (Some (default [] (FormField.options field)));
     Partial.isDerived :=
       if bool_decide (type = number) then None else Some false;
     Partial.derivedConfig :=
       if bool_decide (type = number) then None else Some None |}.

Definition handleDefaultValueChange (field : FormField.t) (value : string)
  : Partial.t :=
  let processedValue :=
    if bool_decide (FormField.type field = number) then
      if Js.truthy value then VNumber (Js.stringToNumber value) else VString ""
    else VString value in
  {| Partial.id := None; Partial.type := None; Partial.label := None;
     Partial.required := None;
     Partial.defaultValue := Some processedValue;
     Partial.validationRules := None;
     Partial.options := None; Partial.isDerived := None;
     Partial.derivedConfig := None |}.

Definition handleOptionsChange (options : list string) : Partial.t :=
  let validOptions :=
    List.filter (fun option => Js.truthy (Js.trim option)) options in
  {| Partial.id := None; Partial.type := None; Partial.label := None;
     Partial.required := None; Partial.defaultValue := None;
     Partial.validationRules := None;
     Partial.options := Some (Some validOptions);
     Partial.isDerived := None; Partial.derivedConfig := None |}.

Definition handleDefaultValueForOptionsChange (value : FieldValue)
  : Partial.t :=
  {| Partial.id := None; Partial.type := None; Partial.label := None;
     Partial.required := None; Partial.defaultValue := Some value;
     Partial.validationRules := None;
     Partial.options := None;
     Partial.isDerived := None; Partial.derivedConfig := None |}.

Definition handleDerivedFieldChange (isDerived : bool)
    (derivedConfig : option DerivedFieldConfig.t) : Partial.t :=
  {| Partial.id := None; Partial.type := None; Partial.label := None;
     Partial.required := None; Partial.defaultValue := None;
     Partial.validationRules := None;
     Partial.options := None;
     Partial.isDerived := Some isDerived;
     Partial.derivedConfig := Some derivedConfig |}.

(** The label text field: [handleUpdate({ label })]. *)
Definition handleLabelChange (label : string) : Partial.t :=
  {| Partial.id := None; Partial.type := None; Partial.label := Some label;
     Partial.required := None; Partial.defaultValue := None;
     Partial.validationRules := None;
     Partial.options := None;
     Partial.isDerived := None; Partial.derivedConfig := None |}.

(** The props that the panel passes to the rules editor. *)
Definition rulesProps (field : FormField.t) : ValidationRules.Props :=
  {| ValidationRules.rules := FormField.validationRules field;
     ValidationRules.fieldType := FormField.type field;
     ValidationRules.isRequired := FormField.required field |}.

(** The wiring of the editor's callbacks: [onChange] is
    [handleValidationRulesChange] and [onRequiredChange] is
    [handleRequiredToggle], both closed over the field of the current
    render. *)
Definition callback (field : FormField.t) (c : ValidationRules.Callback)
  : Partial.t :=
  match c with
  | ValidationRules.onChange rules => handleValidationRulesChange rules
  | ValidationRules.onRequiredChange checked => handleRequiredToggle field checked
  end.

(** The store applies the updates in the order of their dispatch, each as
    [{ ...field, ...updates }] ([updateField]). *)
Definition dispatchAll (field : FormField.t) (updates : list Partial.t)
  : FormField.t :=
  fold_left spread updates field.

(** The updates that the effects of the editor hand over after a render. *)
Definition effects (field : FormField.t) : list Partial.t :=
  map (callback field) (ValidationRules.effects (rulesProps field)).

(** The edits that the panel and the editor inside it offer, and the round
    of effects of the editor. *)
Inductive Edit : Type :=
| LabelChange : string -> Edit
| FieldTypeChange : FieldType -> Edit
| RequiredToggle : bool -> Edit
| DefaultValueChange : string -> Edit
| OptionsChange : list string -> Edit
| DefaultValueForOptionsChange : FieldValue -> Edit
| DerivedFieldChange : bool -> option DerivedFieldConfig.t -> Edit
| AddRule : Edit
| DeleteRule : nat -> Edit
| RuleTypeChange : nat -> ValidationRuleType -> Edit
| RuleValueChange : nat -> string -> Edit
| RuleMessageChange : nat -> string -> Edit
| EditorEffects : Edit.

Definition updatesOf (field : FormField.t) (e : Edit)
  : option (list Partial.t) :=
  let p := rulesProps field in
  match e with
  | LabelChange label => Some [handleLabelChange label]
  | FieldTypeChange type => Some [handleFieldTypeChange field type]
  | RequiredToggle checked => Some [handleRequiredToggle field checked]
  | DefaultValueChange value => Some [handleDefaultValueChange field value]
  | OptionsChange options => Some [handleOptionsChange options]
  | DefaultValueForOptionsChange value =>
      Some [handleDefaultValueForOptionsChange value]
  | DerivedFieldChange isDerived config =>
      Some [handleDerivedFieldChange isDerived config]
  | AddRule => Some (map (callback field) (ValidationRules.addRule p))
  | DeleteRule index =>
      map (callback field) <$> ValidationRules.deleteRule p index
  | RuleTypeChange index newType =>
      map (callback field) <$> ValidationRules.handleRuleTypeChange p index newType
  | RuleValueChange index value =>
      map (callback field) <$> ValidationRules.handleValueChange p index value
  | RuleMessageChange index message =>
      map (callback field) <$> ValidationRules.handleMessageChange p index message
  | EditorEffects => Some (effects field)
  end.

(** The field after an edit. *)
Definition edit (field : FormField.t) (e : Edit) : option FormField.t :=
  dispatchAll field <$> updatesOf field e.

(** Renders follow one another until the effects have nothing to report. *)
Fixpoint settle (fuel : nat) (field : FormField.t) : FormField.t :=
  match fuel with
  | O => field
  | S k =>
      match effects field with
      | [] => field
      | updates => settle k (dispatchAll field updates)
      end
  end.

(** A type change, followed by the renders that it triggers (two rounds of
    effects are enough, see [settle_stable]). *)
Definition changeType (field : FormField.t) (type : FieldType) : FormField.t :=
  settle 2 (dispatchAll field [handleFieldTypeChange field type]).


(** ** The derived-field component inside the panel *)

(** [filteredAvailableFields] *)
Definition filteredAvailableFields (field : FormField.t)
    (availableFields : list FormField.t) : list FormField.t :=
  filter (fun f => FormField.id f ≠ FormField.id field) availableFields.

(** The props that the panel passes to the derived-field component. *)
Definition derivedProps (field : FormField.t)
    (availableFields : list FormField.t) : DerivedFieldConfigComponent.Props :=
  {| DerivedFieldConfigComponent.fieldType := FormField.type field;
     DerivedFieldConfigComponent.isDerived := FormField.isDerived field || false;
     DerivedFieldConfigComponent.config := FormField.derivedConfig field;
     DerivedFieldConfigComponent.availableFields :=
       filteredAvailableFields field availableFields |}.

(** [onChange] of the component is [handleDerivedFieldChange]. *)
Definition derivedCallback (c : DerivedFieldConfigComponent.Change)
  : Partial.t :=
  handleDerivedFieldChange (DerivedFieldConfigComponent.c_isDerived c)
    (DerivedFieldConfigComponent.c_config c).

(** The field after an action of the derived-field component. *)
Definition editDerived (field : FormField.t)
    (availableFields : list FormField.t)
    (action : DerivedFieldConfigComponent.Action) : option FormField.t :=
  (fun cs => dispatchAll field (map derivedCallback cs))
  <$> DerivedFieldConfigComponent.changes (derivedProps field availableFields)
        action.

(** ** The options component inside the panel *)

(** The props that the panel passes to the options component. *)
Definition optionsProps (field : FormField.t) : FieldOptions.Props :=
  {| FieldOptions.options := default [] (FormField.options field);
     FieldOptions.defaultValue := FormField.defaultValue field;
     FieldOptions.fieldType := FormField.type field |}.

(** [onChange] is [handleOptionsChange] and [onDefaultValueChange] is
    [handleDefaultValueForOptionsChange]. *)
Definition optionsCallback (c : FieldOptions.Callback) : Partial.t :=
  match c with
  | FieldOptions.onChange options => handleOptionsChange options
  | FieldOptions.onDefaultValueChange value =>
      handleDefaultValueForOptionsChange value
  end.

(** The field after an action of the options component. *)
Definition editOptions (field : FormField.t) (action : FieldOptions.Action)
  : option FormField.t :=
  (fun cs => dispatchAll field (map optionsCallback cs))
  <$> FieldOptions.callbacks (optionsProps field) action.

(** ** The check of the default value *)

Record DefaultValueValidation : Type := mkDefaultValueValidation {
  error : bool;
  helperText : string
}.

(** [`${rule.value}`] *)
Definition valueText (value : option Js.number) : string :=
  match value with
  | Some n => Js.numberToString n
  | None => "undefined"
  end.

(** A case [rule && test] of a [switch (true)]: it is taken when the rule
    was found and the test holds. *)
Definition found (rule : option ValidationRule.t)
    (test : ValidationRule.t -> bool) : option ValidationRule.t :=
  match rule with
  | Some rule => if test rule then Some rule else None
  | None => None
  end.

(** [defaultValueValidation]: the check of the default value of a number
    field against the first minimum and the first maximum of its rules. *)
Definition defaultValueValidation (field : FormField.t)
  : DefaultValueValidation :=
  if bool_decide (FormField.type field = number) then
    if truthyValue (FormField.defaultValue field) then
      let numValue := Number (FormField.defaultValue field) in
      let minRule :=
        List.find (ValidationRules.isType minLength)
          (FormField.validationRules field) in
      let maxRule :=
        List.find (ValidationRules.isType maxLength)
          (FormField.validationRules field) in
      match found minRule
              (fun minRule =>
                 Js.lt numValue (valueOrZero (ValidationRule.value minRule)))
      with
      | Some minRule =>
          mkDefaultValueValidation true
            ("Value must be at least "
             +:+ valueText (ValidationRule.value minRule))
      | None =>
          match found maxRule
                  (fun maxRule =>
                     Js.gt numValue
                       (valueOrZero (ValidationRule.value maxRule)))
          with
          | Some maxRule =>
              mkDefaultValueValidation true
                ("Value must be at most "
                 +:+ valueText (ValidationRule.value maxRule))
          | None => mkDefaultValueValidation false ""
          end
      end
    else mkDefaultValueValidation false ""
  else mkDefaultValueValidation false "".

(** [needsOptions] *)
Definition needsOptions (field : FormField.t) : bool :=
  isChoice (FormField.type field).

Definition isSaveDisabled (field : FormField.t) : bool :=
  negb (Js.truthy (Js.trim (FormField.label field)))
  || (needsOptions field
      && match FormField.options field with
         | Some options => bool_decide (length options = 0%nat)
         | None => true
         end)
  || error (defaultValueValidation field).

End FieldConfigPanel.

(** The other copy of the panel in the repository, whose comments read
    "Fixed: ...": its [handleFieldTypeChange] also converts the default value
    and cleans the rules itself. *)
Module FieldConfigPanelFixed.

Definition handleFieldTypeChange (field : FormField.t) (type : FieldType)
  : Partial.t :=
  let old := FormField.type field in
  let defaultValue :=
    if bool_decide (old = date) && negb (bool_decide (type = date))
    then Some (VString "")
    else if bool_decide (old = checkbox) && negb (bool_decide (type = checkbox))
    then Some (VString "")
    else if negb (bool_decide (old = checkbox)) && bool_decide (type = checkbox)
    then Some (VArray [])
    else if bool_decide (type = number) then
      let currentValue := FormField.defaultValue field in
      if truthyValue currentValue && negb (Js.isNaN (Number currentValue))
      then Some (VNumber (Number currentValue))
      else Some (VString "")
    else None in
  let currentRules := FormField.validationRules field in
  let cleanedRules := ValidationRules.getRelevantRules type currentRules in
  let changed := bool_decide (length cleanedRules ≠ length currentRules) in
  {| Partial.id := None;
     Partial.type := Some type;
     Partial.label := None;
     Partial.required :=
       if changed then Some (ValidationRules.hasRequiredRule cleanedRules)
       else None;
     Partial.defaultValue := defaultValue;
     Partial.validationRules := if changed then Some cleanedRules else None;
     Partial.options :=
       if negb (FieldConfigPanel.isChoice type) then Some None
       else Some (Some (default [] (FormField.options field)));
     Partial.isDerived :=
       if bool_decide (type = number) then None else Some false;
     Partial.derivedConfig :=
       if bool_decide (type = number) then None else Some None |}.

End FieldConfigPanelFixed.

(* ===================================================================== *)
(** * [pages/createPage.tsx] *)
(* ===================================================================== *)

Module CreatePage.

Import FormBuilderSlice.

(** [currentForm.fields.some(f => f.id === parentId)] *)
Definition hasField (fields : list FormField.t) (parentId : string) : bool :=
  existsb (fun f => String.eqb (FormField.id f) parentId) fields.

Definition demote : Partial.t :=
  {| Partial.id := None; Partial.type := None; Partial.label := None;
     Partial.required := None; Partial.defaultValue := None;
     Partial.validationRules := None; Partial.options := None;
     Partial.isDerived := Some false;
     Partial.derivedConfig := Some None |}.

Definition reparent (config : DerivedFieldConfig.t)
    (validParentIds : list string) : Partial.t :=
  {| Partial.id := None; Partial.type := None; Partial.label := None;
     Partial.required := None; Partial.defaultValue := None;
     Partial.validationRules := None; Partial.options := None;
     Partial.isDerived := None;
     Partial.derivedConfig :=
       Some (Some {| DerivedFieldConfig.parentFieldIds := validParentIds;
                     DerivedFieldConfig.formula :=
                       DerivedFieldConfig.formula config |}) |}.

(** The body of [currentForm.fields.forEach] in the cleanup effect: what is
    pushed to [fieldsToUpdate] for one field. *)
Definition updateFor (fields : list FormField.t) (field : FormField.t)
  : list (string * Partial.t) :=
  match FormField.isDerived field, FormField.derivedConfig field with
  | true, Some config =>
      let parentFieldIds := DerivedFieldConfig.parentFieldIds config in
      let validParentIds := List.filter (hasField fields) parentFieldIds in
      if bool_decide (length validParentIds = 0%nat) then
        [(FormField.id field, demote)]
      else if bool_decide (length validParentIds ≠ length parentFieldIds) then
        [(FormField.id field, reparent config validParentIds)]
      else []
  | _, _ => []
  end.

Definition fieldsToUpdate (fields : list FormField.t)
  : list (string * Partial.t) :=
  flat_map (updateFor fields) fields.

(** [fieldsToUpdate.forEach(... dispatch(updateField(...)))]; [clock n] is
    the time of the [n]-th dispatch. *)
Fixpoint dispatchUpdates (clock : nat -> string) (n : nat)
    (updates : list (string * Partial.t)) (state : FormBuilderState)
  : FormBuilderState :=
  match updates with
  | [] => state
  | (fieldId, u) :: rest =>
      dispatchUpdates clock (S n) rest (updateField (clock n) fieldId u state)
  end.

(** The effect "clean up derived fields when parent fields are deleted". *)
Definition cleanupDerivedFields (clock : nat -> string)
    (state : FormBuilderState) : FormBuilderState :=
  match currentForm state with
  | None => state
  | Some form =>
      dispatchUpdates clock 0%nat (fieldsToUpdate (FormSchema.fields form)) state
  end.

(** [handleDeleteField] dispatches [deleteField]; the render that follows
    runs the cleanup effect, whose dispatches are stamped by [clock]. *)
Definition handleDeleteField (now : string) (clock : nat -> string)
    (fieldId : string) (state : FormBuilderState) : FormBuilderState :=
  cleanupDerivedFields clock (deleteField now fieldId state).


(** The field that [handleAddField] dispatches; [id] is the [nanoid()] of the
    call and [fieldCount] is [currentForm?.fields.length || 0]. *)
Definition newField (id : string) (fieldCount : nat) : FormField.t :=
  {| FormField.id := id;
     FormField.type := text;
     FormField.label :=
       "Field " +:+ Js.numberToString (Js.ofZ (Z.of_nat fieldCount + 1));
     FormField.required := false;
     FormField.defaultValue := VString "";
     FormField.validationRules := [];
     FormField.options := None;
     FormField.isDerived := false;
     FormField.derivedConfig := None |}.

Definition handleAddField (now id : string) (state : FormBuilderState)
  : FormBuilderState :=
  let fieldCount :=
    match currentForm state with
    | Some form => length (FormSchema.fields form)
    | None => 0%nat
    end in
  addField now (newField id fieldCount) state.

(** [handleUpdateField]: nothing is dispatched without a selected field. *)
Definition handleUpdateField (now : string)
    (selectedField : option FormField.t) (updates : Partial.t)
    (state : FormBuilderState) : FormBuilderState :=
  match selectedField with
  | Some selected => updateField now (FormField.id selected) updates state
  | None => state
  end.

(** The payload of a drag, [{ fieldId, index }], as [FieldCard] writes it at
    the start of the drag. *)
Record DragItem : Type := mkDragItem {
  fieldId : string;
  index : nat
}.

(** [newFields.splice(start, 1)] and [newFields.splice(start, 0, item)]; a
    start beyond the end is taken to be the end. *)
Definition spliceOut {A} (start : nat) (l : list A) : list A :=
  take start l ++ drop (S start) l.

Definition spliceIn {A} (start : nat) (item : A) (l : list A) : list A :=
  take start l ++ item :: drop start l.

(** The list that [handleDrop] hands to [reorderFields].  When the index of
    the drag is beyond the end, [draggedField] is [undefined] and the result
    is no list of fields: the model has no result there. *)
Definition droppedFields (draggedItem : DragItem) (dropIndex : nat)
    (fields : list FormField.t) : option (list FormField.t) :=
  match fields !! index draggedItem with
  | Some draggedField =>
      let newFields := spliceOut (index draggedItem) fields in
      let insertIndex :=
        if (index draggedItem <? dropIndex)%nat
        then (dropIndex - 1)%nat else dropIndex in
      Some (spliceIn insertIndex draggedField newFields)
  | None => None
  end.

(** [handleDrop]: without a drag, without a form or on the card that is
    dragged nothing is dispatched. *)
Definition handleDrop (now : string) (draggedItem : option DragItem)
    (dropIndex : nat) (state : FormBuilderState) : option FormBuilderState :=
  match draggedItem, currentForm state with
  | Some item, Some form =>
      if (index item =? dropIndex)%nat then Some state
      else
        match droppedFields item dropIndex (FormSchema.fields form) with
        | Some newFields => Some (reorderFields now newFields state)
        | None => None
        end
  | _, _ => Some state
  end.

End CreatePage.

(* ===================================================================== *)
(** * The field renderer ([preview/formRenderer.tsx]) *)
(* ===================================================================== *)

Module FormFieldRenderer.

(** Each handler is modelled by the value that it passes to [onChange]. *)
Definition handleTextChange (text : string) : FieldValue := VString text.

(** [e.target.value ? Number(e.target.value) : ''] *)
Definition handleNumberChange (text : string) : FieldValue :=
  if Js.truthy text then VNumber (Js.stringToNumber text) else VString "".

(** [Array.isArray(value) ? value : []] *)
Definition checkboxValues (value : FieldValue) : list string :=
  match value with
  | VArray l => l
  | _ => []
  end.

Definition handleCheckboxChange (value : FieldValue) (option : string)
    (checked : bool) : FieldValue :=
  if checked then VArray (checkboxValues value ++ [option])
  else VArray (List.filter (fun v => negb (String.eqb v option))
                 (checkboxValues value)).

(** [checked={checkboxValues.includes(option)}] *)
Definition isChecked (value : FieldValue) (option : string) : bool :=
  existsb (String.eqb option) (checkboxValues value).

(** [value?.toString() || ''] *)
Definition displayValue (value : FieldValue) : string :=
  orString (toString value) "".

(** [field.options?.filter(option => option.trim()) || []] *)
Definition filteredOptions (field : FormField.t) : list string :=
  match FormField.options field with
  | Some options => List.filter (fun option => Js.truthy (Js.trim option)) options
  | None => []
  end.

End FormFieldRenderer.

(* ===================================================================== *)
(** * [pages/previewPage.tsx] *)
(* ===================================================================== *)

Module PreviewPage.

(** [ValidationErrors]: an object used as a map from field ids to
    messages. *)
Abbreviation ValidationErrors := (gmap string string).

Inductive Severity : Type := Success | Error | Warning | Info.

Record Notification : Type := mkNotification {
  open : bool;
  message : string;
  type : Severity
}.

(** [a === b] on field values.  Two arrays, or two dates, are the same when
    they are the same object, which the values of the model do not tell: the
    model has no result there. *)
Definition strictEquals (a b : FieldValue) : option bool :=
  match a, b with
  | VString s, VString t => Some (String.eqb s t)
  | VNumber x, VNumber y => Some (SFeqb x y)
  | VBoolean x, VBoolean y => Some (Bool.eqb x y)
  | VNull, VNull => Some true
  | VUndefined, VUndefined => Some true
  | VArray _, VArray _ => None
  | VDate _, VDate _ => None
  | _, _ => Some false
  end.

(** [value === undefined], [value === ''] and [value === null]. *)
Definition isUndefined (value : FieldValue) : bool :=
  match value with VUndefined => true | _ => false end.

Definition isEmptyString (value : FieldValue) : bool :=
  match value with VString s => String.eqb s "" | _ => false end.

Definition isNull (value : FieldValue) : bool :=
  match value with VNull => true | _ => false end.

(** The effect "initialize form data with default values". *)
Definition initialStep (initialData : PreviewData) (field : FormField.t)
  : PreviewData :=
  let defaultValue := FormField.defaultValue field in
  if negb (FormField.isDerived field)
     && negb (isUndefined defaultValue)
     && negb (isEmptyString defaultValue)
  then <[FormField.id field := defaultValue]> initialData
  else initialData.

Definition initialData (fields : list FormField.t) : PreviewData :=
  fold_left initialStep fields ∅.

(** The effect "calculate derived fields whenever form data changes": the
    body of its [forEach], on the pair of [updatedData] and [hasChanges]. *)
Definition derivedStep (host : Js.Host) (formData : PreviewData)
    (acc : option (PreviewData * bool)) (field : FormField.t)
  : option (PreviewData * bool) :=
  match acc with
  | Some (updatedData, hasChanges) =>
      let derivedValue :=
        DerivedFields.calculateDerivedValue host field formData in
      match strictEquals (DerivedFields.get updatedData (FormField.id field))
              derivedValue with
      | Some true => Some (updatedData, hasChanges)
      | Some false =>
          Some (<[FormField.id field := derivedValue]> updatedData, true)
      | None => None
      end
  | None => None
  end.

Definition recalculate (host : Js.Host) (fields : list FormField.t)
    (formData : PreviewData) : option (PreviewData * bool) :=
  fold_left (derivedStep host formData)
    (List.filter FormField.isDerived fields) (Some (formData, false)).

(** The form data after the effect: [setFormData(updatedData)] is called
    when [hasChanges]. *)
Definition derivedEffect (host : Js.Host) (fields : list FormField.t)
    (formData : PreviewData) : option PreviewData :=
  match recalculate host fields formData with
  | Some (updatedData, hasChanges) =>
      Some (if hasChanges then updatedData else formData)
  | None => None
  end.

Definition validateStep (formData : PreviewData) (errors : ValidationErrors)
    (field : FormField.t) : ValidationErrors :=
  let value := DerivedFields.get formData (FormField.id field) in
  match Validation.validateField field value with
  | Some error =>
      if Js.truthy error then <[FormField.id field := error]> errors else errors
  | None => errors
  end.

Definition validateForm (fields : list FormField.t) (formData : PreviewData)
  : ValidationErrors :=
  fold_left (validateStep formData) fields ∅.

(** [handleFieldChange]: the form data and the errors after it. *)
Definition handleFieldChange (fieldId : string) (value : FieldValue)
    (formData : PreviewData) (validationErrors : ValidationErrors)
  : PreviewData * ValidationErrors :=
  (<[fieldId := value]> formData,
   match validationErrors !! fieldId with
   | Some error =>
       if Js.truthy error then delete fieldId validationErrors
       else validationErrors
   | None => validationErrors
   end).

(** [handleSubmit]: the errors that it stores and the notification that it
    shows. *)
Definition handleSubmit (fields : list FormField.t) (formData : PreviewData)
  : ValidationErrors * Notification :=
  let errors := validateForm fields formData in
  (errors,
   if bool_decide (size errors = 0%nat) then
     mkNotification true
       "Form is valid! In a real application, this would submit the data."
       Success
   else
     mkNotification true
       ("Form has " +:+ Js.numberToString (Js.ofZ (Z.of_nat (size errors)))
        +:+ " validation error(s). Please fix them before submitting.")
       Error).

Record FormStats : Type := mkFormStats {
  total : nat;
  filled : nat;
  errors : nat
}.

(** [value !== undefined && value !== '' && value !== null] *)
Definition isFilled (formData : PreviewData) (field : FormField.t) : bool :=
  let value := DerivedFields.get formData (FormField.id field) in
  negb (isUndefined value) && negb (isEmptyString value)
  && negb (isNull value).

Definition formStats (fields : list FormField.t) (formData : PreviewData)
    (validationErrors : ValidationErrors) : FormStats :=
  {| total := length fields;
     filled := length (List.filter (isFilled formData) fields);
     errors := size validationErrors |}.

End PreviewPage.

(* ===================================================================== *)
(** * Vocabulary of the properties *)
(* ===================================================================== *)

Module Spec.

(** The string form of a value: [value?.toString() || '']. *)
Definition stringForm (v : FieldValue) : string := orString (toString v) "".

(** ** The language of a pattern *)

Inductive Matches : Js.regex -> list ascii -> Prop :=
| M_Eps : Matches Js.Eps []
| M_Class p c : p c = true -> Matches (Js.Class p) [c]
| M_Cat r1 r2 s1 s2 :
    Matches r1 s1 -> Matches r2 s2 -> Matches (Js.Cat r1 r2) (s1 ++ s2)
| M_AltL r1 r2 s : Matches r1 s -> Matches (Js.Alt r1 r2) s
| M_AltR r1 r2 s : Matches r2 s -> Matches (Js.Alt r1 r2) s
| M_And r1 r2 s : Matches r1 s -> Matches r2 s -> Matches (Js.And r1 r2) s
| M_StarNil r : Matches (Js.Star r) []
| M_StarApp r s1 s2 :
    Matches r s1 -> Matches (Js.Star r) s2 -> Matches (Js.Star r) (s1 ++ s2).

(** ** The shape of an e-mail address

    [local-part @ domain . tld]: three non-empty parts without white space
    and without [@], the first two separated by [@] and the last two by a
    dot.  (Dots may occur inside the parts.) *)
Definition part (s : list ascii) : Prop :=
  s <> [] /\ forallb Validation.notSpaceAt s = true.

Definition EmailShape (s : list ascii) : Prop :=
  exists l d t, s = l ++ "@"%char :: d ++ "."%char :: t
                /\ part l /\ part d /\ part t.

Fixpoint noConsecutiveDots (s : list ascii) : bool :=
  match s with
  | [] => true
  | c :: r =>
      match r with
      | c' :: _ =>
          if Ascii.eqb c "." && Ascii.eqb c' "." then false
          else noConsecutiveDots r
      | [] => true
      end
  end.

(** The shape with the further condition that no two dots are adjacent. *)
Definition EmailShapeNoDoubleDot (s : list ascii) : Prop :=
  EmailShape s /\ noConsecutiveDots s = true.

(** ** Required flag and [notEmpty] rule *)

(** [required] is true exactly when a [notEmpty] rule is in the list. *)
Definition inSync (f : FormField.t) : Prop :=
  FormField.required f
  = ValidationRules.hasRequiredRule (FormField.validationRules f).

(** The rule that the required switch inserts. *)
Definition requiredRule (fieldType : FieldType) : ValidationRule.t :=
  ValidationRule.mk notEmpty None
    (if bool_decide (fieldType = checkbox)
     then "Please select at least one option" else "This field is required").

Definition withoutNotEmpty (rules : list ValidationRule.t)
  : list ValidationRule.t :=
  List.filter (fun rule => negb (ValidationRules.isType notEmpty rule)) rules.

(** An update that writes the rule list together with the flag computed
    from it, and an update that writes neither. *)
Definition setsBoth (u : Partial.t) : Prop :=
  exists rules,
    Partial.validationRules u = Some rules
    /\ Partial.required u = Some (ValidationRules.hasRequiredRule rules).

Definition leavesBoth (u : Partial.t) : Prop :=
  Partial.validationRules u = None /\ Partial.required u = None.

(** ** Rule types and field types *)

(** The rule type is in the table of the field type. *)
Definition applicable (fieldType : FieldType) (rule : ValidationRule.t) : Prop :=
  ValidationRule.type rule ∈ Validation.getAvailableValidationRules fieldType.

(** ** Schemas *)

Definition fieldsOf (state : FormBuilderSlice.FormBuilderState)
  : list FormField.t :=
  match FormBuilderSlice.currentForm state with
  | Some form => FormSchema.fields form
  | None => []
  end.

(** What [updateField] does to the list of fields. *)
Definition updateFieldList (fieldId : string) (u : Partial.t)
    (fields : list FormField.t) : list FormField.t :=
  match FormBuilderSlice.findIndex fieldId fields with
  | Some fieldIndex =>
      match fields !! fieldIndex with
      | Some old => <[fieldIndex := spread old u]> fields
      | None => fields
      end
  | None => fields
  end.

(** The update applied to a field when it has the id, and a series of
    them. *)
Definition patch (fieldId : string) (u : Partial.t) (f : FormField.t)
  : FormField.t :=
  if String.eqb (FormField.id f) fieldId then spread f u else f.

Definition patchAll (updates : list (string * Partial.t)) (f : FormField.t)
  : FormField.t :=
  fold_left (fun f '(fieldId, u) => patch fieldId u f) updates f.

(** A field after the cleanup effect, in a schema with the given fields. *)
Definition cleaned (fields : list FormField.t) (f : FormField.t)
  : FormField.t :=
  patchAll (CreatePage.updateFor fields f) f.


(** ** Whole years between two dates *)

(** [(m1, d1)] precedes [(m2, d2)]. *)
Definition precedes (m1 d1 m2 d2 : Z) : bool :=
  (m1 <? m2) || ((m1 =? m2) && (d1 <? d2)).

(** The current year minus the birth year, less one when the current
    (month, day) precedes the birth (month, day), and at least 0. *)
Definition wholeYears (today birth : Js.DateFields) : Z :=
  let years := Js.getFullYear today - Js.getFullYear birth in
  Z.max 0
    (if precedes (Js.getMonth today) (Js.getDate today)
                 (Js.getMonth birth) (Js.getDate birth)
     then years - 1 else years).

(** The Gregorian calendar, months counted from 0. *)
Definition isLeap (y : Z) : bool :=
  ((y mod 4 =? 0) && negb (y mod 100 =? 0)) || (y mod 400 =? 0).

Definition daysInMonth (y m : Z) : Z :=
  if m =? 1 then (if isLeap y then 29 else 28)
  else if (m =? 3) || (m =? 5) || (m =? 8) || (m =? 10) then 30
  else 31.

Definition validDay (ymd : Z * Z * Z) : Prop :=
  let '(y, m, d) := ymd in 0 <= m <= 11 /\ 1 <= d <= daysInMonth y m.

Definition nextDay (ymd : Z * Z * Z) : Z * Z * Z :=
  let '(y, m, d) := ymd in
  if d <? daysInMonth y m then (y, m, d + 1)
  else if m <? 11 then (y, m + 1, 1)
  else (y + 1, 0, 1).

Definition ymd (d : Js.DateFields) : Z * Z * Z :=
  (Js.getFullYear d, Js.getMonth d, Js.getDate d).

(** ** Sums of parsed values *)

(** The floating-point parse of a value: a number as it is, anything else
    through its string form. *)
Definition floatParse (v : FieldValue) : Js.number :=
  match v with
  | VNumber n => n
  | _ => Js.parseFloat (stringForm v)
  end.

(** What a parent contributes: its parse, or 0 when it is missing or its
    parse is not a number. *)
Definition contribution (v : option FieldValue) : Js.number :=
  match v with
  | None => Js.zero
  | Some v => if Js.isNaN (floatParse v) then Js.zero else floatParse v
  end.



(** ** Saved forms *)

Definition formWithId (formId : string) (forms : list FormSchema.t)
  : option FormSchema.t :=
  List.find (fun form => String.eqb (FormSchema.id form) formId) forms.
Definition formIds (forms : list FormSchema.t) : list string :=
  map FormSchema.id forms.

(** ** Field ids and actions *)

Definition fieldIds (fields : list FormField.t) : list string :=
  FormField.id <$> fields.
Definition opensForm (action : FormBuilderSlice.Action) : bool :=
  match action with
  | FormBuilderSlice.CreateNewForm _ _ _ => true
  | FormBuilderSlice.SetCurrentForm (Some _) => true
  | _ => false
  end.

(** ** Derived fields *)

Definition derivedIsNumber (f : FormField.t) : Prop :=
  FormField.isDerived f = true \/ FormField.derivedConfig f <> None ->
  FormField.type f = number.

Definition ageHasOneParent (f : FormField.t) : Prop :=
  forall config,
    FormField.derivedConfig f = Some config ->
    DerivedFieldConfig.formula config <> "sum" ->
    (length (DerivedFieldConfig.parentFieldIds config) <= 1)%nat.

(** ** Options *)

Definition nonBlank (option : string) : Prop :=
  Js.truthy (Js.trim option) = true.

Definition optionsOf (f : FormField.t) : list string :=
  default [] (FormField.options f).

(** The default selection of a choice field names options of the field: the
    boxes ticked by default for a checkbox field, the preselected entry
    (or none, the empty string) for a select or radio field. *)
Definition defaultsAmongOptions (f : FormField.t) : Prop :=
  match FormField.type f with
  | checkbox =>
      forall l, FormField.defaultValue f = VArray l ->
                forall d, d ∈ l -> d ∈ optionsOf f
  | select | radio =>
      forall s, FormField.defaultValue f = VString s ->
                s = "" \/ s ∈ optionsOf f
  | _ => True
  end.

(** The text of an edited option is not blank, and a default that is picked
    is picked among the options. *)
Definition namesOptions (f : FormField.t) (action : FieldOptions.Action)
  : Prop :=
  match action with
  | FieldOptions.UpdateOption _ value => nonBlank value
  | FieldOptions.CheckboxDefaultChange option _ => option ∈ optionsOf f
  | FieldOptions.DefaultValueSelectChange value =>
      value = "" \/ value ∈ optionsOf f
  | _ => True
  end.

(** ** The derived values of the preview *)

(** The keys of the form data that the value of a derived field is computed
    from. *)
Definition reads (f : FormField.t) : list string :=
  match FormField.isDerived f, FormField.derivedConfig f with
  | true, Some config =>
      let parentFieldIds := DerivedFieldConfig.parentFieldIds config in
      if String.eqb (DerivedFieldConfig.formula config) "sum"
      then parentFieldIds
      else if String.eqb (DerivedFieldConfig.formula config) "age_from_birthdate"
      then [default "undefined" (head parentFieldIds)]
      else []
  | _, _ => []
  end.

Definition derivedFields (fields : list FormField.t) : list FormField.t :=
  List.filter FormField.isDerived fields.

(** A value that is strictly equal to itself: every value of the model but
    [NaN], and the arrays and dates, whose identity the model does not
    tell. *)
Definition reflexive (v : FieldValue) : Prop :=
  PreviewPage.strictEquals v v = Some true.

(** ** Rule lists *)

Definition isBound (type : ValidationRuleType) : bool :=
  bool_decide (type = minLength) || bool_decide (type = maxLength).

(** Every length or value bound of the list is a number, and at least 1. *)
Definition boundsPositive (rules : list ValidationRule.t) : Prop :=
  Forall (fun rule =>
            isBound (ValidationRule.type rule) = true ->
            exists n, ValidationRule.value rule = Some n
                      /\ Js.ge n (Js.ofZ 1) = true)
    rules.

Definition ruleTypes (rules : list ValidationRule.t)
  : list ValidationRuleType :=
  ValidationRule.type <$> rules.

(** What an edit other than a change of a rule's type does to the list of
    rules of a field of the given type. *)
Inductive ruleStep (fieldType : FieldType) (rules : list ValidationRule.t)
  : list ValidationRule.t -> Prop :=
| step_sublist rules' :
    rules' `sublist_of` rules -> ruleStep fieldType rules rules'
| step_required_first message :
    ValidationRules.hasRequiredRule rules = false ->
    ruleStep fieldType rules (ValidationRule.mk notEmpty None message :: rules)
| step_required_last message :
    ValidationRules.hasRequiredRule rules = false ->
    ruleStep fieldType rules (rules ++ [ValidationRule.mk notEmpty None message])
| step_add type :
    type ∈ Validation.getAvailableValidationRules fieldType ->
    type ∉ ruleTypes rules ->
    ruleStep fieldType rules
      (rules ++ [ValidationRule.mk type
                   (if isBound type then Some (Js.ofZ 1) else None)
                   (ValidationRules.getDefaultMessage fieldType type)])
| step_value index rule n :
    rules !! index = Some rule ->
    Js.ge n (Js.ofZ 1) = true ->
    ruleStep fieldType rules
      (<[index := ValidationRule.mk (ValidationRule.type rule) (Some n)
                    (ValidationRule.message rule)]> rules)
| step_message index rule message :
    rules !! index = Some rule ->
    ruleStep fieldType rules
      (<[index := ValidationRule.mk (ValidationRule.type rule)
                    (ValidationRule.value rule) message]> rules).

(** ** The shape of a password

    At least eight characters, none of them a line terminator, among them a
    digit and a lower-case letter [a]..[z]. *)
Definition PasswordShape (s : list ascii) : Prop :=
  (8 <= length s)%nat
  /\ forallb (fun c => negb (Js.isLineTerminator c)) s = true
  /\ existsb Js.isDigit s = true
  /\ existsb Js.isLower s = true.


End Spec.

(* ===================================================================== *)
(** * Sample data *)
(* ===================================================================== *)

Module Sample.

(** ** A host

    Its [Date] parser reads the date-only ISO form [YYYY-MM-DD] and takes
    local time to be UTC; its clock stands at 3 November 2026. *)

Definition twoDigits (n : Z) : list ascii :=
  [Js.digitChar (n / 10); Js.digitChar (n mod 10)].

(** Days from 1 January 1970 to a day of the proleptic Gregorian
    calendar ([m] from 0). *)
Definition daysFromCivil (y m d : Z) : Z :=
  let y' := if m <? 2 then y - 1 else y in
  let era := y' / 400 in
  let yoe := y' - era * 400 in
  let mp := (m + 10) mod 12 in
  let doy := (153 * mp + 2) / 5 + d - 1 in
  let doe := yoe * 365 + yoe / 4 - yoe / 100 + doy in
  era * 146097 + doe - 719468.

Definition dayName (n : Z) : string :=
  nth (Z.to_nat n) ["Sun"; "Mon"; "Tue"; "Wed"; "Thu"; "Fri"; "Sat"] "".

Definition monthName (m : Z) : string :=
  nth (Z.to_nat m)
    ["Jan"; "Feb"; "Mar"; "Apr"; "May"; "Jun";
     "Jul"; "Aug"; "Sep"; "Oct"; "Nov"; "Dec"] "".

Definition midnight (y m d : Z) : Js.DateFields :=
  let days := daysFromCivil y m d in
  {| Js.getTime := days * 86400000;
     Js.getFullYear := y;
     Js.getMonth := m;
     Js.getDate := d;
     Js.dateText :=
       dayName ((days + 4) mod 7) +:+ " " +:+ monthName m +:+ " "
       +:+ Js.str (twoDigits d) +:+ " " +:+ Js.str (Js.natDigits y)
       +:+ " 00:00:00 GMT+0000 (Coordinated Universal Time)" |}.

Definition parseIsoDate (s : string) : Js.Date :=
  match Js.chars s with
  | [y1; y2; y3; y4; dash1; m1; m2; dash2; d1; d2] =>
      if forallb Js.isDigit [y1; y2; y3; y4; m1; m2; d1; d2]
         && Ascii.eqb dash1 "-" && Ascii.eqb dash2 "-"
      then
        let y := Js.digitsToZ [y1; y2; y3; y4] in
        let m := Js.digitsToZ [m1; m2] - 1 in
        let d := Js.digitsToZ [d1; d2] in
        if (0 <=? m) && (m <=? 11) && (1 <=? d) && (d <=? Spec.daysInMonth y m)
        then Js.ValidDate (midnight y m d)
        else Js.InvalidDate
      else Js.InvalidDate
  | _ => Js.InvalidDate
  end.

Definition host : Js.Host :=
  {| Js.Date_parse := parseIsoDate; Js.Date_now := midnight 2026 10 3 |}.

(** ** Rules and fields *)

Definition notEmptyRule : ValidationRule.t :=
  ValidationRule.mk notEmpty None "This field is required".

Definition blankNotEmpty : ValidationRule.t :=
  ValidationRule.mk notEmpty None "".

Definition minLength3 : ValidationRule.t :=
  ValidationRule.mk minLength (Some (Js.ofZ 3)) "Minimum length required".

Definition minValue5 : ValidationRule.t :=
  ValidationRule.mk minLength (Some (Js.ofZ 5)) "Value must be at least the minimum".

Definition emailRule : ValidationRule.t :=
  ValidationRule.mk email None "Please enter a valid email address".

Definition field (type : FieldType) (required : bool)
    (rules : list ValidationRule.t) : FormField.t :=
  {| FormField.id := "f1"; FormField.type := type; FormField.label := "Field 1";
     FormField.required := required; FormField.defaultValue := VString "";
     FormField.validationRules := rules; FormField.options := None;
     FormField.isDerived := false; FormField.derivedConfig := None |}.

(** A text field with a default value. *)
Definition nickname : FormField.t :=
  {| FormField.id := "f2"; FormField.type := text; FormField.label := "Nickname";
     FormField.required := false; FormField.defaultValue := VString "abc";
     FormField.validationRules := []; FormField.options := None;
     FormField.isDerived := false; FormField.derivedConfig := None |}.

(** A date field with a default value. *)
Definition startDate : FormField.t :=
  {| FormField.id := "f3"; FormField.type := date; FormField.label := "Start";
     FormField.required := false; FormField.defaultValue := VString "2026-01-01";
     FormField.validationRules := []; FormField.options := None;
     FormField.isDerived := false; FormField.derivedConfig := None |}.

Definition derived (id : string) (formula : string) (parents : list string)
  : FormField.t :=
  {| FormField.id := id; FormField.type := number; FormField.label := "Derived";
     FormField.required := false; FormField.defaultValue := VString "";
     FormField.validationRules := []; FormField.options := None;
     FormField.isDerived := true;
     FormField.derivedConfig :=
       Some {| DerivedFieldConfig.parentFieldIds := parents;
               DerivedFieldConfig.formula := formula |} |}.

Definition birthdate : FormField.t :=
  {| FormField.id := "birth"; FormField.type := date; FormField.label := "Birthdate";
     FormField.required := false; FormField.defaultValue := VString "";
     FormField.validationRules := []; FormField.options := None;
     FormField.isDerived := false; FormField.derivedConfig := None |}.

Definition age : FormField.t := derived "age" "age_from_birthdate" ["birth"].
Definition total : FormField.t := derived "total" "sum" ["a"; "b"; "c"].

Definition form : FormSchema.t :=
  {| FormSchema.id := "form1"; FormSchema.name := "Untitled Form";
     FormSchema.fields := [birthdate; age];
     FormSchema.createdAt := "2026-11-03T00:00:00.000Z";
     FormSchema.updatedAt := "2026-11-03T00:00:00.000Z" |}.

Definition state : FormBuilderSlice.FormBuilderState :=
  {| FormBuilderSlice.currentForm := Some form;
     FormBuilderSlice.isLoading := false;
     FormBuilderSlice.error := None |}.

Definition clock (n : nat) : string := "2026-11-03T00:00:01.000Z".

Definition values : PreviewData :=
  {[ "a" := VNumber (Js.ofZ 2); "b" := VNumber (Js.ofZ 3); "c" := VString "oops";
     "birth" := VString "2008-11-03" ]}.


(** ** More fields, forms and data *)

(** A checkbox field with two options, one of them ticked by default. *)
Definition colours : FormField.t :=
  {| FormField.id := "f4"; FormField.type := checkbox; FormField.label := "Colours";
     FormField.required := false; FormField.defaultValue := VArray ["red"];
     FormField.validationRules := [];
     FormField.options := Some ["red"; "green"];
     FormField.isDerived := false; FormField.derivedConfig := None |}.

(** The form data of [Sample.values] once the age has been derived. *)
Definition withAge : PreviewData :=
  <["age" := VNumber (Js.ofZ 18)]> Sample.values.

(** Two amounts whose sum is not a number. *)
Definition unbounded : PreviewData :=
  {[ "a" := VNumber Js.Infinity; "b" := VNumber (S754_infinity true) ]}.

(** A number field whose default value is below its minimum. *)
Definition quantity : FormField.t :=
  {| FormField.id := "f5"; FormField.type := number; FormField.label := "Quantity";
     FormField.required := false; FormField.defaultValue := VNumber (Js.ofZ 3);
     FormField.validationRules := [Sample.minValue5];
     FormField.options := None;
     FormField.isDerived := false; FormField.derivedConfig := None |}.

(** A second form, and a library that holds the first one. *)
Definition survey : FormSchema.t :=
  {| FormSchema.id := "form2"; FormSchema.name := "Survey";
     FormSchema.fields := [Sample.nickname];
     FormSchema.createdAt := "2026-11-03T00:00:00.000Z";
     FormSchema.updatedAt := "2026-11-03T00:00:00.000Z" |}.

Definition saved : SavedFormsSlice.SavedFormsState :=
  {| SavedFormsSlice.forms := [Sample.form];
     SavedFormsSlice.isLoading := false;
     SavedFormsSlice.error := None |}.

End Sample.

(* ===================================================================== *)
(** * Hosts in a time zone *)
(* ===================================================================== *)

(** The [Date] of ECMAScript in a time zone at a fixed offset from UTC.
    [new Date(text)] reads the date-only form [YYYY-MM-DD], the form an
    [<input type="date">] delivers, as midnight UTC of that day;
    [getFullYear], [getMonth] and [getDate] give the calendar fields of
    local time, which is the time value plus the offset of the zone. *)

Module Zone.

Definition msPerMinute : Z := 60000.
Definition msPerDay : Z := 86400000.

(** The day of the proleptic Gregorian calendar that lies [z] days after
    1 January 1970 ([m] from 0): the inverse of [Sample.daysFromCivil]. *)
Definition civilFromDays (z : Z) : Z * Z * Z :=
  let z := z + 719468 in
  let era := z / 146097 in
  let doe := z - era * 146097 in
  let yoe := (doe - doe / 1460 + doe / 36524 - doe / 146096) / 365 in
  let doy := doe - (365 * yoe + yoe / 4 - yoe / 100) in
  let mp := (5 * doy + 2) / 153 in
  let d := doy - (153 * mp + 2) / 5 + 1 in
  let m := if mp <? 10 then mp + 2 else mp - 10 in
  let y := yoe + era * 400 in
  (if m <? 2 then y + 1 else y, m, d).

(** [+hhmm] or [-hhmm] for an offset in minutes. *)
Definition offsetText (offset : Z) : string :=
  (if offset <? 0 then "-" else "+")
  +:+ Js.str (Sample.twoDigits (Z.abs offset / 60))
  +:+ Js.str (Sample.twoDigits (Z.abs offset mod 60)).

(** The [Date] object of the time value [t] (milliseconds since the epoch)
    in the zone [offset] minutes ahead of UTC.  [toString] is given without
    the name of the zone, which is left to the implementation. *)
Definition localFields (offset t : Z) : Js.DateFields :=
  let localTime := t + offset * msPerMinute in
  let day := localTime / msPerDay in
  let timeInDay := localTime mod msPerDay in
  let '(y, m, d) := civilFromDays day in
  {| Js.getTime := t;
     Js.getFullYear := y;
     Js.getMonth := m;
     Js.getDate := d;
     Js.dateText :=
       Sample.dayName ((day + 4) mod 7) +:+ " " +:+ Sample.monthName m +:+ " "
       +:+ Js.str (Sample.twoDigits d) +:+ " " +:+ Js.str (Js.natDigits y)
       +:+ " " +:+ Js.str (Sample.twoDigits (timeInDay / 3600000))
       +:+ ":" +:+ Js.str (Sample.twoDigits (timeInDay / 60000 mod 60))
       +:+ ":" +:+ Js.str (Sample.twoDigits (timeInDay / 1000 mod 60))
       +:+ " GMT" +:+ offsetText offset |}.

(** [new Date(text)]: the time value is that of midnight UTC of the day
    the text names, whatever the zone; the fields are read in the zone. *)
Definition parse (offset : Z) (text : string) : Js.Date :=
  match Sample.parseIsoDate text with
  | Js.InvalidDate => Js.InvalidDate
  | Js.ValidDate utcMidnight =>
      Js.ValidDate (localFields offset (Js.getTime utcMidnight))
  end.

(** The time value of [hours] o'clock local time on a day, in the zone. *)
Definition localTime (offset y m d hours : Z) : Z :=
  Sample.daysFromCivil y m d * msPerDay + hours * 3600000
  - offset * msPerMinute.

(** The host in the zone, its clock at the time value [now]. *)
Definition host (offset now : Z) : Js.Host :=
  {| Js.Date_parse := parse offset; Js.Date_now := localFields offset now |}.

(** The offsets of the time zones in use, from UTC-12:00 to UTC+14:00. *)
Definition offsets : list Z := (fun n => Z.of_nat n - 720) <$> seq 0 1561.

End Zone.

(* ===================================================================== *)
(** * Properties of the runtime model *)
(* ===================================================================== *)

Section Strings.

Lemma truthy_true_iff s : Js.truthy s = true <-> s <> "".
Proof. destruct s; simpl; split; intros H; congruence. Qed.

Lemma truthy_false_iff s : Js.truthy s = false <-> s = "".
Proof. destruct s; simpl; split; intros H; congruence. Qed.

End Strings.

(** ** The matcher decides the language of a pattern *)

Section Regex.

Import Js Spec.

#[local] Hint Constructors Matches : core.

Lemma Matches_Void_inv s : Matches Void s -> False.
Proof. inversion 1. Qed.

Lemma Matches_Eps_inv s : Matches Eps s -> s = [].
Proof. inversion 1; reflexivity. Qed.

Lemma Matches_Class_inv p s :
  Matches (Class p) s -> exists c, s = [c] /\ p c = true.
Proof. inversion 1; subst; eauto. Qed.

Lemma Matches_Cat_inv r1 r2 s :
  Matches (Cat r1 r2) s ->
  exists s1 s2, s = s1 ++ s2 /\ Matches r1 s1 /\ Matches r2 s2.
Proof. inversion 1; subst; eauto. Qed.

Lemma Matches_Alt_inv r1 r2 s :
  Matches (Alt r1 r2) s -> Matches r1 s \/ Matches r2 s.
Proof. inversion 1; subst; eauto. Qed.

Lemma Matches_And_inv r1 r2 s :
  Matches (And r1 r2) s -> Matches r1 s /\ Matches r2 s.
Proof. inversion 1; subst; eauto. Qed.

Lemma Matches_Cat_cons r1 r2 c s1 s2 :
  Matches r1 (c :: s1) -> Matches r2 s2 -> Matches (Cat r1 r2) (c :: s1 ++ s2).
Proof. intros H1 H2. apply (M_Cat _ _ (c :: s1) s2 H1 H2). Qed.

Lemma Matches_Cat_nil_l r1 r2 s :
  Matches r1 [] -> Matches r2 s -> Matches (Cat r1 r2) s.
Proof. intros H1 H2. apply (M_Cat _ _ [] s H1 H2). Qed.

Lemma nullable_Matches r : nullable r = true <-> Matches r [].
Proof.
  induction r as [| |p|r1 IH1 r2 IH2|r1 IH1 r2 IH2|r1 IH1 r2 IH2|r IH]; simpl.
  - split; [discriminate|]. intros H. destruct (Matches_Void_inv _ H).
  - split; auto.
  - split; [discriminate|]. intros H.
    apply Matches_Class_inv in H as (c & E & _). discriminate.
  - rewrite andb_true_iff, IH1, IH2. split.
    + intros [H1 H2]. now apply Matches_Cat_nil_l.
    + intros H. apply Matches_Cat_inv in H as (s1 & s2 & E & H1 & H2).
      symmetry in E. apply app_eq_nil in E as [-> ->]. auto.
  - rewrite orb_true_iff, IH1, IH2. split.
    + intros [H|H]; auto.
    + apply Matches_Alt_inv.
  - rewrite andb_true_iff, IH1, IH2. split.
    + intros [H1 H2]; auto.
    + apply Matches_And_inv.
  - split; auto.
Qed.

(** A non-empty match of a star starts with a non-empty match of its
    body. *)
Lemma Matches_Star_cons r c s :
  Matches (Star r) (c :: s) ->
  exists s1 s2, s = s1 ++ s2 /\ Matches r (c :: s1) /\ Matches (Star r) s2.
Proof.
  intros H. remember (Star r) as r' eqn:Er. remember (c :: s) as w eqn:Ew.
  revert Er Ew.
  induction H as [| | | | | | |r0 s1 s2 H1 _ H2 IH2]; intros Er Ew;
    try discriminate.
  injection Er as ->.
  destruct s1 as [|c' s1]; simpl in Ew.
  - apply IH2; auto.
  - injection Ew as -> <-. eauto.
Qed.

Lemma deriv_Matches r : forall c s, Matches (deriv c r) s <-> Matches r (c :: s).
Proof.
  induction r as [| |p|r1 IH1 r2 IH2|r1 IH1 r2 IH2|r1 IH1 r2 IH2|r IH];
    intros c s; simpl.
  - split; intros H; destruct (Matches_Void_inv _ H).
  - split; intros H; [destruct (Matches_Void_inv _ H)|].
    apply Matches_Eps_inv in H. discriminate.
  - split; intros H.
    + destruct (p c) eqn:E; [|destruct (Matches_Void_inv _ H)].
      apply Matches_Eps_inv in H as ->. now constructor.
    + apply Matches_Class_inv in H as (c' & E & Hp).
      injection E as -> ->. rewrite Hp. constructor.
  - split; intros H.
    + assert (Hcat : Matches (Cat (deriv c r1) r2) s -> Matches (Cat r1 r2) (c :: s)).
      { intros Hc. apply Matches_Cat_inv in Hc as (s1 & s2 & -> & H1 & H2).
        apply IH1 in H1. now apply Matches_Cat_cons. }
      destruct (nullable r1) eqn:N; [|auto].
      apply Matches_Alt_inv in H as [H|H]; [auto|].
      apply IH2 in H. apply nullable_Matches in N.
      now apply Matches_Cat_nil_l.
    + apply Matches_Cat_inv in H as (s1 & s2 & E & H1 & H2).
      destruct s1 as [|c' s1]; simpl in E.
      * subst s2. apply nullable_Matches in H1. rewrite H1.
        apply M_AltR. now apply IH2.
      * injection E as <- ->. apply IH1 in H1.
        destruct (nullable r1); [apply M_AltL|]; now constructor.
  - split; intros H.
    + apply Matches_Alt_inv in H as [H|H];
        [apply M_AltL; now apply IH1|apply M_AltR; now apply IH2].
    + apply Matches_Alt_inv in H as [H|H];
        [apply M_AltL; now apply IH1|apply M_AltR; now apply IH2].
  - split; intros H; apply Matches_And_inv in H as [H1 H2];
      (constructor; [now apply IH1|now apply IH2]).
  - split; intros H.
    + apply Matches_Cat_inv in H as (s1 & s2 & -> & H1 & H2).
      apply IH in H1. apply (M_StarApp _ (c :: s1) s2 H1 H2).
    + apply Matches_Star_cons in H as (s1 & s2 & -> & H1 & H2).
      constructor; [now apply IH|assumption].
Qed.

Lemma matches_Matches s : forall r, matches r s = true <-> Matches r s.
Proof.
  induction s as [|c s IH]; intros r; simpl.
  - apply nullable_Matches.
  - rewrite IH. apply deriv_Matches.
Qed.

(** [[p]*]: the strings all of whose characters are in the class. *)
Lemma Matches_Star_Class p s :
  Matches (Star (Class p)) s <-> forallb p s = true.
Proof.
  split.
  - intros H. remember (Star (Class p)) as r eqn:Er. revert Er.
    induction H as [| | | | | | |r0 s1 s2 H1 _ H2 IH2]; intros Er;
      try discriminate; [reflexivity|].
    injection Er as ->.
    apply Matches_Class_inv in H1 as (c & -> & Hc). simpl.
    rewrite Hc. simpl. auto.
  - induction s as [|c s IH]; simpl; intros H; [constructor|].
    apply andb_true_iff in H as [Hc Hs].
    apply (M_StarApp _ [c] s); [now constructor|auto].
Qed.

(** [[p]+]: the non-empty strings among them. *)
Lemma Matches_Plus_Class p s :
  Matches (Plus (Class p)) s <-> s <> [] /\ forallb p s = true.
Proof.
  unfold Plus. split.
  - intros H. apply Matches_Cat_inv in H as (s1 & s2 & -> & H1 & H2).
    apply Matches_Class_inv in H1 as (c & -> & Hc).
    apply Matches_Star_Class in H2. simpl. rewrite Hc, H2.
    split; [discriminate|reflexivity].
  - intros [Hne H]. destruct s as [|c s]; [contradiction|]. simpl in H.
    apply andb_true_iff in H as [Hc Hs].
    apply (M_Cat _ _ [c] s); [now constructor|now apply Matches_Star_Class].
Qed.

Lemma Matches_Chr c s : Matches (Chr c) s <-> s = [c].
Proof.
  unfold Chr. split.
  - intros H. apply Matches_Class_inv in H as (c' & -> & Hc).
    apply Ascii.eqb_eq in Hc. now subst.
  - intros ->. constructor. apply Ascii.eqb_refl.
Qed.

(** The e-mail pattern accepts exactly the strings of the shape
    [local-part @ domain . tld]. *)
Lemma emailRegex_shape s :
  test Validation.emailRegex s = true <-> EmailShape (chars s).
Proof.
  unfold test. rewrite matches_Matches. unfold Validation.emailRegex, EmailShape, part.
  split.
  - intros H.
    apply Matches_Cat_inv in H as (l & r1 & -> & Hl & H).
    apply Matches_Cat_inv in H as (a & r2 & -> & Ha & H).
    apply Matches_Cat_inv in H as (d & r3 & -> & Hd & H).
    apply Matches_Cat_inv in H as (p & t & -> & Hp & Ht).
    apply Matches_Chr in Ha as ->. apply Matches_Chr in Hp as ->.
    apply Matches_Plus_Class in Hl, Hd, Ht.
    exists l, d, t. simpl. auto.
  - intros (l & d & t & -> & Hl & Hd & Ht).
    apply Matches_Plus_Class in Hl, Hd, Ht.
    apply M_Cat; [assumption|].
    apply (M_Cat _ _ ["@"%char]); [now apply Matches_Chr|].
    apply M_Cat; [assumption|].
    apply (M_Cat _ _ ["."%char]); [now apply Matches_Chr|assumption].
Qed.

End Regex.

(* ===================================================================== *)
(** * The validation rule engine *)
(* ===================================================================== *)

Section ValidationEngine.

Import Validation.

(** A rule that reports, reports its own message. *)
Lemma validateRule_message rule value fieldType error :
  validateRule rule value fieldType = Some error ->
  error = ValidationRule.message rule.
Proof.
  unfold validateRule.
  destruct (ValidationRule.type rule);
    repeat match goal with
           | |- context [if ?b then _ else _] => destruct b
           end; congruence.
Qed.

Lemma validateRules_cons rule rest value fieldType :
  validateRules (rule :: rest) value fieldType =
  match validateRule rule value fieldType with
  | Some error => if Js.truthy error then Some error
                  else validateRules rest value fieldType
  | None => validateRules rest value fieldType
  end.
Proof. simpl. destruct (validateRule rule value fieldType); reflexivity. Qed.

(** Rules that pass are stepped over. *)
Lemma validateRules_skip pre rest value fieldType :
  Forall (fun r => validateRule r value fieldType = None) pre ->
  validateRules (pre ++ rest) value fieldType = validateRules rest value fieldType.
Proof.
  induction 1 as [|r pre Hr _ IH]; [reflexivity|].
  rewrite <- app_comm_cons, validateRules_cons, Hr. exact IH.
Qed.

(** First failure wins, for a failing rule whose message is not empty: when
    the rules before it pass, its message is the result, whatever follows. *)
Theorem validateField_first_failure field value pre rule post :
  FormField.validationRules field = pre ++ rule :: post ->
  Forall (fun r => validateRule r value (FormField.type field) = None) pre ->
  validateRule rule value (FormField.type field) <> None ->
  ValidationRule.message rule <> "" ->
  validateField field value = Some (ValidationRule.message rule).
Proof.
  intros E Hpre Hfail Hmsg. unfold validateField. rewrite E.
  rewrite validateRules_skip by assumption. rewrite validateRules_cons.
  destruct (validateRule rule value (FormField.type field)) as [error|] eqn:Er;
    [|congruence].
  apply validateRule_message in Er. subst error.
  apply truthy_true_iff in Hmsg. now rewrite Hmsg.
Qed.

Lemma validateField_first_failure_witness :
  validateField
    (Sample.field text true [Sample.emailRule; Sample.notEmptyRule; Sample.minLength3])
    (VString "")
  = Some (ValidationRule.message Sample.notEmptyRule).
Proof.
  apply (validateField_first_failure
           (Sample.field text true
              [Sample.emailRule; Sample.notEmptyRule; Sample.minLength3])
           (VString "") [Sample.emailRule] Sample.notEmptyRule [Sample.minLength3]).
  - reflexivity.
  - repeat constructor.
  - discriminate.
  - discriminate.
Defined.

(** When every rule passes the result is [null]. *)
Lemma validateField_all_pass field value :
  Forall (fun r => validateRule r value (FormField.type field) = None)
         (FormField.validationRules field) ->
  validateField field value = None.
Proof.
  intros H. unfold validateField.
  rewrite <- (app_nil_r (FormField.validationRules field)).
  now rewrite validateRules_skip.
Qed.

(** A result is always the message of one of the field's rules, and that
    rule fails. *)
Lemma validateField_sound field value error :
  validateField field value = Some error ->
  exists rule, rule ∈ FormField.validationRules field
               /\ validateRule rule value (FormField.type field) = Some error
               /\ error = ValidationRule.message rule.
Proof.
  unfold validateField.
  induction (FormField.validationRules field) as [|r rs IH]; [discriminate|].
  rewrite validateRules_cons.
  destruct (validateRule r value (FormField.type field)) as [e|] eqn:Er.
  - destruct (Js.truthy e).
    + intros [= ->]. exists r. split; [left|split; [assumption|]].
      now apply validateRule_message in Er.
    + intros H. destruct (IH H) as (rule & Hin & Hr). exists rule.
      split; [now right|assumption].
  - intros H. destruct (IH H) as (rule & Hin & Hr). exists rule.
    split; [now right|assumption].
Qed.

Lemma validateField_sound_witness :
  exists rule,
    rule ∈ FormField.validationRules
             (Sample.field text true [Sample.notEmptyRule; Sample.minLength3])
    /\ validateRule rule (VString "ab") text = Some "Minimum length required"
    /\ "Minimum length required" = ValidationRule.message rule.
Proof.
  apply (validateField_sound
           (Sample.field text true [Sample.notEmptyRule; Sample.minLength3])
           (VString "ab") "Minimum length required").
  reflexivity.
Defined.

(** C1, at the input where it fails.  The field has the rules
    [notEmpty; minLength 3] and the first of them has an empty message; the
    value is the empty string.  The first rule fails, but its message is
    falsy and the loop goes on: the result is the message of the second rule,
    not the message of the first rule that fails. *)
Theorem validateField_passes_over_empty_message :
  let field := Sample.field text true [Sample.blankNotEmpty; Sample.minLength3] in
  validateRule Sample.blankNotEmpty (VString "") text
    = Some (ValidationRule.message Sample.blankNotEmpty)
  /\ validateField field (VString "") = Some (ValidationRule.message Sample.minLength3)
  /\ validateField field (VString "")
     <> Some (ValidationRule.message Sample.blankNotEmpty)
  /\ validateField (Sample.field text true [Sample.blankNotEmpty]) (VString "") = None.
Proof. vm_compute. repeat split; congruence. Qed.

(** With the messages of the editor the same rules give the [notEmpty]
    message only. *)
Example validateField_notEmpty_first :
  validateField (Sample.field text true [Sample.notEmptyRule; Sample.minLength3])
    (VString "") = Some "This field is required".
Proof. reflexivity. Qed.

(** C10.  A field without rules has no validation error, whatever its
    [required] flag and whatever the value. *)
Theorem validateField_no_rules field value :
  FormField.validationRules field = [] -> validateField field value = None.
Proof. unfold validateField. now intros ->. Qed.

Lemma validateField_no_rules_witness :
  FormField.required (Sample.field text true []) = true
  /\ validateField (Sample.field text true []) VNull = None.
Proof.
  split; [reflexivity|].
  apply (validateField_no_rules (Sample.field text true []) VNull). reflexivity.
Defined.

(** ** Bounds on number fields *)

(** C3 fails at this input: a number field with the rule [minLength 5] and
    the value ["abc"], which is not empty and is not a number.  No error is
    reported. *)
Lemma numeric_bound_counterexample :
  let field := Sample.field number false [Sample.minValue5] in
  let value := VString "abc" in
  FormField.type field = number
  /\ Spec.stringForm value <> ""
  /\ Js.isNaN (Number value) = true
  /\ ~ (exists error, validateField field value = Some error).
Proof.
  vm_compute. repeat split; try congruence. intros [error H]. discriminate.
Qed.

(** C3 as amended.  On a number field a [minLength] or [maxLength] rule
    never fails for a value that does not convert to a number: the
    comparison is guarded by [!isNaN(numValue)], nothing is thrown, and
    [validateField] goes on to the rules that follow. *)
Theorem numeric_bound_skipped_for_NaN field rule rest value :
  FormField.type field = number ->
  FormField.validationRules field = rule :: rest ->
  ValidationRule.type rule = minLength \/ ValidationRule.type rule = maxLength ->
  Js.isNaN (Number value) = true ->
  validateRule rule value number = None
  /\ validateField field value = validateRules rest value number.
Proof.
  intros Ht Er Hty Hnan.
  assert (H : validateRule rule value number = None).
  { destruct Hty as [E|E]; unfold validateRule; rewrite E; simpl; now rewrite Hnan. }
  split; [exact H|].
  unfold validateField. rewrite Er, Ht, validateRules_cons, H. reflexivity.
Qed.

Lemma numeric_bound_skipped_for_NaN_witness :
  validateRule Sample.minValue5 (VString "abc") number = None
  /\ validateField (Sample.field number false [Sample.minValue5]) (VString "abc")
     = validateRules [] (VString "abc") number.
Proof.
  apply (numeric_bound_skipped_for_NaN
           (Sample.field number false [Sample.minValue5]) Sample.minValue5 []
           (VString "abc")).
  - reflexivity.
  - reflexivity.
  - left. reflexivity.
  - vm_compute. reflexivity.
Defined.

(** ** The e-mail rule *)

(** What the rule returns: its message when the string form is not empty
    and is not of the shape, and [null] otherwise. *)
Lemma validateRule_email rule value fieldType :
  ValidationRule.type rule = email ->
  let s := Spec.stringForm value in
  (s <> "" /\ ~ Spec.EmailShape (Js.chars s) ->
   validateRule rule value fieldType = Some (ValidationRule.message rule))
  /\ (s = "" \/ Spec.EmailShape (Js.chars s) ->
      validateRule rule value fieldType = None).
Proof.
  intros E s. unfold validateRule. rewrite E. fold (Spec.stringForm value). fold s.
  split.
  - intros [Hne Hshape]. apply truthy_true_iff in Hne. rewrite Hne.
    destruct (Js.test emailRegex s) eqn:T; [|reflexivity].
    apply emailRegex_shape in T. contradiction.
  - intros [He|Hshape].
    + apply truthy_false_iff in He. now rewrite He.
    + apply emailRegex_shape in Hshape. rewrite Hshape.
      now rewrite andb_false_r.
Qed.

(** C9 fails at this input: ["a@b..c"] is not empty and has two adjacent
    dots, so it is not of the shape that the claim describes, and yet the
    e-mail rule accepts it: no message is returned. *)
Lemma email_counterexample :
  let field := Sample.field text false [Sample.emailRule] in
  let value := VString "a@b..c" in
  Spec.stringForm value <> ""
  /\ ~ Spec.EmailShapeNoDoubleDot (Js.chars (Spec.stringForm value))
  /\ validateField field value = None
  /\ validateField field value <> Some (ValidationRule.message Sample.emailRule).
Proof.
  cbv zeta. split; [discriminate|]. split; [|split; [reflexivity|discriminate]].
  intros [_ Hd]. vm_compute in Hd. discriminate.
Qed.

(** C9 as amended.  For a field whose first rule is an e-mail rule with a
    message that is not empty: when the string form of the value is not
    empty and not of the shape [local-part @ domain . tld] (three non-empty
    parts without white space and without a further [@]; adjacent dots are
    allowed), [validateField] returns the message of the rule; otherwise the
    rule passes and the result is that of the rules after it, so that with
    no other rule the result is the message exactly in the first case.  An
    empty value never fails the rule. *)
Theorem email_rule_verdict field rule rest value :
  FormField.validationRules field = rule :: rest ->
  ValidationRule.type rule = email ->
  ValidationRule.message rule <> "" ->
  let s := Spec.stringForm value in
  let fails := s <> "" /\ ~ Spec.EmailShape (Js.chars s) in
  (fails -> validateField field value = Some (ValidationRule.message rule))
  /\ (~ fails ->
      validateField field value = validateRules rest value (FormField.type field))
  /\ (rest = [] ->
      (validateField field value = Some (ValidationRule.message rule) <-> fails))
  /\ (s = "" -> validateRule rule value (FormField.type field) = None).
Proof.
  intros Er Ety Hmsg s fails.
  destruct (validateRule_email rule value (FormField.type field) Ety) as [Hf Hp].
  fold s in Hf, Hp.
  assert (Hpass : ~ fails ->
            validateField field value
            = validateRules rest value (FormField.type field)).
  { intros Hn. unfold validateField. rewrite Er, validateRules_cons.
    rewrite Hp; [reflexivity|].
    destruct (decide (s = "")) as [He|Hne]; [now left|right].
    destruct (Js.test emailRegex s) eqn:T; [now apply emailRegex_shape|].
    exfalso. apply Hn. split; [assumption|].
    intros Hs. apply emailRegex_shape in Hs. congruence. }
  assert (Hfail : fails ->
            validateField field value = Some (ValidationRule.message rule)).
  { intros Hfl. unfold validateField.
    rewrite Er, validateRules_cons, (Hf Hfl).
    apply truthy_true_iff in Hmsg. now rewrite Hmsg. }
  assert (Hdec : fails \/ ~ fails).
  { destruct (decide (s = "")) as [He|Hne]; [right; intros [Hx _]; contradiction|].
    destruct (Js.test emailRegex s) eqn:T.
    - right. intros [_ Hx]. apply Hx. now apply emailRegex_shape.
    - left. split; [assumption|]. intros Hs.
      apply emailRegex_shape in Hs. congruence. }
  split; [exact Hfail|]. split; [exact Hpass|]. split.
  - intros ->. split; [|exact Hfail].
    intros H. destruct Hdec as [Hy|Hn]; [assumption|].
    rewrite (Hpass Hn) in H. discriminate.
  - intros He. apply Hp. now left.
Qed.

Lemma email_rule_verdict_witness :
  let field := Sample.field text false [Sample.emailRule] in
  let s := Spec.stringForm (VString "nobody") in
  validateField field (VString "nobody")
    = Some (ValidationRule.message Sample.emailRule)
  <-> s <> "" /\ ~ Spec.EmailShape (Js.chars s).
Proof.
  intros field s.
  destruct (email_rule_verdict field Sample.emailRule [] (VString "nobody"))
    as (_ & _ & H & _).
  - reflexivity.
  - reflexivity.
  - simpl. discriminate.
  - apply H. reflexivity.
Defined.

End ValidationEngine.

(* ===================================================================== *)
(** * The derived value calculator *)
(* ===================================================================== *)

Section DerivedValues.

Import DerivedFields.

Variable host : Js.Host.

(** ** Sums *)




(** What contributes 0. *)
Lemma contribution_zero :
  Spec.contribution None = Js.zero
  /\ Spec.contribution (Some VNull) = Js.zero
  /\ Spec.contribution (Some VUndefined) = Js.zero
  /\ Spec.contribution (Some (VString "")) = Js.zero
  /\ Spec.contribution (Some (VNumber Js.NaN)) = Js.zero
  /\ (forall b, Spec.contribution (Some (VBoolean b)) = Js.zero)
  /\ (forall v, Js.isNaN (Spec.floatParse v) = true ->
                Spec.contribution (Some v) = Js.zero).
Proof.
  repeat split; try reflexivity.
  - intros []; reflexivity.
  - intros v H. unfold Spec.contribution. now rewrite H.
Qed.


End DerivedValues.

Section Ages.

Import DerivedFields.

Variable host : Js.Host.

(** The test of [calculateAge] on the difference of the months is the
    order on (month, day) pairs. *)
Lemma monthDiff_precedes tm td bm bd :
  ((tm - bm <? 0) || ((tm - bm =? 0) && (td <? bd)))
  = Spec.precedes tm td bm bd.
Proof.
  unfold Spec.precedes. lia.
Qed.

Lemma calculateAge_wholeYears parent formData :
  let text := Spec.stringForm (get formData parent) in
  calculateAge host (Some parent) formData
  = if Js.truthy text then
      match Js.Date_parse host text with
      | Js.InvalidDate => Js.ofZ 0
      | Js.ValidDate birth => Js.ofZ (Spec.wholeYears (Js.Date_now host) birth)
      end
    else Js.ofZ 0.
Proof.
  unfold calculateAge, Spec.stringForm. simpl.
  destruct (toString (get formData parent)) as [[|c s]|]; simpl; try reflexivity.
  destruct (Js.Date_parse host (String c s)) as [|birth]; [reflexivity|].
  unfold Spec.wholeYears. rewrite monthDiff_precedes.
  destruct (Spec.precedes _ _ _ _); reflexivity.
Qed.

(** On the anniversary itself no year is taken off. *)
Lemma wholeYears_anniversary today birth n :
  0 <= n ->
  Js.getFullYear today = Js.getFullYear birth + n ->
  Js.getMonth today = Js.getMonth birth ->
  Js.getDate today = Js.getDate birth ->
  Spec.wholeYears today birth = n.
Proof.
  intros Hn Hy Hm Hd. unfold Spec.wholeYears, Spec.precedes.
  rewrite Hy, Hm, Hd, !Z.ltb_irrefl, andb_false_r. simpl. lia.
Qed.

(** On the eve of the anniversary one year is missing. *)
Lemma wholeYears_eve today birth n :
  1 <= n ->
  Spec.validDay (Spec.ymd today) ->
  Spec.nextDay (Spec.ymd today)
  = (Js.getFullYear birth + n, Js.getMonth birth, Js.getDate birth) ->
  Spec.wholeYears today birth = n - 1.
Proof.
  unfold Spec.validDay, Spec.nextDay, Spec.ymd, Spec.wholeYears, Spec.precedes.
  intros Hn [Hm Hd] Hnext.
  destruct (Z.ltb_spec (Js.getDate today)
              (Spec.daysInMonth (Js.getFullYear today) (Js.getMonth today))).
  - injection Hnext as Hy Hmo Hda.
    destruct (Z.ltb_spec (Js.getMonth today) (Js.getMonth birth)),
             (Z.eqb_spec (Js.getMonth today) (Js.getMonth birth)),
             (Z.ltb_spec (Js.getDate today) (Js.getDate birth)); simpl; lia.
  - destruct (Z.ltb_spec (Js.getMonth today) 11).
    + injection Hnext as Hy Hmo Hda.
      destruct (Z.ltb_spec (Js.getMonth today) (Js.getMonth birth)); simpl; lia.
    + injection Hnext as Hy Hmo Hda.
      destruct (Z.ltb_spec (Js.getMonth today) (Js.getMonth birth)),
               (Z.eqb_spec (Js.getMonth today) (Js.getMonth birth)); simpl; lia.
Qed.

(** What [calculateAge] computes from the [Date] objects of the host.  For
    a derived field with the formula [age_from_birthdate] and a single
    parent: the value is 0 when the parent has no current value (no entry, or
    an empty string form) or when its string form does not parse as a date;
    otherwise it is the current year minus the birth year, less one exactly
    when the current (month, day) precedes the birth (month, day), and at
    least 0.  The year, month and day are those of the two [Date] objects in
    local time; the day that the [Date] of an entered birth date falls on
    depends on the time zone of the host. *)
Lemma age_from_birthdate_value field config parent formData :
  FormField.isDerived field = true ->
  FormField.derivedConfig field = Some config ->
  DerivedFieldConfig.formula config = "age_from_birthdate" ->
  DerivedFieldConfig.parentFieldIds config = [parent] ->
  let result := calculateDerivedValue host field formData in
  let text := Spec.stringForm (get formData parent) in
  let today := Js.Date_now host in
  (formData !! parent = None -> result = VNumber (Js.ofZ 0))
  /\ (text = "" -> result = VNumber (Js.ofZ 0))
  /\ (Js.Date_parse host text = Js.InvalidDate -> result = VNumber (Js.ofZ 0))
  /\ (forall birth,
         text <> "" ->
         Js.Date_parse host text = Js.ValidDate birth ->
         result = VNumber (Js.ofZ (Spec.wholeYears today birth))
         /\ (Js.getFullYear today = Js.getFullYear birth + 18 ->
             Js.getMonth today = Js.getMonth birth ->
             Js.getDate today = Js.getDate birth ->
             result = VNumber (Js.ofZ 18))
         /\ (Spec.validDay (Spec.ymd today) ->
             Spec.nextDay (Spec.ymd today)
             = (Js.getFullYear birth + 18, Js.getMonth birth, Js.getDate birth) ->
             result = VNumber (Js.ofZ 17))).
Proof.
  intros Hd Hc Hf Hp result text today.
  assert (E : result = VNumber (calculateAge host (Some parent) formData)).
  { unfold result, calculateDerivedValue. rewrite Hd, Hc, Hf, Hp. reflexivity. }
  rewrite E, calculateAge_wholeYears. fold text. fold today.
  assert (Hempty : text = "" ->
            VNumber (if Js.truthy text then
                       match Js.Date_parse host text with
                       | Js.InvalidDate => Js.ofZ 0
                       | Js.ValidDate birth => Js.ofZ (Spec.wholeYears today birth)
                       end
                     else Js.ofZ 0) = VNumber (Js.ofZ 0)).
  { intros ->. reflexivity. }
  split; [|split; [exact Hempty|split]].
  - intros Hnone. apply Hempty. unfold text, get. now rewrite Hnone.
  - intros ->. now destruct (Js.truthy text).
  - intros birth Hne Hb. apply truthy_true_iff in Hne. rewrite Hne, Hb.
    split; [reflexivity|split].
    + intros Hy Hm Hday.
      now rewrite (wholeYears_anniversary today birth 18) by (assumption || lia).
    + intros Hv Hn.
      now rewrite (wholeYears_eve today birth 18) by (assumption || lia).
Qed.

End Ages.

(** In the sample host, whose local time is UTC, on 3 November 2026. *)
Example age_on_the_anniversary :
  DerivedFields.calculateDerivedValue Sample.host Sample.age Sample.values
  = VNumber (Js.ofZ 18).
Proof.
  destruct (age_from_birthdate_value Sample.host Sample.age
              {| DerivedFieldConfig.parentFieldIds := ["birth"];
                 DerivedFieldConfig.formula := "age_from_birthdate" |}
              "birth" Sample.values) as (_ & _ & _ & H).
  - reflexivity.
  - reflexivity.
  - reflexivity.
  - reflexivity.
  - destruct (H (Sample.midnight 2008 10 3)) as (_ & H18 & _).
    + vm_compute. discriminate.
    + reflexivity.
    + apply H18; reflexivity.
Qed.

(** In that host the day before, on 2 November 2026, the age is still 17. *)
Example age_on_the_eve :
  DerivedFields.calculateDerivedValue
    {| Js.Date_parse := Sample.parseIsoDate; Js.Date_now := Sample.midnight 2026 10 2 |}
    Sample.age Sample.values
  = VNumber (Js.ofZ 17).
Proof. reflexivity. Qed.

(* ===================================================================== *)
(** * The age and the time zone *)
(* ===================================================================== *)

Section Calendar.

(** From 2008 to 2026, [Zone.civilFromDays] is the calendar of
    [Sample.daysFromCivil] and of [Spec.nextDay]: it inverts the count of
    days, gives days that exist, and the day after is the next day. *)
Lemma civilFromDays_calendar n :
  Sample.daysFromCivil 2008 0 1 <= n < Sample.daysFromCivil 2026 11 31 ->
  let '(y, m, d) := Zone.civilFromDays n in
  Sample.daysFromCivil y m d = n
  /\ Spec.validDay (y, m, d)
  /\ Zone.civilFromDays (n + 1) = Spec.nextDay (y, m, d).
Proof.
  change (Sample.daysFromCivil 2008 0 1) with 13879.
  change (Sample.daysFromCivil 2026 11 31) with 20818.
  intros Hn.
  set (check := fun k : nat =>
    let n := 13879 + Z.of_nat k in
    let '(y, m, d) := Zone.civilFromDays n in
    let '(y', m', d') := Zone.civilFromDays (n + 1) in
    let '(y'', m'', d'') := Spec.nextDay (y, m, d) in
    (Sample.daysFromCivil y m d =? n)
    && ((0 <=? m) && (m <=? 11) && (1 <=? d) && (d <=? Spec.daysInMonth y m))
    && ((y' =? y'') && (m' =? m'') && (d' =? d''))).
  assert (Hall : forallb check (seq 0 (Z.to_nat 6939)) = true)
    by (vm_compute; reflexivity).
  rewrite forallb_forall in Hall.
  specialize (Hall (Z.to_nat (n - 13879))).
  assert (Hin : In (Z.to_nat (n - 13879)) (seq 0 (Z.to_nat 6939)))
    by (apply in_seq; lia).
  specialize (Hall Hin). unfold check in Hall.
  replace (13879 + Z.of_nat (Z.to_nat (n - 13879))) with n in Hall by lia.
  destruct (Zone.civilFromDays n) as [[y m] d].
  destruct (Zone.civilFromDays (n + 1)) as [[y' m'] d'].
  destruct (Spec.nextDay (y, m, d)) as [[y'' m''] d''].
  unfold Spec.validDay.
  repeat (apply andb_prop in Hall as [Hall ?]).
  split; [lia|]. split; [lia|]. repeat f_equal; lia.
Qed.

End Calendar.

Section Zones.

Import DerivedFields.

(** The calendar fields of a [Date] are those of the local day. *)
Lemma ymd_localFields offset t :
  Spec.ymd (Zone.localFields offset t)
  = Zone.civilFromDays ((t + offset * Zone.msPerMinute) / Zone.msPerDay).
Proof.
  unfold Zone.localFields, Spec.ymd.
  destruct (Zone.civilFromDays _) as [[y m] d]. reflexivity.
Qed.

(** Local noon falls on the local day, in every zone. *)
Lemma ymd_localTime_noon offset y m d :
  Spec.ymd (Zone.localFields offset (Zone.localTime offset y m d 12))
  = Zone.civilFromDays (Sample.daysFromCivil y m d).
Proof.
  rewrite ymd_localFields. f_equal.
  unfold Zone.localTime, Zone.msPerMinute, Zone.msPerDay.
  generalize (Sample.daysFromCivil y m d). intros days.
  symmetry. apply Z.div_unique with (r := 43200000); lia.
Qed.

(** Midnight UTC is on the same local day at and east of Greenwich, and
    still on the day before west of it. *)
Lemma ymd_utcMidnight offset y m d :
  -720 <= offset <= 840 ->
  Spec.ymd (Zone.localFields offset (Js.getTime (Sample.midnight y m d)))
  = Zone.civilFromDays
      (if offset <? 0 then Sample.daysFromCivil y m d - 1
       else Sample.daysFromCivil y m d).
Proof.
  intros Hoffset. rewrite ymd_localFields. f_equal.
  unfold Sample.midnight, Zone.msPerMinute, Zone.msPerDay.
  cbn [Js.getTime]. generalize (Sample.daysFromCivil y m d). intros days.
  destruct (Z.ltb_spec offset 0).
  - symmetry. apply Z.div_unique with (r := 86400000 + offset * 60000); lia.
  - symmetry. apply Z.div_unique with (r := offset * 60000); lia.
Qed.

Lemma wholeYears_ymd today birth ty tm td bY bm bd :
  Spec.ymd today = (ty, tm, td) ->
  Spec.ymd birth = (bY, bm, bd) ->
  Spec.wholeYears today birth
  = Z.max 0 (if Spec.precedes tm td bm bd then ty - bY - 1 else ty - bY).
Proof.
  unfold Spec.ymd, Spec.wholeYears. intros [= -> -> ->] [= -> -> ->].
  reflexivity.
Qed.

(** The age of [Sample.values], whose birth date is the text [2008-11-03],
    in a zone and at the time value [now]. *)
Lemma sample_age offset now :
  calculateDerivedValue (Zone.host offset now) Sample.age Sample.values
  = VNumber
      (Js.ofZ (Spec.wholeYears
                 (Zone.localFields offset now)
                 (Zone.localFields offset (Js.getTime (Sample.midnight 2008 10 3))))).
Proof.
  change (calculateDerivedValue (Zone.host offset now) Sample.age Sample.values)
    with (VNumber (calculateAge (Zone.host offset now) (Some "birth") Sample.values)).
  rewrite calculateAge_wholeYears.
  assert (Htext : Spec.stringForm (get Sample.values "birth") = "2008-11-03")
    by reflexivity.
  rewrite Htext.
  assert (Hparse : Sample.parseIsoDate "2008-11-03"
                   = Js.ValidDate (Sample.midnight 2008 10 3)) by reflexivity.
  cbn [Zone.host Js.Date_parse Js.Date_now]. unfold Zone.parse.
  rewrite Hparse. reflexivity.
Qed.

(** C7.  The birth date 3 November 2008 is entered in the date input, which
    delivers the text [2008-11-03], and the age is derived from it in the
    time zones from UTC-12:00 to UTC+14:00.  On the anniversary, 3 November
    2026 in local time, the age is 18 in every zone.  On the eve, 2 November
    2026 in local time, it is 17 at and east of Greenwich, and already 18
    west of Greenwich: there the [Date] of the text, midnight UTC, is still
    on 2 November in local time, so the (month, day) of today does not
    precede the (month, day) read from the birth date. *)
Theorem age_on_the_eve_by_zone offset :
  -720 <= offset <= 840 ->
  let anniversary := Zone.host offset (Zone.localTime offset 2026 10 3 12) in
  let eve := Zone.host offset (Zone.localTime offset 2026 10 2 12) in
  Sample.values !! "birth" = Some (VString "2008-11-03")
  /\ Spec.ymd (Js.Date_now anniversary) = (2008 + 18, 10, 3)
  /\ calculateDerivedValue anniversary Sample.age Sample.values
     = VNumber (Js.ofZ 18)
  /\ Spec.nextDay (Spec.ymd (Js.Date_now eve)) = (2008 + 18, 10, 3)
  /\ calculateDerivedValue eve Sample.age Sample.values
     = VNumber (Js.ofZ (if offset <? 0 then 18 else 17)).
Proof.
  intros Hoffset anniversary eve.
  assert (Hbirth :
    Spec.ymd (Zone.localFields offset (Js.getTime (Sample.midnight 2008 10 3)))
    = if offset <? 0 then (2008, 10, 2) else (2008, 10, 3)).
  { rewrite (ymd_utcMidnight offset 2008 10 3 Hoffset).
    destruct (offset <? 0); reflexivity. }
  assert (Hthird :
    Spec.ymd (Zone.localFields offset (Zone.localTime offset 2026 10 3 12))
    = (2026, 10, 3)) by (rewrite ymd_localTime_noon; reflexivity).
  assert (Hsecond :
    Spec.ymd (Zone.localFields offset (Zone.localTime offset 2026 10 2 12))
    = (2026, 10, 2)) by (rewrite ymd_localTime_noon; reflexivity).
  split; [reflexivity|]. split; [exact Hthird|]. split; [|split].
  - unfold anniversary. rewrite sample_age. do 2 f_equal.
    destruct (offset <? 0);
      now rewrite (wholeYears_ymd _ _ _ _ _ _ _ _ Hthird Hbirth).
  - unfold eve. cbn [Zone.host Js.Date_now]. now rewrite Hsecond.
  - unfold eve. rewrite sample_age. do 2 f_equal.
    destruct (offset <? 0);
      now rewrite (wholeYears_ymd _ _ _ _ _ _ _ _ Hsecond Hbirth).
Qed.

End Zones.

Lemma age_on_the_eve_by_zone_witness :
  -720 <= -300 <= 840
  /\ DerivedFields.calculateDerivedValue
       (Zone.host (-300) (Zone.localTime (-300) 2026 10 2 12))
       Sample.age Sample.values
     = VNumber (Js.ofZ 18).
Proof.
  split; [lia|].
  refine (proj2 (proj2 (proj2 (proj2 (age_on_the_eve_by_zone (-300) _))))).
  lia.
Defined.

(* ===================================================================== *)
(** * The required flag and the [notEmpty] rule *)
(* ===================================================================== *)

Section RequiredFlag.

Import FieldConfigPanel.

Lemma hasRequiredRule_withoutNotEmpty rules :
  ValidationRules.hasRequiredRule (Spec.withoutNotEmpty rules) = false.
Proof.
  unfold ValidationRules.hasRequiredRule, Spec.withoutNotEmpty.
  induction rules as [|r rs IH]; [reflexivity|]. simpl.
  destruct (ValidationRules.isType notEmpty r) eqn:E; simpl; [exact IH|].
  now rewrite E.
Qed.

Lemma handleRequiredToggle_rules field checked :
  Partial.validationRules (handleRequiredToggle field checked)
  = Some (if checked then
            if ValidationRules.hasRequiredRule (FormField.validationRules field)
            then FormField.validationRules field
            else Spec.requiredRule (FormField.type field)
                 :: FormField.validationRules field
          else Spec.withoutNotEmpty (FormField.validationRules field)).
Proof. reflexivity. Qed.

Lemma handleRequiredToggle_setsBoth field checked :
  Spec.setsBoth (handleRequiredToggle field checked).
Proof.
  eexists. split; [apply handleRequiredToggle_rules|]. simpl. f_equal.
  destruct checked.
  - destruct (ValidationRules.hasRequiredRule (FormField.validationRules field))
      eqn:E; [now rewrite E|reflexivity].
  - symmetry. apply hasRequiredRule_withoutNotEmpty.
Qed.

Lemma handleValidationRulesChange_setsBoth rules :
  Spec.setsBoth (handleValidationRulesChange rules).
Proof. exists rules. split; reflexivity. Qed.

Lemma callback_setsBoth field c : Spec.setsBoth (callback field c).
Proof.
  destruct c; [apply handleValidationRulesChange_setsBoth
              |apply handleRequiredToggle_setsBoth].
Qed.

Lemma spread_setsBoth f u :
  Spec.setsBoth u -> Spec.inSync (spread f u).
Proof.
  intros (rules & Hr & Hq). unfold Spec.inSync, spread. simpl.
  now rewrite Hr, Hq.
Qed.

Lemma spread_leavesBoth f u :
  Spec.leavesBoth u ->
  FormField.required (spread f u) = FormField.required f
  /\ FormField.validationRules (spread f u) = FormField.validationRules f.
Proof. intros [Hr Hq]. unfold spread. simpl. now rewrite Hr, Hq. Qed.

Lemma dispatchAll_snoc f us u :
  dispatchAll f (us ++ [u]) = spread (dispatchAll f us) u.
Proof. unfold dispatchAll. now rewrite fold_left_app. Qed.

(** After the callbacks of the editor the field is in sync, unless there
    was no callback at all. *)
Lemma dispatchAll_callbacks field cs f :
  cs <> [] -> Spec.inSync (dispatchAll f (map (callback field) cs)).
Proof.
  intros Hne. destruct (exists_last Hne) as (cs' & c & ->).
  rewrite map_app. simpl. rewrite dispatchAll_snoc.
  apply spread_setsBoth, callback_setsBoth.
Qed.

Lemma dispatchAll_callbacks_preserve field cs :
  Spec.inSync field -> Spec.inSync (dispatchAll field (map (callback field) cs)).
Proof.
  intros H. destruct cs as [|c cs]; [exact H|].
  now apply dispatchAll_callbacks.
Qed.

Lemma inSync_leavesBoth f u :
  Spec.leavesBoth u -> Spec.inSync f -> Spec.inSync (spread f u).
Proof.
  intros Hu Hf. destruct (spread_leavesBoth f u Hu) as [Hr Hq].
  unfold Spec.inSync. now rewrite Hr, Hq.
Qed.

(** A list with two [notEmpty] rules, which the editor does not build:
    when one of them is deleted the other is still in the list, and
    [required] is true afterwards. *)
Example delete_one_of_two_notEmpty_rules :
  let field := Sample.field text false [Sample.notEmptyRule; Sample.notEmptyRule] in
  (ValidationRule.type <$> FormField.validationRules field !! 0%nat) = Some notEmpty
  /\ (FormField.required <$> edit field (DeleteRule 0)) = Some true
  /\ (FormField.validationRules <$> edit field (DeleteRule 0))
     = Some [Sample.notEmptyRule].
Proof. repeat split. Qed.

(** Whatever the list of rules is, every edit of the panel and of the
    rules editor keeps the flag and the membership in sync.  Switching
    [required] on sets the flag and puts a [notEmpty] rule at the head of the
    list when the list has none; switching it off clears the flag and removes
    every [notEmpty] rule.  Deleting a rule from the list leaves the other
    rules and sets the flag to whether a [notEmpty] rule remains. *)
Lemma edit_keeps_required_in_sync field e field' :
  edit field e = Some field' ->
  let rules := FormField.validationRules field in
  let rules' := FormField.validationRules field' in
  (Spec.inSync field -> Spec.inSync field')
  /\ match e with
     | RequiredToggle true =>
         FormField.required field' = true
         /\ ValidationRules.hasRequiredRule rules' = true
         /\ rules' = if ValidationRules.hasRequiredRule rules then rules
                     else Spec.requiredRule (FormField.type field) :: rules
     | RequiredToggle false =>
         FormField.required field' = false
         /\ ValidationRules.hasRequiredRule rules' = false
         /\ rules' = Spec.withoutNotEmpty rules
     | DeleteRule index =>
         rules' = ValidationRules.removeAt index rules
         /\ Spec.inSync field'
         /\ (ValidationRules.hasRequiredRule
               (ValidationRules.removeAt index rules) = false ->
             FormField.required field' = false)
     | _ => True
     end.
Proof.
  intros H rules rules'. unfold edit in H.
  destruct (updatesOf field e) as [us|] eqn:Eu; [|discriminate].
  injection H as <-. subst rules'.
  assert (Heditor : forall h,
             map (callback field) <$> h = Some us ->
             Spec.inSync field -> Spec.inSync (dispatchAll field us)).
  { intros [cs|] Hh; [|discriminate]. injection Hh as <-.
    apply dispatchAll_callbacks_preserve. }
  destruct e; cbn [updatesOf] in Eu.
  - (* the label *)
    injection Eu as <-. split; [|exact I].
    apply inSync_leavesBoth. split; reflexivity.
  - (* the type selector *)
    injection Eu as <-. split; [|exact I].
    apply inSync_leavesBoth. split; reflexivity.
  - (* the required switch *)
    injection Eu as <-.
    split; [intros _; apply spread_setsBoth, handleRequiredToggle_setsBoth|].
    destruct b; simpl; fold rules.
    + split; [reflexivity|split; [|reflexivity]].
      destruct (ValidationRules.hasRequiredRule rules) eqn:E;
        [exact E|reflexivity].
    + split; [reflexivity|split; [|reflexivity]].
      apply hasRequiredRule_withoutNotEmpty.
  - (* the default value *)
    injection Eu as <-. split; [|exact I].
    apply inSync_leavesBoth. split; reflexivity.
  - (* the options *)
    injection Eu as <-. split; [|exact I].
    apply inSync_leavesBoth. split; reflexivity.
  - (* the default value of a choice field *)
    injection Eu as <-. split; [|exact I].
    apply inSync_leavesBoth. split; reflexivity.
  - (* the derived-field settings *)
    injection Eu as <-. split; [|exact I].
    apply inSync_leavesBoth. split; reflexivity.
  - (* a rule is added *)
    injection Eu as <-. split; [|exact I].
    apply dispatchAll_callbacks_preserve.
  - (* a rule is deleted *)
    split; [exact (Heditor _ Eu)|].
    unfold ValidationRules.deleteRule in Eu. simpl in Eu. fold rules in Eu.
    destruct (rules !! n) as [r|]; [|discriminate]. simpl in Eu.
    injection Eu as <-. rewrite map_app.
    change (map (callback field)
              [ValidationRules.onChange (ValidationRules.removeAt n rules)])
      with [handleValidationRulesChange (ValidationRules.removeAt n rules)].
    rewrite dispatchAll_snoc.
    assert (Hs : Spec.inSync
                   (spread (dispatchAll field
                      (map (callback field)
                         (if ValidationRules.isType notEmpty r
                          then [ValidationRules.onRequiredChange false] else [])))
                      (handleValidationRulesChange
                         (ValidationRules.removeAt n rules)))).
    { apply spread_setsBoth, handleValidationRulesChange_setsBoth. }
    split; [reflexivity|split; [exact Hs|]].
    intros Hnone. unfold Spec.inSync in Hs. rewrite Hs. exact Hnone.
  - (* the type of a rule *)
    split; [exact (Heditor _ Eu)|exact I].
  - (* the bound of a rule *)
    split; [exact (Heditor _ Eu)|exact I].
  - (* the message of a rule *)
    split; [exact (Heditor _ Eu)|exact I].
  - (* the effects *)
    injection Eu as <-. split; [|exact I].
    apply dispatchAll_callbacks_preserve.
Qed.

Lemma hasRequiredRule_absent rules :
  notEmpty ∉ Spec.ruleTypes rules ->
  ValidationRules.hasRequiredRule rules = false.
Proof.
  unfold ValidationRules.hasRequiredRule, Spec.ruleTypes.
  induction rules as [|r rs IH]; [reflexivity|].
  rewrite fmap_cons, not_elem_of_cons. intros [Hr Hrs]. simpl.
  rewrite (IH Hrs), orb_false_r. unfold ValidationRules.isType.
  apply bool_decide_eq_false. congruence.
Qed.

(** In a list with one rule per type, the list without its [notEmpty]
    rule has no [notEmpty] rule. *)
Lemma removeAt_only_notEmpty rules index rule :
  NoDup (Spec.ruleTypes rules) ->
  rules !! index = Some rule ->
  ValidationRule.type rule = notEmpty ->
  ValidationRules.hasRequiredRule (ValidationRules.removeAt index rules) = false.
Proof.
  intros Hnodup Hrule Htype. apply hasRequiredRule_absent.
  rewrite <- (take_drop_middle rules index rule Hrule) in Hnodup.
  unfold Spec.ruleTypes in *. rewrite fmap_app, fmap_cons, Htype in Hnodup.
  apply NoDup_app in Hnodup as (_ & Hfront & Hback).
  apply NoDup_cons in Hback as [Hback _].
  unfold ValidationRules.removeAt. rewrite fmap_app, elem_of_app.
  intros [H|H]; [|exact (Hback H)].
  apply (Hfront notEmpty H). left.
Qed.

(** C2.  In a field with one rule per type, which is what the editor
    builds, every edit of the panel and of the rules editor keeps the
    [required] flag and the membership of a [notEmpty] rule in sync.
    Switching [required] on sets the flag and puts a [notEmpty] rule at the
    head of the list when the list has none; switching it off clears the
    flag and removes the [notEmpty] rule.  Deleting a rule from the list
    leaves the other rules, and deleting the [notEmpty] rule also sets
    [required] to false. *)
Theorem required_in_sync_with_notEmpty_rule field e field' :
  NoDup (Spec.ruleTypes (FormField.validationRules field)) ->
  edit field e = Some field' ->
  let rules := FormField.validationRules field in
  let rules' := FormField.validationRules field' in
  (Spec.inSync field -> Spec.inSync field')
  /\ match e with
     | RequiredToggle true =>
         FormField.required field' = true
         /\ ValidationRules.hasRequiredRule rules' = true
         /\ rules' = if ValidationRules.hasRequiredRule rules then rules
                     else Spec.requiredRule (FormField.type field) :: rules
     | RequiredToggle false =>
         FormField.required field' = false
         /\ ValidationRules.hasRequiredRule rules' = false
         /\ rules' = Spec.withoutNotEmpty rules
     | DeleteRule index =>
         rules' = ValidationRules.removeAt index rules
         /\ Spec.inSync field'
         /\ ((ValidationRule.type <$> rules !! index) = Some notEmpty ->
             FormField.required field' = false
             /\ ValidationRules.hasRequiredRule rules' = false)
     | _ => True
     end.
Proof.
  intros Hnodup Hedit rules rules'.
  destruct (edit_keeps_required_in_sync field e field' Hedit) as [Hsync He].
  split; [exact Hsync|].
  destruct e as [| |[|]| | | | | |index| | | |]; try exact He.
  destruct He as (Hrules & Hsync' & Hflag).
  split; [exact Hrules|]. split; [exact Hsync'|].
  intros Htype. fold rules in Hflag. fold rules'. fold rules' in Hrules.
  destruct (rules !! index) as [rule|] eqn:Hrule; [|discriminate].
  injection Htype as Htype.
  assert (Hnone : ValidationRules.hasRequiredRule
                    (ValidationRules.removeAt index rules) = false)
    by exact (removeAt_only_notEmpty rules index rule Hnodup Hrule Htype).
  split; [exact (Hflag Hnone)|]. now rewrite Hrules.
Qed.

End RequiredFlag.

Lemma required_in_sync_with_notEmpty_rule_witness :
  NoDup (Spec.ruleTypes [Sample.notEmptyRule; Sample.minLength3])
  /\ FieldConfigPanel.edit
       (Sample.field text true [Sample.notEmptyRule; Sample.minLength3])
       (FieldConfigPanel.DeleteRule 0)
     = Some (Sample.field text false [Sample.minLength3])
  /\ FormField.required (Sample.field text false [Sample.minLength3]) = false.
Proof.
  assert (Hnodup : NoDup (Spec.ruleTypes [Sample.notEmptyRule; Sample.minLength3])).
  { apply NoDup_cons. split.
    - intros H. apply list_elem_of_singleton in H. discriminate H.
    - apply NoDup_singleton. }
  split; [exact Hnodup|]. split; [reflexivity|].
  destruct (required_in_sync_with_notEmpty_rule
              (Sample.field text true [Sample.notEmptyRule; Sample.minLength3])
              (FieldConfigPanel.DeleteRule 0)
              (Sample.field text false [Sample.minLength3])
              Hnodup eq_refl) as (_ & _ & _ & H).
  apply H. reflexivity.
Defined.


(* ===================================================================== *)
(** * Changing the type of a field *)
(* ===================================================================== *)

Section TypeChange.

Import FieldConfigPanel.

(** C4, at the input where it fails.  A text field with the default value
    ["abc"] is changed to a checkbox: the panel resets the default value to
    the empty string, not to an empty list.  (Out of checkbox the default
    value becomes the empty string as well, see
    [handleFieldTypeChange_across_checkbox].) *)
Theorem handleFieldTypeChange_into_checkbox :
  let field' :=
    spread Sample.nickname (handleFieldTypeChange Sample.nickname checkbox) in
  FormField.type Sample.nickname = text
  /\ FormField.type field' = checkbox
  /\ FormField.defaultValue field' = VString ""
  /\ FormField.defaultValue field' <> VArray [].
Proof. repeat split. discriminate. Qed.

(** The other copy of the panel does give an empty list here, except when
    the old type is [date], where its first case wins. *)
Example fixed_panel_into_checkbox :
  FormField.defaultValue
    (spread Sample.nickname
       (FieldConfigPanelFixed.handleFieldTypeChange Sample.nickname checkbox))
  = VArray []
  /\ FormField.defaultValue
       (spread Sample.startDate
          (FieldConfigPanelFixed.handleFieldTypeChange Sample.startDate checkbox))
     = VString "".
Proof. split; reflexivity. Qed.

(** Whenever the change crosses the checkbox boundary, in either direction,
    the default value becomes the empty string; otherwise it is kept. *)
Lemma handleFieldTypeChange_across_checkbox field type :
  let field' := spread field (handleFieldTypeChange field type) in
  FormField.type field' = type
  /\ (FormField.type field = checkbox -> type <> checkbox ->
      FormField.defaultValue field' = VString "")
  /\ (FormField.type field <> checkbox -> type = checkbox ->
      FormField.defaultValue field' = VString "")
  /\ ((FormField.type field = checkbox <-> type = checkbox) ->
      FormField.defaultValue field' = FormField.defaultValue field).
Proof.
  unfold spread, handleFieldTypeChange. simpl.
  destruct (decide (FormField.type field = checkbox)) as [Ho|Ho],
           (decide (type = checkbox)) as [Hn|Hn];
    rewrite ?(bool_decide_eq_true_2 _ Ho), ?(bool_decide_eq_false_2 _ Ho),
            ?(bool_decide_eq_true_2 _ Hn), ?(bool_decide_eq_false_2 _ Hn);
    simpl; repeat split; tauto.
Qed.

(** ** The rules after a type change *)

Lemma filter_all {A} (p : A -> bool) l :
  length (List.filter p l) = length l -> List.filter p l = l.
Proof.
  induction l as [|a l IH]; simpl; [reflexivity|].
  destruct (p a); simpl; intros H.
  - f_equal. apply IH. lia.
  - pose proof (List.filter_length_le p l). lia.
Qed.

Lemma filter_Forall {A} (p : A -> bool) l :
  Forall (fun a => p a = true) (List.filter p l).
Proof.
  induction l as [|a l IH]; simpl; [constructor|].
  destruct (p a) eqn:E; [constructor|]; assumption.
Qed.

Lemma callback_type field c : Partial.type (callback field c) = None.
Proof. destruct c; reflexivity. Qed.

Lemma dispatchAll_callbacks_type field cs : forall f,
  FormField.type (dispatchAll f (map (callback field) cs)) = FormField.type f.
Proof.
  unfold dispatchAll.
  induction cs as [|c cs IH]; intros f; simpl; [reflexivity|].
  rewrite IH. unfold spread. simpl. now rewrite callback_type.
Qed.

(** What the editor sees in the render after a series of its callbacks that
    ends with [onChange rules]. *)
Lemma rulesProps_onChange field f cs rules :
  rulesProps
    (dispatchAll f (map (callback field) (cs ++ [ValidationRules.onChange rules])))
  = {| ValidationRules.rules := rules;
       ValidationRules.fieldType := FormField.type f;
       ValidationRules.isRequired := ValidationRules.hasRequiredRule rules |}.
Proof.
  rewrite map_app.
  change (map (callback field) [ValidationRules.onChange rules])
    with [handleValidationRulesChange rules].
  rewrite dispatchAll_snoc. unfold rulesProps. simpl.
  now rewrite dispatchAll_callbacks_type.
Qed.

(** Props on which the effects have nothing to report: the flag does not
    ask for a missing rule and every rule is relevant. *)
Lemma effects_quiet rules fieldType :
  Forall (fun r => ValidationRules.relevant fieldType r = true) rules ->
  ValidationRules.effects
    {| ValidationRules.rules := rules;
       ValidationRules.fieldType := fieldType;
       ValidationRules.isRequired := ValidationRules.hasRequiredRule rules |}
  = [].
Proof.
  intros Hrel. unfold ValidationRules.effects, ValidationRules.requiredEffect,
    ValidationRules.cleanupEffect, ValidationRules.getRelevantRules. simpl.
  rewrite andb_negb_r. simpl.
  assert (E : List.filter (ValidationRules.relevant fieldType) rules = rules).
  { apply forallb_filter_id. apply forallb_forall. intros r Hr.
    rewrite Forall_forall in Hrel. apply Hrel. now apply list_elem_of_In. }
  rewrite E. now rewrite bool_decide_eq_false_2 by auto.
Qed.

(** A render whose effects end with [onChange rules], for rules that are
    all relevant, is followed by a render without effects. *)
Lemma settle_after_onChange k f cs rules :
  effects f = map (callback f) (cs ++ [ValidationRules.onChange rules]) ->
  Forall (fun r => ValidationRules.relevant (FormField.type f) r = true) rules ->
  let f' := settle (S (S k)) f in
  FormField.type f' = FormField.type f
  /\ FormField.validationRules f' = rules
  /\ effects f' = [].
Proof.
  intros He Hrel.
  set (f1 := dispatchAll f (map (callback f) (cs ++ [ValidationRules.onChange rules]))).
  assert (E1 : effects f1 = []).
  { unfold effects, f1. rewrite rulesProps_onChange.
    now rewrite effects_quiet. }
  assert (Es : settle (S (S k)) f = f1).
  { cbn [settle]. rewrite He.
    destruct (map (callback f) (cs ++ [ValidationRules.onChange rules])) eqn:Em.
    - apply map_eq_nil in Em. now destruct cs.
    - unfold f1 in *. rewrite <- Em in E1 |- *. now rewrite E1. }
  intros f'. subst f'. rewrite Es.
  split; [apply dispatchAll_callbacks_type|split; [|exact E1]].
  change (FormField.validationRules f1)
    with (ValidationRules.rules (rulesProps f1)).
  unfold f1. now rewrite rulesProps_onChange.
Qed.

(** Two rounds of effects settle every field: the rules that remain are
    relevant to its type, the type is untouched, and a further round reports
    nothing. *)
Lemma settle_stable field :
  let field' := settle 2 field in
  FormField.type field' = FormField.type field
  /\ Forall (fun r => ValidationRules.relevant (FormField.type field) r = true)
            (FormField.validationRules field')
  /\ effects field' = [].
Proof.
  intros field'. subst field'.
  set (R := FormField.validationRules field).
  set (t := FormField.type field).
  assert (He : effects field
               = map (callback field)
                   (ValidationRules.requiredEffect (rulesProps field)
                    ++ ValidationRules.cleanupEffect (rulesProps field)))
    by reflexivity.
  unfold ValidationRules.cleanupEffect, ValidationRules.getRelevantRules in He.
  simpl in He. fold R in He. fold t in He.
  destruct (decide (length (List.filter (ValidationRules.relevant t) R) <> length R))
    as [Hcl|Hcl].
  - (* some rule is not relevant *)
    rewrite (bool_decide_eq_true_2 _ Hcl) in He.
    pose proof (settle_after_onChange 0 field _ _ He (filter_Forall _ R)) as Hx.
    cbv zeta in Hx. destruct Hx as (Ht & Hr & Hq).
    split; [exact Ht|split; [|exact Hq]].
    rewrite Hr. apply filter_Forall.
  - rewrite (bool_decide_eq_false_2 _ Hcl) in He.
    assert (Hall : Forall (fun r => ValidationRules.relevant t r = true) R).
    { rewrite <- (filter_all (ValidationRules.relevant t) R) by lia.
      apply filter_Forall. }
    unfold ValidationRules.requiredEffect in He. simpl in He. fold R in He.
    destruct (FormField.required field && negb (ValidationRules.hasRequiredRule R)).
    + (* a required field without its rule *)
      assert (Hall' : Forall (fun r => ValidationRules.relevant (FormField.type field) r = true)
                (R ++ [ValidationRule.mk notEmpty None
                         (ValidationRules.getDefaultMessage t notEmpty)])).
      { apply Forall_app. split; [exact Hall|]. constructor; [reflexivity|constructor]. }
      pose proof (settle_after_onChange 0 field [] _ He Hall') as Hx.
      cbv zeta in Hx. destruct Hx as (Ht & Hr & Hq).
      split; [exact Ht|split; [|exact Hq]].
      now rewrite Hr.
    + (* nothing to do *)
      simpl in He.
      assert (Es : settle 2 field = field) by (cbn [settle]; now rewrite He).
      rewrite Es. repeat split; assumption.
Qed.

(** After a type change the field has the new type, every rule that
    remains is relevant to it, and nothing is left for the effects.  For
    every new type but [date] the rules that remain are in the table of
    [getAvailableValidationRules]. *)
Lemma relevant_applicable fieldType rule :
  fieldType <> date ->
  ValidationRules.relevant fieldType rule = true ->
  Spec.applicable fieldType rule.
Proof.
  unfold Spec.applicable, ValidationRules.relevant, ValidationRules.isType.
  destruct rule as [ty v m]. simpl.
  destruct fieldType, ty; simpl; intros Hd H; try discriminate;
    try contradiction; set_solver.
Qed.

Theorem changeType_rules field type :
  let field' := changeType field type in
  FormField.type field' = type
  /\ Forall (fun r => ValidationRules.relevant type r = true)
            (FormField.validationRules field')
  /\ effects field' = []
  /\ (type <> date ->
      Forall (Spec.applicable type) (FormField.validationRules field')).
Proof.
  intros field'. subst field'. unfold changeType.
  set (f0 := dispatchAll field [handleFieldTypeChange field type]).
  assert (E0 : FormField.type f0 = type) by reflexivity.
  pose proof (settle_stable f0) as Hx. cbv zeta in Hx.
  destruct Hx as (Ht & Hr & Hq). rewrite E0 in Ht, Hr.
  repeat split; try assumption.
  intros Hd. eapply Forall_impl; [exact Hr|].
  intros r. now apply relevant_applicable.
Qed.

(** C6, at the input where it fails.  A text field with a [minLength] rule
    is changed to a date field.  The rule stays in the list, although the
    table allows only [notEmpty] on a date field; the other copy of the panel
    keeps it as well. *)
Theorem changeType_keeps_length_rule_on_date :
  let field := Sample.field text false [Sample.minLength3] in
  let field' := changeType field date in
  FormField.type field' = date
  /\ FormField.validationRules field' = [Sample.minLength3]
  /\ Validation.getAvailableValidationRules date = [notEmpty]
  /\ ~ Spec.applicable date Sample.minLength3
  /\ FormField.validationRules
       (spread field (FieldConfigPanelFixed.handleFieldTypeChange field date))
     = [Sample.minLength3].
Proof.
  repeat split. unfold Spec.applicable. simpl. intros H.
  apply list_elem_of_singleton in H. discriminate.
Qed.

End TypeChange.

(* ===================================================================== *)
(** * Removing a field *)
(* ===================================================================== *)

Section Removal.

Import FormBuilderSlice CreatePage.

(** ** One [updateField] *)

Lemma fieldsOf_updateField now fieldId u state :
  Spec.fieldsOf (updateField now fieldId u state)
  = Spec.updateFieldList fieldId u (Spec.fieldsOf state).
Proof.
  unfold updateField, Spec.fieldsOf, Spec.updateFieldList.
  destruct (currentForm state) as [form|] eqn:Ef; [|now rewrite Ef].
  destruct (findIndex fieldId (FormSchema.fields form)) as [i|]; simpl;
    [|now rewrite Ef].
  destruct (FormSchema.fields form !! i); simpl; [reflexivity|now rewrite Ef].
Qed.

Lemma patch_other fieldId u f :
  FormField.id f <> fieldId -> Spec.patch fieldId u f = f.
Proof.
  intros H. unfold Spec.patch.
  destruct (String.eqb_spec (FormField.id f) fieldId); [contradiction|reflexivity].
Qed.

Lemma patch_id fieldId u f :
  Partial.id u = None -> FormField.id (Spec.patch fieldId u f) = FormField.id f.
Proof.
  intros H. unfold Spec.patch, spread.
  destruct (String.eqb (FormField.id f) fieldId); [simpl; now rewrite H|reflexivity].
Qed.

Lemma map_patch_absent fieldId u fields :
  fieldId ∉ FormField.id <$> fields -> map (Spec.patch fieldId u) fields = fields.
Proof.
  induction fields as [|f fs IH]; intros H; [reflexivity|]. simpl.
  rewrite fmap_cons, not_elem_of_cons in H. destruct H as [Hne Hfs].
  rewrite patch_other by congruence. now rewrite IH.
Qed.

(** Where the ids are unique, [updateField] is the update of the one field
    with the id. *)
Lemma updateFieldList_patch fieldId u fields :
  NoDup (FormField.id <$> fields) ->
  Spec.updateFieldList fieldId u fields = map (Spec.patch fieldId u) fields.
Proof.
  unfold Spec.updateFieldList.
  induction fields as [|f fs IH]; intros Hnd; [reflexivity|].
  rewrite fmap_cons in Hnd. apply NoDup_cons in Hnd as [Hf Hfs].
  simpl. unfold Spec.patch at 1.
  destruct (String.eqb_spec (FormField.id f) fieldId) as [E|E].
  - simpl. f_equal. symmetry. apply map_patch_absent. now rewrite <- E.
  - specialize (IH Hfs).
    destruct (findIndex fieldId fs) as [i|]; simpl in *.
    + destruct (fs !! i); simpl in *; now rewrite <- IH.
    + now rewrite <- IH.
Qed.

(** ** The dispatches of the cleanup effect *)

Lemma fieldsOf_dispatchUpdates clock updates : forall n state,
  Spec.fieldsOf (dispatchUpdates clock n updates state)
  = fold_left (fun fs '(fieldId, u) => Spec.updateFieldList fieldId u fs)
      updates (Spec.fieldsOf state).
Proof.
  induction updates as [|[fieldId u] us IH]; intros n state; [reflexivity|].
  simpl. rewrite IH. now rewrite fieldsOf_updateField.
Qed.

Lemma patchAll_id updates : forall f,
  Forall (fun '(_, u) => Partial.id u = None) updates ->
  FormField.id (Spec.patchAll updates f) = FormField.id f.
Proof.
  unfold Spec.patchAll.
  induction updates as [|[i u] us IH]; intros f H; [reflexivity|].
  apply Forall_cons in H as [Hu Hus]. simpl.
  rewrite IH by assumption. now apply patch_id.
Qed.

Lemma fold_updateFieldList updates : forall fields,
  NoDup (FormField.id <$> fields) ->
  Forall (fun '(_, u) => Partial.id u = None) updates ->
  fold_left (fun fs '(fieldId, u) => Spec.updateFieldList fieldId u fs)
    updates fields
  = map (Spec.patchAll updates) fields.
Proof.
  induction updates as [|[i u] us IH]; intros fields Hnd Hu.
  - simpl. now rewrite map_id.
  - apply Forall_cons in Hu as [Hu Hus]. simpl.
    rewrite updateFieldList_patch by assumption.
    rewrite IH; [now rewrite map_map| |assumption].
    rewrite <- list_fmap_compose.
    erewrite list_fmap_ext; [exact Hnd|].
    intros k f _. simpl. now apply patch_id.
Qed.

(** ** What the effect asks for *)

Lemma updateFor_shape fields f :
  Forall (fun '(fieldId, u) => fieldId = FormField.id f /\ Partial.id u = None)
         (updateFor fields f).
Proof.
  unfold updateFor.
  destruct (FormField.isDerived f); [|constructor].
  destruct (FormField.derivedConfig f) as [c|]; [|constructor].
  repeat case_bool_decide; repeat constructor.
Qed.

Lemma fieldsToUpdate_ids fields fs :
  Forall (fun '(_, u) => Partial.id u = None) (flat_map (updateFor fields) fs).
Proof.
  induction fs as [|f fs IH]; simpl; [constructor|].
  apply Forall_app. split; [|exact IH].
  eapply Forall_impl; [apply updateFor_shape|]. now intros [i u] [_ H].
Qed.

Lemma patchAll_app us1 us2 f :
  Spec.patchAll (us1 ++ us2) f = Spec.patchAll us2 (Spec.patchAll us1 f).
Proof. unfold Spec.patchAll. apply fold_left_app. Qed.

(** Updates for other fields do not touch a field. *)
Lemma patchAll_others updates : forall f,
  Forall (fun '(fieldId, u) => fieldId <> FormField.id f) updates ->
  Spec.patchAll updates f = f.
Proof.
  unfold Spec.patchAll.
  induction updates as [|[i u] us IH]; intros f H; [reflexivity|].
  apply Forall_cons in H as [Hi Hus]. simpl.
  rewrite patch_other by congruence. now apply IH.
Qed.

Lemma patchAll_updateFor_other fields g f :
  FormField.id g <> FormField.id f ->
  Spec.patchAll (updateFor fields g) f = f.
Proof.
  intros H. apply patchAll_others.
  eapply Forall_impl; [apply updateFor_shape|].
  intros [i u] [-> _]. exact H.
Qed.

Lemma patchAll_flat_map_absent fields fs : forall f,
  FormField.id f ∉ FormField.id <$> fs ->
  Spec.patchAll (flat_map (updateFor fields) fs) f = f.
Proof.
  induction fs as [|g fs IH]; intros f H; [reflexivity|]. simpl.
  rewrite fmap_cons, not_elem_of_cons in H. destruct H as [Hg Hfs].
  rewrite patchAll_app, patchAll_updateFor_other by congruence.
  now apply IH.
Qed.

(** Where the ids are unique, the updates of the effect change each field
    by its own update only. *)
Lemma patchAll_fieldsToUpdate fields fs : forall f,
  NoDup (FormField.id <$> fs) ->
  f ∈ fs ->
  Spec.patchAll (flat_map (updateFor fields) fs) f = Spec.cleaned fields f.
Proof.
  induction fs as [|g fs IH]; intros f Hnd Hin; [now apply elem_of_nil in Hin|].
  rewrite fmap_cons in Hnd. apply NoDup_cons in Hnd as [Hg Hfs].
  simpl. rewrite patchAll_app.
  apply elem_of_cons in Hin as [->|Hin].
  - fold (Spec.cleaned fields g).
    apply patchAll_flat_map_absent.
    unfold Spec.cleaned. rewrite patchAll_id; [exact Hg|].
    eapply Forall_impl; [apply updateFor_shape|]. now intros [i u] [_ H].
  - rewrite patchAll_updateFor_other; [now apply IH|].
    intros E. apply Hg. rewrite E. now apply list_elem_of_fmap_2.
Qed.

(** The fields after the effect. *)
Lemma fieldsOf_cleanupDerivedFields clock state :
  NoDup (FormField.id <$> Spec.fieldsOf state) ->
  Spec.fieldsOf (cleanupDerivedFields clock state)
  = map (Spec.cleaned (Spec.fieldsOf state)) (Spec.fieldsOf state).
Proof.
  intros Hnd. unfold cleanupDerivedFields.
  destruct (currentForm state) as [form|] eqn:Ef;
    [|unfold Spec.fieldsOf; now rewrite Ef].
  rewrite fieldsOf_dispatchUpdates.
  assert (E : Spec.fieldsOf state = FormSchema.fields form)
    by (unfold Spec.fieldsOf; now rewrite Ef).
  rewrite E in *. unfold fieldsToUpdate.
  rewrite fold_updateFieldList by (assumption || apply fieldsToUpdate_ids).
  apply map_ext_in. intros f Hin.
  apply patchAll_fieldsToUpdate; [assumption|now apply list_elem_of_In].
Qed.


Lemma hasField_true fields parentId :
  hasField fields parentId = true <-> parentId ∈ FormField.id <$> fields.
Proof.
  unfold hasField. rewrite existsb_exists, list_elem_of_fmap. split.
  - intros (f & Hin & E). apply String.eqb_eq in E.
    exists f. split; [now symmetry|now apply list_elem_of_In].
  - intros (f & E & Hin). exists f.
    split; [now apply list_elem_of_In|]. apply String.eqb_eq. now symmetry.
Qed.

(** What the effect does to one field. *)
Lemma cleaned_cases fields f :
  match FormField.isDerived f, FormField.derivedConfig f with
  | true, Some config =>
      let parents := DerivedFieldConfig.parentFieldIds config in
      let valid := List.filter (hasField fields) parents in
      (valid = [] /\ Spec.cleaned fields f = spread f demote)
      \/ (valid <> [] /\ Spec.cleaned fields f = spread f (reparent config valid))
      \/ (valid <> [] /\ valid = parents /\ Spec.cleaned fields f = f)
  | _, _ => Spec.cleaned fields f = f
  end.
Proof.
  unfold Spec.cleaned, updateFor.
  destruct (FormField.isDerived f); [|reflexivity].
  destruct (FormField.derivedConfig f) as [config|]; [|reflexivity].
  cbv zeta.
  set (valid := List.filter (hasField fields) (DerivedFieldConfig.parentFieldIds config)).
  assert (Hp : forall u, Spec.patchAll [(FormField.id f, u)] f = spread f u).
  { intros u. unfold Spec.patchAll, Spec.patch. simpl.
    now rewrite String.eqb_refl. }
  case_bool_decide as H0.
  - left. split; [now apply nil_length_inv|apply Hp].
  - case_bool_decide as H1.
    + right. left. split; [|apply Hp]. intros E. now rewrite E in H0.
    + right. right. split; [intros E; now rewrite E in H0|].
      split; [|reflexivity].
      apply filter_all. destruct (decide (length valid = length (DerivedFieldConfig.parentFieldIds config))); [assumption|contradiction].
Qed.



(** ** The effect run again *)

Lemma filter_idem {A} (p : A -> bool) l :
  List.filter p (List.filter p l) = List.filter p l.
Proof.
  induction l as [|a l IH]; simpl; [reflexivity|].
  destruct (p a) eqn:E; simpl; [rewrite E; f_equal|]; exact IH.
Qed.

Lemma hasField_ids fields fields' parentId :
  FormField.id <$> fields' = FormField.id <$> fields ->
  hasField fields' parentId = hasField fields parentId.
Proof.
  intros E. apply eq_true_iff_eq. now rewrite !hasField_true, E.
Qed.

(** A field that the effect has cleaned asks for no further update. *)
Lemma updateFor_cleaned fields fields' f :
  FormField.id <$> fields' = FormField.id <$> fields ->
  updateFor fields' (Spec.cleaned fields f) = [].
Proof.
  intros E. pose proof (cleaned_cases fields f) as Hcase.
  assert (Hf : forall ps, List.filter (hasField fields') ps
                          = List.filter (hasField fields) ps).
  { intros ps. apply filter_ext. intros p. now apply hasField_ids. }
  unfold updateFor at 1.
  destruct (FormField.isDerived f) eqn:Hd;
    [destruct (FormField.derivedConfig f) as [config|] eqn:Hc|].
  - cbv zeta in Hcase.
    destruct Hcase as [[_ ->]|[[Hne ->]|[Hne [Hv ->]]]].
    + reflexivity.
    + simpl. rewrite Hd. simpl. rewrite Hf, filter_idem.
      rewrite bool_decide_eq_false_2
        by (intros H0; apply Hne; now apply nil_length_inv).
      now rewrite bool_decide_eq_false_2 by auto.
    + rewrite Hd, Hc, Hf, Hv.
      rewrite bool_decide_eq_false_2
        by (intros H0; apply Hne; rewrite Hv; now apply nil_length_inv).
      now rewrite bool_decide_eq_false_2 by auto.
  - rewrite Hcase, Hd, Hc. reflexivity.
  - rewrite Hcase, Hd. reflexivity.
Qed.

Lemma flat_map_updateFor_cleaned fields fields' fs :
  FormField.id <$> fields' = FormField.id <$> fields ->
  flat_map (updateFor fields') (map (Spec.cleaned fields) fs) = [].
Proof.
  intros E. induction fs as [|f fs IH]; [reflexivity|].
  simpl. now rewrite updateFor_cleaned.
Qed.

(** In a schema whose field ids are unique the cleanup effect is
    idempotent: run again on its own result it dispatches nothing and leaves
    the state as it is. *)
Theorem cleanupDerivedFields_idempotent clock clock' state :
  NoDup (FormField.id <$> Spec.fieldsOf state) ->
  cleanupDerivedFields clock' (cleanupDerivedFields clock state)
  = cleanupDerivedFields clock state.
Proof.
  intros Hnd.
  pose proof (fieldsOf_cleanupDerivedFields clock state Hnd) as E.
  set (s1 := cleanupDerivedFields clock state) in *.
  unfold cleanupDerivedFields at 1.
  destruct (currentForm s1) as [form1|] eqn:E1; [|reflexivity].
  assert (Ef : FormSchema.fields form1
               = map (Spec.cleaned (Spec.fieldsOf state)) (Spec.fieldsOf state)).
  { rewrite <- E. unfold Spec.fieldsOf. now rewrite E1. }
  assert (Hnone : fieldsToUpdate (FormSchema.fields form1) = []).
  { unfold fieldsToUpdate. rewrite Ef at 2.
    assert (Hids : FormField.id <$> FormSchema.fields form1
                   = FormField.id <$> Spec.fieldsOf state).
    { rewrite Ef. rewrite <- list_fmap_compose. apply list_fmap_ext.
      intros k f _. simpl. unfold Spec.cleaned. apply patchAll_id.
      eapply Forall_impl; [apply updateFor_shape|]. now intros [i u] [_ H]. }
    now apply flat_map_updateFor_cleaned. }
  now rewrite Hnone.
Qed.

Lemma cleanupDerivedFields_idempotent_witness :
  cleanupDerivedFields Sample.clock
    (cleanupDerivedFields Sample.clock
       (deleteField "2026-11-03T00:00:00.500Z" "birth" Sample.state))
  = cleanupDerivedFields Sample.clock
      (deleteField "2026-11-03T00:00:00.500Z" "birth" Sample.state).
Proof.
  apply (cleanupDerivedFields_idempotent Sample.clock Sample.clock
           (deleteField "2026-11-03T00:00:00.500Z" "birth" Sample.state)).
  change (NoDup ["age"]). apply NoDup_singleton.
Defined.

End Removal.

(* ===================================================================== *)
(** * Properties of the saved forms *)
(* ===================================================================== *)

Section SavedForms.
Import SavedFormsSlice.

Lemma saveForm_cons payload f rest isLoading error :
  forms (saveForm payload (mkState (f :: rest) isLoading error)) =
  if String.eqb (FormSchema.id f) (FormSchema.id payload) then payload :: rest
  else f :: forms (saveForm payload (mkState rest isLoading error)).
Proof.
  unfold saveForm. cbn [forms findIndex].
  destruct (String.eqb (FormSchema.id f) (FormSchema.id payload)); [reflexivity|].
  destruct (findIndex (FormSchema.id payload) rest); reflexivity.
Qed.

Lemma saveForm_nil payload isLoading error :
  forms (saveForm payload (mkState [] isLoading error)) = [payload].
Proof. reflexivity. Qed.

Lemma saveForm_flags payload state :
  SavedFormsSlice.isLoading (saveForm payload state) = SavedFormsSlice.isLoading state
  /\ SavedFormsSlice.error (saveForm payload state) = SavedFormsSlice.error state.
Proof.
  unfold saveForm. destruct (findIndex _ _); split; reflexivity.
Qed.

(** After [saveForm] the first form with the id of the payload is the
    payload, and every other id is looked up as before. *)
Theorem saveForm_lookup payload state :
  Spec.formWithId (FormSchema.id payload) (forms (saveForm payload state))
    = Some payload
  /\ (forall formId, formId <> FormSchema.id payload ->
        Spec.formWithId formId (forms (saveForm payload state))
        = Spec.formWithId formId (forms state)).
Proof.
  destruct state as [fs l e]. unfold Spec.formWithId.
  induction fs as [|f rest IH].
  - rewrite saveForm_nil. cbn. rewrite String.eqb_refl. split; [reflexivity|].
    intros formId Hne. apply String.eqb_neq in Hne. rewrite String.eqb_sym, Hne.
    reflexivity.
  - rewrite saveForm_cons. cbn [forms] in *.
    destruct (String.eqb (FormSchema.id f) (FormSchema.id payload)) eqn:E.
    + cbn. rewrite String.eqb_refl. split; [reflexivity|].
      intros formId Hne. apply String.eqb_eq in E. rewrite E.
      apply String.eqb_neq in Hne. rewrite String.eqb_sym, Hne. reflexivity.
    + cbn. rewrite E. destruct IH as [IH1 IH2]. split; [exact IH1|].
      intros formId Hne. rewrite (IH2 _ Hne). reflexivity.
Qed.

Lemma saveForm_ids payload fs l e :
  FormSchema.id payload ∈ Spec.formIds fs ->
  Spec.formIds (forms (saveForm payload (mkState fs l e))) = Spec.formIds fs.
Proof.
  unfold Spec.formIds. induction fs as [|f rest IH]; intros Hin.
  - inversion Hin.
  - rewrite saveForm_cons.
    destruct (String.eqb (FormSchema.id f) (FormSchema.id payload)) eqn:E.
    + apply String.eqb_eq in E. cbn. rewrite E. reflexivity.
    + apply String.eqb_neq in E. cbn in Hin. apply elem_of_cons in Hin.
      destruct Hin as [Hin|Hin]; [congruence|].
      cbn. rewrite (IH Hin). reflexivity.
Qed.

Lemma saveForm_fresh payload fs l e :
  FormSchema.id payload ∉ Spec.formIds fs ->
  forms (saveForm payload (mkState fs l e)) = fs ++ [payload].
Proof.
  unfold Spec.formIds. induction fs as [|f rest IH]; intros Hin.
  - reflexivity.
  - rewrite saveForm_cons. cbn in Hin. apply not_elem_of_cons in Hin.
    destruct Hin as [Hne Hin].
    destruct (String.eqb (FormSchema.id f) (FormSchema.id payload)) eqn:E.
    + apply String.eqb_eq in E. congruence.
    + rewrite (IH Hin). reflexivity.
Qed.

(** [saveForm] keeps the ids of the saved forms unique; the list grows by
    one form when the id is new and keeps its length when a form with the id
    is replaced. *)
Theorem saveForm_keeps_ids_unique payload state :
  NoDup (Spec.formIds (forms state)) ->
  NoDup (Spec.formIds (forms (saveForm payload state)))
  /\ length (forms (saveForm payload state)) =
     if bool_decide (FormSchema.id payload ∈ Spec.formIds (forms state))
     then length (forms state) else S (length (forms state)).
Proof.
  destruct state as [fs l e]. cbn [forms]. intros Hnd.
  case_bool_decide as Hin.
  - split.
    + rewrite (saveForm_ids _ _ _ _ Hin). exact Hnd.
    + rewrite <- (length_map FormSchema.id), <- (length_map FormSchema.id fs).
      f_equal. exact (saveForm_ids _ _ _ _ Hin).
  - rewrite (saveForm_fresh _ _ _ _ Hin). split.
    + unfold Spec.formIds. rewrite map_app. cbn.
      apply NoDup_app. split; [exact Hnd|]. split.
      * intros x Hx Hx'. apply list_elem_of_singleton in Hx'. subst x.
        exact (Hin Hx).
      * apply NoDup_singleton.
    + rewrite length_app. cbn. lia.
Qed.

Lemma saveForm_keeps_ids_unique_witness :
  NoDup (Spec.formIds
           (SavedFormsSlice.forms
              (SavedFormsSlice.saveForm Sample.survey Sample.saved)))
  /\ length (SavedFormsSlice.forms
               (SavedFormsSlice.saveForm Sample.survey Sample.saved))
     = 2%nat.
Proof.
  apply (saveForm_keeps_ids_unique Sample.survey Sample.saved).
  apply NoDup_singleton.
Defined.

(** [saveForm] is an insert-or-replace by id.  Afterwards the first saved
    form with the id of the payload is the payload, and every other id is
    looked up as before; when the ids were unique they still are, and the
    list has grown by one form exactly when the id was new. *)
Theorem saveForm_upserts payload state :
  Spec.formWithId (FormSchema.id payload) (forms (saveForm payload state))
    = Some payload
  /\ (forall formId, formId <> FormSchema.id payload ->
        Spec.formWithId formId (forms (saveForm payload state))
        = Spec.formWithId formId (forms state))
  /\ (NoDup (Spec.formIds (forms state)) ->
      NoDup (Spec.formIds (forms (saveForm payload state)))
      /\ length (forms (saveForm payload state)) =
         if bool_decide (FormSchema.id payload ∈ Spec.formIds (forms state))
         then length (forms state) else S (length (forms state))).
Proof.
  destruct (saveForm_lookup payload state) as [Hfound Hothers].
  split; [exact Hfound|]. split; [exact Hothers|].
  apply saveForm_keeps_ids_unique.
Qed.

(** Saving a form under a new id and deleting that id again gives the
    state back. *)
Theorem saveForm_deleteForm payload state :
  FormSchema.id payload ∉ Spec.formIds (forms state) ->
  deleteForm (FormSchema.id payload) (saveForm payload state) = state.
Proof.
  destruct state as [fs l e]. cbn [forms]. intros Hin.
  pose proof (saveForm_fresh payload fs l e Hin) as Hs.
  pose proof (saveForm_flags payload (mkState fs l e)) as [Hl He].
  unfold deleteForm, withForms. rewrite Hs, Hl, He. cbn [SavedFormsSlice.isLoading SavedFormsSlice.error].
  f_equal. rewrite filter_app.
  assert (Hkeep : filter (fun f => FormSchema.id f ≠ FormSchema.id payload) fs = fs).
  { clear Hs Hl He. unfold Spec.formIds in Hin.
    induction fs as [|f rest IH]; [reflexivity|].
    cbn in Hin. apply not_elem_of_cons in Hin. destruct Hin as [Hne Hin].
    rewrite filter_cons_True by congruence. rewrite (IH Hin). reflexivity. }
  rewrite Hkeep. rewrite filter_cons_False by (intros H; apply H; reflexivity).
  rewrite filter_nil. apply app_nil_r.
Qed.

Lemma saveForm_deleteForm_witness :
  SavedFormsSlice.deleteForm "form2"
    (SavedFormsSlice.saveForm Sample.survey Sample.saved)
  = Sample.saved.
Proof.
  apply (saveForm_deleteForm Sample.survey Sample.saved).
  cbn. intros H. apply list_elem_of_singleton in H. discriminate.
Defined.
End SavedForms.

(* ===================================================================== *)
(** * Properties of the schema edits *)
(* ===================================================================== *)

Section SchemaEdits.
Import FormBuilderSlice CreatePage.

Lemma spliceOut_length {A} (i : nat) (l : list A) (x : A) :
  l !! i = Some x -> S (length (spliceOut i l)) = length l.
Proof.
  intros H. rewrite <- (take_drop_middle l i x H) at 2.
  unfold spliceOut. rewrite !length_app. cbn. lia.
Qed.

Lemma spliceIn_Permutation {A} (k : nat) (x : A) (l : list A) :
  spliceIn k x l ≡ₚ x :: l.
Proof.
  unfold spliceIn. rewrite <- Permutation_middle, take_drop. reflexivity.
Qed.

Lemma spliceOut_Permutation {A} (i : nat) (l : list A) (x : A) :
  l !! i = Some x -> x :: spliceOut i l ≡ₚ l.
Proof.
  intros H. rewrite <- (take_drop_middle l i x H) at 2.
  unfold spliceOut. apply Permutation_middle.
Qed.

Lemma spliceIn_lookup {A} (k : nat) (x : A) (l : list A) :
  (k <= length l)%nat -> spliceIn k x l !! k = Some x.
Proof.
  intros H. unfold spliceIn. apply list_lookup_middle.
  rewrite length_take. lia.
Qed.

Lemma spliceOut_spliceIn {A} (k : nat) (x : A) (l : list A) :
  (k <= length l)%nat -> spliceOut k (spliceIn k x l) = l.
Proof.
  intros H. unfold spliceOut, spliceIn.
  assert (Hk : length (take k l) = k) by (rewrite length_take; lia).
  rewrite take_app_length' by (symmetry; exact Hk).
  change (take k l ++ x :: drop k l) with (take k l ++ [x] ++ drop k l).
  rewrite app_assoc.
  rewrite drop_app_length' by (rewrite length_app; cbn; lia).
  apply take_drop.
Qed.

Lemma droppedFields_Permutation item dropIndex fields newFields :
  droppedFields item dropIndex fields = Some newFields -> newFields ≡ₚ fields.
Proof.
  unfold droppedFields. destruct (fields !! index item) as [d|] eqn:E; [|discriminate].
  intros [= <-]. rewrite spliceIn_Permutation. now apply spliceOut_Permutation.
Qed.

(** A drop moves the dragged field and nothing else: the list that is
    dispatched is a permutation of the fields, the dragged field stands at
    [insertIndex], and without it the list is the old list without it.
    [insertIndex] is never the last position: no drop moves a field to the
    end of the form. *)
Theorem handleDrop_moves_one_field now item dropIndex state form dragged :
  currentForm state = Some form ->
  FormSchema.fields form !! index item = Some dragged ->
  (dropIndex < length (FormSchema.fields form))%nat ->
  index item <> dropIndex ->
  let insertIndex :=
    if (index item <? dropIndex)%nat then (dropIndex - 1)%nat else dropIndex in
  exists state',
    handleDrop now (Some item) dropIndex state = Some state'
    /\ Spec.fieldsOf state' ≡ₚ FormSchema.fields form
    /\ Spec.fieldsOf state' !! insertIndex = Some dragged
    /\ spliceOut insertIndex (Spec.fieldsOf state')
       = spliceOut (index item) (FormSchema.fields form)
    /\ (S insertIndex < length (FormSchema.fields form))%nat.
Proof.
  intros Ef Ed Hdrop Hne insertIndex.
  pose proof (spliceOut_length _ _ _ Ed) as Hlen.
  assert (Hi : (index item < length (FormSchema.fields form))%nat)
    by (apply lookup_lt_is_Some; eauto).
  assert (Hk : (S insertIndex < length (FormSchema.fields form))%nat).
  { unfold insertIndex. destruct (Nat.ltb_spec (index item) dropIndex); lia. }
  unfold handleDrop. rewrite Ef.
  destruct (Nat.eqb_spec (index item) dropIndex) as [|_]; [contradiction|].
  unfold droppedFields. rewrite Ed. fold insertIndex.
  eexists. split; [reflexivity|].
  unfold reorderFields, Spec.fieldsOf. rewrite Ef. cbn.
  split; [|split; [|split]].
  - rewrite spliceIn_Permutation. now apply spliceOut_Permutation.
  - apply spliceIn_lookup. lia.
  - apply spliceOut_spliceIn. lia.
  - exact Hk.
Qed.

Lemma handleDrop_moves_one_field_witness :
  exists state',
    handleDrop "2026-11-03T00:00:02.000Z" (Some (mkDragItem "age" 1)) 0 Sample.state
      = Some state'
    /\ Spec.fieldsOf state' ≡ₚ [Sample.birthdate; Sample.age]
    /\ Spec.fieldsOf state' !! 0%nat = Some Sample.age
    /\ spliceOut 0 (Spec.fieldsOf state') = spliceOut 1 [Sample.birthdate; Sample.age]
    /\ (1 < 2)%nat.
Proof.
  apply (handleDrop_moves_one_field "2026-11-03T00:00:02.000Z"
           (mkDragItem "age" 1) 0 Sample.state Sample.form Sample.age).
  - reflexivity.
  - reflexivity.
  - cbn. lia.
  - cbn. lia.
Defined.

(** Dropping a card on the card right below it dispatches the fields in
    the order they had. *)
Theorem handleDrop_on_next_card now item state form :
  currentForm state = Some form ->
  (S (index item) < length (FormSchema.fields form))%nat ->
  handleDrop now (Some item) (S (index item)) state
  = Some (reorderFields now (FormSchema.fields form) state).
Proof.
  intros Ef Hlt.
  destruct (lookup_lt_is_Some_2 (FormSchema.fields form) (index item)) as [d Ed];
    [lia|].
  unfold handleDrop. rewrite Ef.
  destruct (Nat.eqb_spec (index item) (S (index item))) as [|_]; [lia|].
  unfold droppedFields. rewrite Ed.
  destruct (Nat.ltb_spec (index item) (S (index item))) as [_|]; [|lia].
  replace (S (index item) - 1)%nat with (index item) by lia.
  do 2 f_equal. unfold spliceIn, spliceOut.
  assert (Hk : length (take (index item) (FormSchema.fields form)) = index item)
    by (rewrite length_take; lia).
  rewrite take_app_length' by (symmetry; exact Hk).
  rewrite drop_app_length' by (symmetry; exact Hk).
  now apply take_drop_middle.
Qed.

Lemma handleDrop_on_next_card_witness :
  handleDrop "2026-11-03T00:00:02.000Z" (Some (mkDragItem "birth" 0)) 1 Sample.state
  = Some (reorderFields "2026-11-03T00:00:02.000Z" [Sample.birthdate; Sample.age]
            Sample.state).
Proof.
  apply (handleDrop_on_next_card "2026-11-03T00:00:02.000Z"
           (mkDragItem "birth" 0) Sample.state Sample.form).
  - reflexivity.
  - cbn. lia.
Defined.

Lemma findIndex_absent fieldId fields :
  fieldId ∉ FormField.id <$> fields -> findIndex fieldId fields = None.
Proof.
  induction fields as [|f fs IH]; intros H; [reflexivity|].
  rewrite fmap_cons, not_elem_of_cons in H. destruct H as [Hne Hfs].
  cbn. destruct (String.eqb_spec (FormField.id f) fieldId); [congruence|].
  now rewrite IH.
Qed.

Lemma filter_absent fieldId (fields : list FormField.t) :
  fieldId ∉ FormField.id <$> fields ->
  filter (fun f => FormField.id f ≠ fieldId) fields = fields.
Proof.
  induction fields as [|f fs IH]; intros H; [reflexivity|].
  rewrite fmap_cons, not_elem_of_cons in H. destruct H as [Hne Hfs].
  rewrite filter_cons_True by congruence. now rewrite IH.
Qed.

Lemma fieldsOf_addField now field state :
  Spec.fieldsOf (addField now field state)
  = match currentForm state with
    | Some form => FormSchema.fields form ++ [field]
    | None => []
    end.
Proof.
  unfold addField, Spec.fieldsOf.
  destruct (currentForm state) as [form|] eqn:E; [reflexivity|now rewrite E].
Qed.

Lemma fieldsOf_deleteField_filter now fieldId state :
  Spec.fieldsOf (deleteField now fieldId state)
  = filter (fun f => FormField.id f ≠ fieldId) (Spec.fieldsOf state).
Proof.
  unfold deleteField, Spec.fieldsOf.
  destruct (currentForm state) as [form|] eqn:E; [reflexivity|now rewrite E].
Qed.

Lemma ids_map_patch fieldId u (fields : list FormField.t) :
  Partial.id u = None ->
  FormField.id <$> map (Spec.patch fieldId u) fields = FormField.id <$> fields.
Proof.
  intros H. induction fields as [|f fs IH]; [reflexivity|].
  cbn. rewrite patch_id by exact H. f_equal. exact IH.
Qed.

Lemma ids_map_cleaned fields (fs : list FormField.t) :
  FormField.id <$> map (Spec.cleaned fields) fs = FormField.id <$> fs.
Proof.
  induction fs as [|f fs IH]; [reflexivity|].
  cbn. f_equal; [|exact IH]. unfold Spec.cleaned. apply patchAll_id.
  eapply Forall_impl; [apply updateFor_shape|]. now intros [i u] [_ H].
Qed.

Lemma NoDup_ids_filter (P : FormField.t -> Prop) `{!forall f, Decision (P f)} (fields : list FormField.t) :
  NoDup (FormField.id <$> fields) -> NoDup (FormField.id <$> filter P fields).
Proof.
  intros Hnd. eapply sublist_NoDup; [exact Hnd|].
  apply fmap_sublist, sublist_filter.
Qed.

(** The handlers of the page keep the ids of the fields unique: adding a
    field under a fresh id, updating a field with an update that carries no
    id, deleting a field (with the cleanup that follows), and dropping a
    card. *)
Theorem field_handlers_keep_ids_unique now state :
  NoDup (Spec.fieldIds (Spec.fieldsOf state)) ->
  (forall id, id ∉ Spec.fieldIds (Spec.fieldsOf state) ->
     NoDup (Spec.fieldIds (Spec.fieldsOf (handleAddField now id state))))
  /\ (forall selectedField updates, Partial.id updates = None ->
     NoDup (Spec.fieldIds
              (Spec.fieldsOf (handleUpdateField now selectedField updates state))))
  /\ (forall clock fieldId,
     NoDup (Spec.fieldIds
              (Spec.fieldsOf (handleDeleteField now clock fieldId state))))
  /\ (forall draggedItem dropIndex state',
     handleDrop now draggedItem dropIndex state = Some state' ->
     NoDup (Spec.fieldIds (Spec.fieldsOf state'))).
Proof.
  unfold Spec.fieldIds. intros Hnd. split; [|split; [|split]].
  - intros id Hid. unfold handleAddField. rewrite fieldsOf_addField.
    unfold Spec.fieldsOf in Hnd, Hid.
    destruct (currentForm state) as [form|]; [|apply NoDup_nil_2].
    rewrite fmap_app. apply NoDup_app. split; [exact Hnd|]. split.
    + intros x Hx Hx'. cbn in Hx'. apply list_elem_of_singleton in Hx'.
      subst x. exact (Hid Hx).
    + apply NoDup_singleton.
  - intros [selected|] updates Hu; [|exact Hnd]. cbn.
    rewrite fieldsOf_updateField, updateFieldList_patch by exact Hnd.
    rewrite ids_map_patch by exact Hu. exact Hnd.
  - intros clock fieldId. unfold handleDeleteField.
    assert (Hd : NoDup (FormField.id <$> Spec.fieldsOf (deleteField now fieldId state))).
    { rewrite fieldsOf_deleteField_filter. now apply NoDup_ids_filter. }
    rewrite fieldsOf_cleanupDerivedFields by exact Hd.
    rewrite ids_map_cleaned. exact Hd.
  - intros draggedItem dropIndex state'. unfold handleDrop.
    destruct draggedItem as [item|]; [|intros [= <-]; exact Hnd].
    destruct (currentForm state) as [form|] eqn:Ef; [|intros [= <-]; exact Hnd].
    destruct (index item =? dropIndex)%nat; [intros [= <-]; exact Hnd|].
    destruct (droppedFields item dropIndex (FormSchema.fields form))
      as [newFields|] eqn:Ed; [|discriminate].
    intros [= <-]. apply droppedFields_Permutation in Ed.
    unfold reorderFields. rewrite Ef. unfold Spec.fieldsOf in *. cbn.
    rewrite Ef in Hnd. rewrite Ed. exact Hnd.
Qed.

Lemma field_handlers_keep_ids_unique_witness :
  NoDup (Spec.fieldIds
           (Spec.fieldsOf
              (handleDeleteField "2026-11-03T00:00:02.000Z" Sample.clock "birth"
                 Sample.state))).
Proof.
  refine (proj1 (proj2 (proj2
            (field_handlers_keep_ids_unique "2026-11-03T00:00:02.000Z"
               Sample.state _))) Sample.clock "birth").
  cbn. apply NoDup_cons. split.
  - intros H. apply list_elem_of_singleton in H. discriminate.
  - apply NoDup_singleton.
Defined.

(** For an id that no field has, [updateField] leaves the state as it is,
    [updatedAt] included, and [deleteField] leaves the fields as they
    are. *)
Theorem updateField_unknown_id now fieldId updates state :
  fieldId ∉ Spec.fieldIds (Spec.fieldsOf state) ->
  updateField now fieldId updates state = state
  /\ Spec.fieldsOf (deleteField now fieldId state) = Spec.fieldsOf state.
Proof.
  unfold Spec.fieldIds. intros H. split.
  - unfold updateField. unfold Spec.fieldsOf in H.
    destruct (currentForm state) as [form|]; [|reflexivity].
    now rewrite findIndex_absent.
  - rewrite fieldsOf_deleteField_filter. now apply filter_absent.
Qed.

Lemma updateField_unknown_id_witness :
  updateField "2026-11-03T00:00:02.000Z" "gone" CreatePage.demote Sample.state
    = Sample.state
  /\ Spec.fieldsOf (deleteField "2026-11-03T00:00:02.000Z" "gone" Sample.state)
     = Spec.fieldsOf Sample.state.
Proof.
  apply (updateField_unknown_id "2026-11-03T00:00:02.000Z" "gone"
           CreatePage.demote Sample.state).
  cbn. intros H. apply elem_of_cons in H as [H|H]; [discriminate|].
  apply list_elem_of_singleton in H. discriminate.
Defined.

(** Adding a field under a fresh id and deleting that id again gives the
    fields back. *)
Theorem addField_then_deleteField now now' field state :
  FormField.id field ∉ Spec.fieldIds (Spec.fieldsOf state) ->
  Spec.fieldsOf (deleteField now' (FormField.id field) (addField now field state))
  = Spec.fieldsOf state.
Proof.
  unfold Spec.fieldIds. intros H.
  rewrite fieldsOf_deleteField_filter, fieldsOf_addField.
  unfold Spec.fieldsOf in *.
  destruct (currentForm state) as [form|]; [|reflexivity].
  rewrite filter_app, filter_absent by exact H.
  rewrite filter_cons_False by (intros E; now apply E).
  rewrite filter_nil. apply app_nil_r.
Qed.

Lemma addField_then_deleteField_witness :
  Spec.fieldsOf
    (deleteField "2026-11-03T00:00:03.000Z" "f2"
       (addField "2026-11-03T00:00:02.000Z" Sample.nickname Sample.state))
  = Spec.fieldsOf Sample.state.
Proof.
  apply (addField_then_deleteField "2026-11-03T00:00:02.000Z"
           "2026-11-03T00:00:03.000Z" Sample.nickname Sample.state).
  cbn. intros H. apply elem_of_cons in H as [H|H]; [discriminate|].
  apply list_elem_of_singleton in H. discriminate.
Defined.

(** Only [createNewForm] and [setCurrentForm] open a form: without a
    current form, any series of the other actions ends without one. *)
Theorem field_actions_open_no_form actions : forall state,
  currentForm state = None ->
  Forall (fun action => Spec.opensForm action = false) actions ->
  currentForm (fold_left reducer actions state) = None.
Proof.
  induction actions as [|a actions IH]; intros state Hs Ha; [exact Hs|].
  apply Forall_cons in Ha as [Ha Has]. cbn. apply IH; [|exact Has].
  destruct a as [| [form|] | | | | | | | |]; cbn in Ha; try discriminate;
    cbn; unfold updateFormName, addField, updateField, deleteField,
      reorderFields; rewrite ?Hs; try reflexivity; exact Hs.
Qed.

Lemma field_actions_open_no_form_witness :
  currentForm
    (fold_left reducer
       [AddField "2026-11-03T00:00:02.000Z" Sample.nickname;
        DeleteField "2026-11-03T00:00:03.000Z" "f2";
        SetLoading true]
       (clearCurrentForm Sample.state)) = None.
Proof.
  apply (field_actions_open_no_form
           [AddField "2026-11-03T00:00:02.000Z" Sample.nickname;
            DeleteField "2026-11-03T00:00:03.000Z" "f2";
            SetLoading true]
           (clearCurrentForm Sample.state)).
  - reflexivity.
  - repeat constructor.
Defined.
End SchemaEdits.

(* ===================================================================== *)
(** * Properties of the derived-field component *)
(* ===================================================================== *)

Section DerivedSwitch.
Import FieldConfigPanel DerivedFieldConfigComponent.

Lemma editDerived_updateConfig field availableFields updates :
  dispatchAll field
    (map derivedCallback (updateConfig (derivedProps field availableFields) updates))
  = match FormField.derivedConfig field with
    | Some config =>
        spread field
          (handleDerivedFieldChange true
             (Some (match p_formula updates with
                    | Some formula =>
                        if Js.truthy formula
                        then clearParents (spreadConfig config updates)
                        else spreadConfig config updates
                    | None => spreadConfig config updates
                    end)))
    | None => field
    end.
Proof.
  unfold updateConfig, derivedProps. cbn [config].
  destruct (FormField.derivedConfig field); reflexivity.
Qed.

(** Only number fields are derived.  A change of the field type always
    leaves a field that is a number field or neither flagged as derived nor
    configured; and the switch and the selects of the derived-field
    component keep this. *)
Theorem only_number_fields_are_derived field :
  Spec.derivedIsNumber field ->
  (forall type,
     Spec.derivedIsNumber (dispatchAll field [handleFieldTypeChange field type]))
  /\ (forall availableFields action field',
        editDerived field availableFields action = Some field' ->
        Spec.derivedIsNumber field').
Proof.
  intros Hinv. split.
  - intros type. unfold Spec.derivedIsNumber. cbn.
    destruct (bool_decide_reflect (type = number)) as [->|Hne]; [reflexivity|].
    cbn. intros [H|H]; [discriminate|]. now contradiction H.
  - intros availableFields action field'. unfold editDerived.
    destruct action as [checked|formula|value]; cbn [changes fmap option_fmap option_map].
    + intros [= <-]. unfold handleDerivedToggle, canBeDerivable.
      cbn [derivedProps fieldType].
      destruct checked; cbn [andb].
      * destruct (bool_decide_reflect (FormField.type field = number)) as [E|E].
        -- intros _. exact E.
        -- cbn. intros [H|H]; [discriminate|]. now contradiction H.
      * cbn. intros [H|H]; [discriminate|]. now contradiction H.
    + intros [= <-]. unfold handleFormulaChange.
      rewrite editDerived_updateConfig.
      destruct (FormField.derivedConfig field) as [c|] eqn:Ec; [|exact Hinv].
      intros _. cbn. apply Hinv. right. rewrite Ec. discriminate.
    + unfold handleParentFieldsChange.
      destruct (match config (derivedProps field availableFields) with
                | Some c => String.eqb (DerivedFieldConfig.formula c) "sum"
                | None => false end), value; cbn; try discriminate;
      intros [= <-]; rewrite editDerived_updateConfig;
      (destruct (FormField.derivedConfig field) as [c|] eqn:Ec; [|exact Hinv]);
      intros _; cbn; apply Hinv; right; rewrite Ec; discriminate.
Qed.

Lemma only_number_fields_are_derived_witness :
  Spec.derivedIsNumber
    (dispatchAll Sample.total [handleFieldTypeChange Sample.total text]).
Proof.
  refine (proj1 (only_number_fields_are_derived Sample.total _) text).
  intros _. reflexivity.
Defined.

(** Switching a number field to derived gives it a configuration without
    parents, and its derived value is 0 for either formula (no field has the
    id ["undefined"], the key that the age formula reads then). *)
Theorem new_derived_field_shows_zero host field availableFields field' formData :
  FormField.type field = number ->
  formData !! "undefined" = None ->
  editDerived field availableFields (DerivedToggle true) = Some field' ->
  FormField.isDerived field' = true
  /\ (exists config, FormField.derivedConfig field' = Some config
        /\ DerivedFieldConfig.parentFieldIds config = [])
  /\ DerivedFields.calculateDerivedValue host field' formData = VNumber Js.zero.
Proof.
  intros Htype Hkey. unfold editDerived. cbn [changes fmap option_fmap option_map].
  intros [= <-]. unfold handleDerivedToggle, canBeDerivable.
  cbn [derivedProps fieldType andb]. rewrite Htype.
  rewrite bool_decide_true by reflexivity.
  destruct (hasDateFields _); cbn.
  - split; [reflexivity|]. split; [eexists; split; reflexivity|].
    unfold DerivedFields.calculateDerivedValue. cbn.
    unfold DerivedFields.calculateAge, DerivedFields.get. cbn.
    rewrite Hkey. reflexivity.
  - split; [reflexivity|]. split; [eexists; split; reflexivity|]. reflexivity.
Qed.

Lemma new_derived_field_shows_zero_witness :
  FormField.isDerived
    (dispatchAll (Sample.field number false [])
       (map derivedCallback
          (handleDerivedToggle
             (derivedProps (Sample.field number false []) [Sample.birthdate]) true)))
  = true
  /\ (exists config,
        FormField.derivedConfig
          (dispatchAll (Sample.field number false [])
             (map derivedCallback
                (handleDerivedToggle
                   (derivedProps (Sample.field number false []) [Sample.birthdate])
                   true)))
        = Some config
        /\ DerivedFieldConfig.parentFieldIds config = [])
  /\ DerivedFields.calculateDerivedValue Sample.host
       (dispatchAll (Sample.field number false [])
          (map derivedCallback
             (handleDerivedToggle
                (derivedProps (Sample.field number false []) [Sample.birthdate])
                true)))
       Sample.values
     = VNumber Js.zero.
Proof.
  apply (new_derived_field_shows_zero Sample.host (Sample.field number false [])
           [Sample.birthdate] _ Sample.values).
  - reflexivity.
  - reflexivity.
  - reflexivity.
Defined.

(** A configuration whose formula is not [sum] never has more than one
    parent, the one that [calculateAge] reads: the switch, the formula
    select (which offers no empty formula) and the parent select keep
    this. *)
Theorem age_config_has_one_parent field availableFields action field' :
  Spec.ageHasOneParent field ->
  (forall formula, action = FormulaChange formula -> formula <> "") ->
  editDerived field availableFields action = Some field' ->
  Spec.ageHasOneParent field'.
Proof.
  intros Hinv Hformula. unfold editDerived.
  destruct action as [checked|formula|value]; cbn [changes fmap option_fmap option_map].
  - intros [= <-]. unfold handleDerivedToggle.
    destruct (checked && _); cbn; intros c [= <-] _; cbn; lia.
  - intros [= <-]. unfold handleFormulaChange. rewrite editDerived_updateConfig.
    destruct (FormField.derivedConfig field) as [c|] eqn:Ec; [|exact Hinv].
    cbn [p_formula]. specialize (Hformula formula eq_refl).
    apply truthy_true_iff in Hformula. rewrite Hformula.
    intros c' [= <-] _. cbn. lia.
  - unfold handleParentFieldsChange.
    change (config (derivedProps field availableFields))
      with (FormField.derivedConfig field).
    destruct (FormField.derivedConfig field) as [c|] eqn:Ec.
    + destruct (String.eqb_spec (DerivedFieldConfig.formula c) "sum") as [Es|Es];
        destruct value as [ids|id]; try discriminate;
        intros [= <-]; rewrite editDerived_updateConfig, Ec;
        intros c' [= <-]; cbn; [congruence|lia].
    + destruct value as [ids|id]; [discriminate|].
      intros [= <-]. rewrite editDerived_updateConfig, Ec. exact Hinv.
Qed.

Lemma age_config_has_one_parent_witness :
  Spec.ageHasOneParent
    (dispatchAll Sample.total
       (map derivedCallback
          (handleFormulaChange (derivedProps Sample.total [Sample.birthdate])
             "age_from_birthdate"))).
Proof.
  apply (age_config_has_one_parent Sample.total [Sample.birthdate]
           (FormulaChange "age_from_birthdate")).
  - intros c [= <-] H. now contradiction H.
  - intros formula [= <-]. discriminate.
  - reflexivity.
Defined.

(** The two copies of the derived-field component differ in two places
    only.  On a field that is not a number field the switch of this copy
    reports [onChange(false)] and the switch of the other reports nothing;
    and picking the formula that is already set clears the parents here and
    keeps them there.  Otherwise the switch and [updateConfig] agree. *)
Theorem derived_component_copies p :
  (forall checked,
     DerivedFieldConfigComponentFixed.handleDerivedToggle p checked
     = if canBeDerivable p then handleDerivedToggle p checked else [])
  /\ (forall checked,
        canBeDerivable p = false ->
        handleDerivedToggle p checked = [mkChange false None])
  /\ (forall updates,
        (forall current formula,
           config p = Some current ->
           p_formula updates = Some formula ->
           formula <> DerivedFieldConfig.formula current) ->
        DerivedFieldConfigComponentFixed.updateConfig p updates
        = updateConfig p updates)
  /\ (forall current,
        config p = Some current ->
        DerivedFieldConfig.formula current <> "" ->
        DerivedFieldConfigComponentFixed.handleFormulaChange p
          (DerivedFieldConfig.formula current)
        = [mkChange true (Some current)]
        /\ handleFormulaChange p (DerivedFieldConfig.formula current)
           = [mkChange true (Some (clearParents current))]).
Proof.
  split; [|split; [|split]].
  - intros checked.
    unfold DerivedFieldConfigComponentFixed.handleDerivedToggle, handleDerivedToggle.
    destruct (canBeDerivable p), checked; reflexivity.
  - intros checked H. unfold handleDerivedToggle. rewrite H.
    now rewrite andb_false_r.
  - intros updates H.
    unfold DerivedFieldConfigComponentFixed.updateConfig, updateConfig.
    destruct (config p) as [current|]; [|reflexivity].
    destruct (p_formula updates) as [formula|] eqn:Ef; [|reflexivity].
    specialize (H current formula eq_refl eq_refl).
    apply String.eqb_neq in H. rewrite H. cbn. now rewrite andb_true_r.
  - intros current Ec Hne. apply truthy_true_iff in Hne.
    unfold DerivedFieldConfigComponentFixed.handleFormulaChange,
      DerivedFieldConfigComponentFixed.updateConfig,
      handleFormulaChange, updateConfig.
    rewrite Ec. cbn [p_formula]. rewrite Hne, String.eqb_refl. cbn.
    destruct current as [parents formula]. split; reflexivity.
Qed.
End DerivedSwitch.

(* ===================================================================== *)
(** * Properties of the options component *)
(* ===================================================================== *)

Section Options.
Import FieldConfigPanel FieldOptions.

Lemma validOptions_elem (l : list string) (d : string) :
  d ∈ List.filter (fun option => Js.truthy (Js.trim option)) l
  <-> d ∈ l /\ Spec.nonBlank d.
Proof.
  rewrite !list_elem_of_In, filter_In. reflexivity.
Qed.

Lemma validOptions_Forall (l : list string) :
  Forall Spec.nonBlank (List.filter (fun option => Js.truthy (Js.trim option)) l).
Proof.
  apply Forall_forall. intros d Hd. apply validOptions_elem in Hd. tauto.
Qed.

Lemma validOptions_id (l : list string) :
  Forall Spec.nonBlank l ->
  List.filter (fun option => Js.truthy (Js.trim option)) l = l.
Proof.
  induction 1 as [|x l Hx Hl IH]; [reflexivity|].
  cbn. unfold Spec.nonBlank in Hx. rewrite Hx. now rewrite IH.
Qed.

Lemma elem_of_removeAt (l : list string) (i : nat) (d : string) :
  d ∈ l -> (forall o, l !! i = Some o -> d <> o) ->
  d ∈ ValidationRules.removeAt i l.
Proof.
  intros Hd Hne. apply list_elem_of_lookup in Hd as [j Hj].
  unfold ValidationRules.removeAt. rewrite <- delete_take_drop.
  destruct (Nat.lt_total j i) as [Hlt|[->|Hgt]].
  - apply (list_elem_of_lookup_2 _ j). now rewrite list_lookup_delete_lt.
  - now contradiction (Hne d).
  - apply (list_elem_of_lookup_2 _ (pred j)).
    rewrite list_lookup_delete_ge by lia.
    replace (S (pred j)) with j by lia. exact Hj.
Qed.

Lemma elem_of_insert_other (l : list string) (i : nat) (v d o : string) :
  l !! i = Some o -> d ∈ l -> d <> o -> d ∈ <[i := v]> l.
Proof.
  intros Hi Hd Hne. apply list_elem_of_lookup in Hd as [j Hj].
  apply (list_elem_of_lookup_2 _ j).
  rewrite list_lookup_insert_ne; [exact Hj|]. intros ->. congruence.
Qed.

Lemma elem_of_insert_new (l : list string) (i : nat) (v o : string) :
  l !! i = Some o -> v ∈ <[i := v]> l.
Proof.
  intros Hi. apply (list_elem_of_lookup_2 _ i).
  apply list_lookup_insert_eq. apply lookup_lt_is_Some. eauto.
Qed.

Lemma differs_true o val : differs (Some o) val = true <-> val <> o.
Proof.
  cbn. destruct (String.eqb_spec val o); cbn; intuition congruence.
Qed.

(** An action of the options component leaves the options as they are or
    stores a list without blank options. *)
Theorem options_are_never_blank field action field' :
  editOptions field action = Some field' ->
  FormField.options field' = FormField.options field
  \/ exists options, FormField.options field' = Some options
                     /\ Forall Spec.nonBlank options.
Proof.
  unfold editOptions.
  destruct action as [newOption|index value|index|option checked|value];
    cbn [callbacks].
  - unfold addOption. destruct (Js.truthy (Js.trim newOption));
      intros [= <-]; [right|left; reflexivity].
    eexists. split; [reflexivity|]. apply validOptions_Forall.
  - unfold updateOption.
    destruct (options (optionsProps field) !! index) as [old|]; [|discriminate].
    intros [= <-]. right.
    repeat case_match; cbn;
      (eexists; split; [reflexivity|apply validOptions_Forall]).
  - intros [= <-]. right. unfold deleteOption.
    repeat case_match; cbn;
      (eexists; split; [reflexivity|apply validOptions_Forall]).
  - intros [= <-]. left. reflexivity.
  - intros [= <-]. left. reflexivity.
Qed.

Lemma options_are_never_blank_witness :
  FormField.options
    (FieldConfigPanel.dispatchAll Sample.colours
       (map FieldConfigPanel.optionsCallback
          (FieldOptions.addOption
             (FieldConfigPanel.optionsProps Sample.colours) " blue ")))
  = FormField.options Sample.colours
  \/ exists options,
       FormField.options
         (FieldConfigPanel.dispatchAll Sample.colours
            (map FieldConfigPanel.optionsCallback
               (FieldOptions.addOption
                  (FieldConfigPanel.optionsProps Sample.colours) " blue ")))
       = Some options
       /\ Forall Spec.nonBlank options.
Proof.
  apply (options_are_never_blank Sample.colours (FieldOptions.AddOption " blue ")).
  reflexivity.
Defined.

Lemma validOptions_insert_blank (l : list string) : forall i v old,
  Forall Spec.nonBlank l -> l !! i = Some old -> ~ Spec.nonBlank v ->
  List.filter (fun option => Js.truthy (Js.trim option)) (<[i := v]> l)
  = ValidationRules.removeAt i l.
Proof.
  induction l as [|x l IH]; intros i v old Hall Hi Hv; [discriminate|].
  apply Forall_cons in Hall as [Hx Hl]. destruct i as [|i].
  - cbn. unfold Spec.nonBlank in Hv. apply not_true_is_false in Hv.
    rewrite Hv. unfold ValidationRules.removeAt. cbn. rewrite drop_0.
    now apply validOptions_id.
  - cbn. unfold Spec.nonBlank in Hx. rewrite Hx.
    unfold ValidationRules.removeAt. cbn. f_equal.
    exact (IH i v old Hl Hi Hv).
Qed.

(** Clearing the text of an option (or typing only white space) removes
    the option from the list. *)
Theorem blank_option_is_removed field index value old :
  Forall Spec.nonBlank (Spec.optionsOf field) ->
  Spec.optionsOf field !! index = Some old ->
  ~ Spec.nonBlank value ->
  exists field',
    editOptions field (UpdateOption index value) = Some field'
    /\ FormField.options field'
       = Some (ValidationRules.removeAt index (Spec.optionsOf field)).
Proof.
  unfold Spec.optionsOf. intros Hall Hold Hblank.
  unfold editOptions. cbn [callbacks]. unfold updateOption.
  cbn [optionsProps options]. rewrite Hold.
  eexists. split; [reflexivity|].
  pose proof (validOptions_insert_blank _ _ _ _ Hall Hold Hblank) as Hopts.
  repeat case_match; cbn; rewrite Hopts; reflexivity.
Qed.

Lemma blank_option_is_removed_witness :
  exists field',
    editOptions Sample.colours (UpdateOption 1 "  ") = Some field'
    /\ FormField.options field'
       = Some (ValidationRules.removeAt 1 (Spec.optionsOf Sample.colours)).
Proof.
  apply (blank_option_is_removed Sample.colours 1 "  " "green").
  - repeat constructor.
  - reflexivity.
  - unfold Spec.nonBlank. cbn. discriminate.
Defined.

Lemma includes_true l s : includes l s = true <-> s ∈ l.
Proof.
  unfold includes. rewrite existsb_exists, list_elem_of_In. split.
  - intros (x & Hx & E). apply String.eqb_eq in E. now subst.
  - intros H. exists s. split; [exact H|apply String.eqb_refl].
Qed.

Lemma optionsCallback_type field cs :
  FormField.type (dispatchAll field (map optionsCallback cs))
  = FormField.type field.
Proof.
  revert field. induction cs as [|c cs IH]; intros field; [reflexivity|].
  cbn. unfold dispatchAll in IH. rewrite IH. now destruct c.
Qed.

(** The invariant in the terms of the type, the default value and the
    options of a field. *)
Lemma defaultsAmongOptions_intro f type value options :
  FormField.type f = type ->
  FormField.defaultValue f = value ->
  default [] (FormField.options f) = options ->
  match type with
  | checkbox => forall l, value = VArray l -> forall d, d ∈ l -> d ∈ options
  | select | radio => forall s, value = VString s -> s = "" \/ s ∈ options
  | _ => True
  end ->
  Spec.defaultsAmongOptions f.
Proof.
  intros <- <- <- H. exact H.
Qed.

(** The default selection of a choice field stays among its options when
    options are added, renamed (to a text that is not blank) and deleted,
    and when defaults are picked among the options. *)
Theorem defaults_stay_among_options field action field' :
  Spec.defaultsAmongOptions field ->
  Forall Spec.nonBlank (Spec.optionsOf field) ->
  Spec.namesOptions field action ->
  editOptions field action = Some field' ->
  Spec.defaultsAmongOptions field'.
Proof.
  intros Hinv Hall Hact. unfold editOptions.
  assert (Hkeep : forall d, d ∈ Spec.optionsOf field -> Spec.nonBlank d).
  { intros d Hd. eapply Forall_forall in Hall; eauto. }
  unfold Spec.defaultsAmongOptions, Spec.optionsOf in Hinv, Hkeep, Hact.
  set (opts := default [] (FormField.options field)) in *.
  assert (Hins : forall index old value d,
            opts !! index = Some old -> Spec.nonBlank value ->
            d = value \/ (d ∈ opts /\ d <> old) ->
            d ∈ List.filter (fun option => Js.truthy (Js.trim option))
                  (<[index := value]> opts)).
  { intros index old value d Ho Hv [->|[Hd Hne]]; apply validOptions_elem.
    - split; [eapply elem_of_insert_new; eauto|exact Hv].
    - split; [eapply elem_of_insert_other; eauto|now apply Hkeep]. }
  assert (Hrem : forall index d,
            d ∈ opts -> differs (opts !! index) d = true ->
            d ∈ List.filter (fun option => Js.truthy (Js.trim option))
                  (ValidationRules.removeAt index opts)).
  { intros index d Hd Hdiff. apply validOptions_elem. split; [|now apply Hkeep].
    apply elem_of_removeAt; [exact Hd|]. intros o Ho. rewrite Ho in Hdiff.
    now apply differs_true in Hdiff. }
  assert (Hdefaults : forall d,
            d ∈ currentDefaults (optionsProps field) ->
            FormField.type field = checkbox -> d ∈ opts).
  { unfold currentDefaults. cbn. intros d Hd Et. rewrite Et in Hinv.
    destruct (FormField.defaultValue field) as [| | |l| | |] eqn:Ed;
      try (now apply elem_of_nil in Hd).
    eapply Hinv; eauto. }
  assert (Hsingle : forall s,
            FormField.defaultValue field = VString s ->
            FormField.type field = select \/ FormField.type field = radio ->
            s = "" \/ s ∈ opts).
  { intros s Hs [Et|Et]; rewrite Et in Hinv; now apply Hinv. }
  destruct action as [newOption|index value|index|option checked|value];
    cbn [callbacks Spec.namesOptions] in *.
  - (* addOption *)
    unfold addOption. destruct (Js.truthy (Js.trim newOption));
      intros [= <-]; [|exact Hinv].
    eapply defaultsAmongOptions_intro; [reflexivity..|]. cbn. fold opts.
    assert (Hgrow : forall d, d ∈ opts ->
              d ∈ List.filter (fun option => Js.truthy (Js.trim option))
                    (opts ++ [Js.trim newOption])).
    { intros d Hd. apply validOptions_elem. split; [|now apply Hkeep].
      apply elem_of_app. now left. }
    destruct (FormField.type field) eqn:Et; try exact I.
    + intros s Hs. destruct (Hsingle s Hs) as [->|Hin]; auto.
    + intros s Hs. destruct (Hsingle s Hs) as [->|Hin]; auto.
    + intros l Hl d Hd. apply Hgrow, Hdefaults; [|reflexivity].
      unfold currentDefaults. cbn. now rewrite Hl.
  - (* updateOption *)
    unfold updateOption. cbn [optionsProps options fieldType FieldOptions.defaultValue].
    fold opts. destruct (opts !! index) as [old|] eqn:Eo; [|discriminate].
    intros [= <-].
    destruct (bool_decide_reflect (FormField.type field = checkbox)) as [Et|Et].
    + destruct (includes (currentDefaults (optionsProps field)) old) eqn:Ei.
      * eapply defaultsAmongOptions_intro; [reflexivity..|]. cbn -[includes].
        fold opts. rewrite Et. intros l [= <-] d Hd.
        apply list_elem_of_fmap in Hd as (d0 & -> & Hd0).
        apply (Hins index old); [exact Eo|exact Hact|].
        destruct (String.eqb_spec d0 old) as [->|Hne]; [now left|right].
        split; [|exact Hne]. now apply Hdefaults.
      * eapply defaultsAmongOptions_intro; [reflexivity..|]. cbn -[includes].
        fold opts. rewrite Et. intros l Hl d Hd.
        assert (Hd' : d ∈ currentDefaults (optionsProps field)).
        { unfold currentDefaults. cbn. now rewrite Hl. }
        apply (Hins index old); [exact Eo|exact Hact|]. right.
        split; [now apply Hdefaults|]. intros ->.
        apply includes_true in Hd'. congruence.
    + destruct (isOption (FormField.defaultValue field) (Some old)) eqn:Ei.
      * eapply defaultsAmongOptions_intro; [reflexivity..|]. cbn. fold opts.
        destruct (FormField.type field); try exact I;
          intros s [= <-]; right; apply (Hins index old); auto.
      * eapply defaultsAmongOptions_intro; [reflexivity..|]. cbn. fold opts.
        assert (Hs : forall s, FormField.defaultValue field = VString s -> s <> old).
        { intros s Hs ->. rewrite Hs in Ei. cbn in Ei.
          now rewrite String.eqb_refl in Ei. }
        destruct (FormField.type field) eqn:Et'; try exact I;
          try (now contradiction Et);
          intros s Hd; (destruct (Hsingle s Hd) as [->|Hin]; [auto|now left|]);
          right; apply (Hins index old); auto.
  - (* deleteOption *)
    intros [= <-]. unfold deleteOption.
    cbn [optionsProps options fieldType FieldOptions.defaultValue]. fold opts.
    destruct (bool_decide_reflect (FormField.type field = checkbox)) as [Et|Et].
    + eapply defaultsAmongOptions_intro; [reflexivity..|]. cbn. fold opts.
      rewrite Et. intros l [= <-] d Hd.
      apply list_elem_of_In, filter_In in Hd as [Hd Hdiff].
      apply list_elem_of_In in Hd. apply Hrem; [|exact Hdiff].
      now apply Hdefaults.
    + destruct (isOption (FormField.defaultValue field) (opts !! index)) eqn:Ei.
      * eapply defaultsAmongOptions_intro; [reflexivity..|]. cbn. fold opts.
        destruct (FormField.type field); try exact I; intros s [= <-]; now left.
      * eapply defaultsAmongOptions_intro; [reflexivity..|]. cbn. fold opts.
        assert (Hs : forall s, FormField.defaultValue field = VString s ->
                       differs (opts !! index) s = true).
        { intros s Hs. rewrite Hs in Ei. cbn in Ei.
          destruct (opts !! index); [cbn; now rewrite Ei|reflexivity]. }
        destruct (FormField.type field) eqn:Et'; try exact I;
          try (now contradiction Et);
          intros s Hd; (destruct (Hsingle s Hd) as [->|Hin]; [auto|now left|]);
          right; apply Hrem; auto.
  - (* handleCheckboxDefaultChange *)
    intros [= <-]. unfold handleCheckboxDefaultChange.
    eapply defaultsAmongOptions_intro; [reflexivity..|]. cbn. fold opts.
    destruct (FormField.type field) eqn:Et; try exact I; try (intros ? [=]; fail).
    intros ? [= <-] d Hd. destruct checked.
    + apply elem_of_app in Hd as [Hd|Hd]; [now apply Hdefaults|].
      apply list_elem_of_singleton in Hd. now subst.
    + apply list_elem_of_In, filter_In in Hd as [Hd _].
      apply list_elem_of_In in Hd. now apply Hdefaults.
  - (* handleDefaultValueSelectChange *)
    intros [= <-].
    eapply defaultsAmongOptions_intro; [reflexivity..|]. cbn. fold opts.
    destruct (FormField.type field); try exact I; try (intros ? [=]; fail);
      intros ? [= <-]; exact Hact.
Qed.

Lemma defaults_stay_among_options_witness :
  Spec.defaultsAmongOptions
    (dispatchAll Sample.colours
       (map optionsCallback (deleteOption (optionsProps Sample.colours) 0))).
Proof.
  apply (defaults_stay_among_options Sample.colours (DeleteOption 0)).
  - intros l [= <-] d Hd. apply list_elem_of_singleton in Hd. subst d.
    apply elem_of_cons. now left.
  - repeat constructor.
  - exact I.
  - reflexivity.
Defined.
End Options.

(* ===================================================================== *)
(** * Properties of the preview *)
(* ===================================================================== *)

Section Preview.
Import FormFieldRenderer PreviewPage.

(** Ticking a box ticks it and satisfies a [notEmpty] rule of a checkbox
    field; unticking it unticks every copy of the option, and when nothing
    else was ticked the [notEmpty] rule fails again. *)
Theorem checkbox_ticks_and_notEmpty rule value option :
  ValidationRule.type rule = notEmpty ->
  isChecked (handleCheckboxChange value option true) option = true
  /\ isChecked (handleCheckboxChange value option false) option = false
  /\ Validation.validateRule rule (handleCheckboxChange value option true) checkbox
     = None
  /\ (Forall (eq option) (checkboxValues value) ->
      Validation.validateRule rule (handleCheckboxChange value option false)
        checkbox
      = Some (ValidationRule.message rule)).
Proof.
  intros Ht. unfold isChecked, handleCheckboxChange, Validation.validateRule.
  rewrite Ht. cbn [checkboxValues]. split; [|split; [|split]].
  - apply existsb_exists. exists option. split; [|apply String.eqb_refl].
    apply in_or_app. right. now left.
  - apply not_true_is_false. intros H. apply existsb_exists in H as (x & Hx & E).
    apply filter_In in Hx as [_ Hx]. apply String.eqb_eq in E. subst x.
    now rewrite String.eqb_refl in Hx.
  - rewrite bool_decide_true by reflexivity.
    rewrite bool_decide_false; [reflexivity|].
    rewrite length_app. cbn. lia.
  - intros Hall. rewrite bool_decide_true by reflexivity.
    rewrite bool_decide_true; [reflexivity|].
    induction Hall as [|x l Hx Hl IH]; [reflexivity|].
    cbn. subst x. now rewrite String.eqb_refl.
Qed.

Lemma checkbox_ticks_and_notEmpty_witness :
  isChecked (handleCheckboxChange (VArray ["red"]) "red" true) "red" = true
  /\ isChecked (handleCheckboxChange (VArray ["red"]) "red" false) "red" = false
  /\ Validation.validateRule Sample.notEmptyRule
       (handleCheckboxChange (VArray ["red"]) "red" true) checkbox
     = None
  /\ (Forall (eq "red") (checkboxValues (VArray ["red"])) ->
      Validation.validateRule Sample.notEmptyRule
        (handleCheckboxChange (VArray ["red"]) "red" false) checkbox
      = Some (ValidationRule.message Sample.notEmptyRule)).
Proof.
  apply (checkbox_ticks_and_notEmpty Sample.notEmptyRule (VArray ["red"]) "red").
  reflexivity.
Defined.

(** A loop that stores one entry per field that qualifies. *)
Lemma fold_insert_absent {V} (cond : FormField.t -> bool)
    (val : FormField.t -> V) (fields : list FormField.t) :
  forall (acc : gmap string V) k,
  k ∉ FormField.id <$> fields ->
  fold_left (fun acc f => if cond f then <[FormField.id f := val f]> acc else acc)
    fields acc !! k = acc !! k.
Proof.
  induction fields as [|a l IH]; intros acc k Hk; [reflexivity|].
  rewrite fmap_cons, not_elem_of_cons in Hk. destruct Hk as [Hne Hk].
  cbn. rewrite IH by exact Hk.
  destruct (cond a); [|reflexivity]. now rewrite lookup_insert_ne.
Qed.

Lemma fold_insert_lookup {V} (cond : FormField.t -> bool)
    (val : FormField.t -> V) (fields : list FormField.t) :
  forall (acc : gmap string V) f,
  NoDup (FormField.id <$> fields) -> f ∈ fields ->
  fold_left (fun acc f => if cond f then <[FormField.id f := val f]> acc else acc)
    fields acc !! FormField.id f
  = if cond f then Some (val f) else acc !! FormField.id f.
Proof.
  induction fields as [|a l IH]; intros acc f Hnd Hf; [now apply elem_of_nil in Hf|].
  rewrite fmap_cons in Hnd. apply NoDup_cons in Hnd as [Ha Hl].
  cbn. apply elem_of_cons in Hf as [->|Hf].
  - rewrite fold_insert_absent by exact Ha.
    destruct (cond a); [apply lookup_insert_eq|reflexivity].
  - rewrite IH by assumption. destruct (cond f); [reflexivity|].
    destruct (cond a); [|reflexivity]. apply lookup_insert_ne.
    intros E. apply Ha. rewrite E. now apply list_elem_of_fmap_2.
Qed.

Lemma validateStep_insert formData errors field :
  validateStep formData errors field
  = let error :=
      Validation.validateField field
        (DerivedFields.get formData (FormField.id field)) in
    if Validation.truthyError error
    then <[FormField.id field := default "" error]> errors else errors.
Proof.
  unfold validateStep. cbn zeta.
  destruct (Validation.validateField _ _) as [e|]; [|reflexivity].
  cbn. reflexivity.
Qed.

Lemma validateForm_fold fields formData :
  validateForm fields formData
  = fold_left
      (fun acc f =>
         if Validation.truthyError
              (Validation.validateField f
                 (DerivedFields.get formData (FormField.id f)))
         then <[FormField.id f :=
                  default ""
                    (Validation.validateField f
                       (DerivedFields.get formData (FormField.id f)))]> acc
         else acc)
      fields ∅.
Proof.
  unfold validateForm. generalize (∅ : ValidationErrors).
  induction fields as [|a l IH]; intros acc; [reflexivity|].
  cbn. rewrite validateStep_insert. apply IH.
Qed.

(** Every message that [validateForm] records is truthy. *)
Lemma validateForm_truthy fields formData k m :
  validateForm fields formData !! k = Some m -> Js.truthy m = true.
Proof.
  unfold validateForm.
  assert (H : forall acc : ValidationErrors,
            (forall k m, acc !! k = Some m -> Js.truthy m = true) ->
            forall k m, fold_left (validateStep formData) fields acc !! k = Some m ->
                        Js.truthy m = true).
  { induction fields as [|a l IH]; intros acc Hacc; [exact Hacc|].
    cbn. apply IH. intros k' m'. unfold validateStep.
    destruct (Validation.validateField _ _) as [e|]; [|apply Hacc].
    destruct (Js.truthy e) eqn:Ee; [|apply Hacc].
    destruct (decide (k' = FormField.id a)) as [->|Hne].
    - rewrite lookup_insert_eq. now intros [= <-].
    - rewrite lookup_insert_ne by congruence. apply Hacc. }
  apply H. intros k' m'. now rewrite lookup_empty.
Qed.

Lemma validateForm_empty fields formData :
  validateForm fields formData = ∅
  <-> Forall (fun f =>
                Validation.truthyError
                  (Validation.validateField f
                     (DerivedFields.get formData (FormField.id f))) = false)
        fields.
Proof.
  unfold validateForm.
  assert (H : forall acc : ValidationErrors,
            fold_left (validateStep formData) fields acc = ∅
            <-> acc = ∅
                /\ Forall (fun f =>
                     Validation.truthyError
                       (Validation.validateField f
                          (DerivedFields.get formData (FormField.id f))) = false)
                     fields).
  { induction fields as [|a l IH]; intros acc.
    - cbn. split; [intros ->; split; [reflexivity|constructor]|intros [-> _]; reflexivity].
    - cbn. rewrite IH, Forall_cons, validateStep_insert. cbn zeta.
      destruct (Validation.truthyError _) eqn:Et.
      + split.
        * intros [H _]. now apply insert_non_empty in H.
        * intros [_ [H _]]. discriminate.
      + tauto. }
  rewrite H. tauto.
Qed.

(** [handleSubmit] announces success exactly when [validateField] gives no
    message, or the empty one, for every field. *)
Theorem handleSubmit_announces_success fields formData :
  type (snd (handleSubmit fields formData)) = Success
  <-> Forall (fun f =>
                Validation.truthyError
                  (Validation.validateField f
                     (DerivedFields.get formData (FormField.id f))) = false)
        fields.
Proof.
  rewrite <- validateForm_empty. unfold handleSubmit. cbn.
  case_bool_decide as Hs; cbn.
  - apply map_size_empty_iff in Hs. tauto.
  - split; [discriminate|]. intros H. rewrite H in Hs.
    now rewrite map_size_empty in Hs.
Qed.

(** In a schema whose field ids are unique, [validateForm] records for a
    field the message of [validateField], and nothing when that is [null] or
    empty. *)
Theorem validateForm_error_of_field fields formData field :
  NoDup (Spec.fieldIds fields) ->
  field ∈ fields ->
  validateForm fields formData !! FormField.id field
  = let error :=
      Validation.validateField field
        (DerivedFields.get formData (FormField.id field)) in
    if Validation.truthyError error then error else None.
Proof.
  unfold Spec.fieldIds. intros Hnd Hf. rewrite validateForm_fold.
  rewrite (fold_insert_lookup _ _ fields ∅ field Hnd Hf). cbn zeta.
  destruct (Validation.validateField _ _) as [e|]; cbn.
  - destruct (Js.truthy e); [reflexivity|apply lookup_empty].
  - apply lookup_empty.
Qed.

Lemma validateForm_error_of_field_witness :
  validateForm [Sample.field text true [Sample.notEmptyRule]; Sample.nickname] ∅
    !! "f1"
  = Some "This field is required".
Proof.
  refine (eq_trans
            (validateForm_error_of_field
               [Sample.field text true [Sample.notEmptyRule]; Sample.nickname] ∅
               (Sample.field text true [Sample.notEmptyRule]) _ _) _).
  - cbn. apply NoDup_cons. split.
    + intros H. apply list_elem_of_singleton in H. discriminate.
    + apply NoDup_singleton.
  - apply elem_of_cons. now left.
  - reflexivity.
Defined.

(** After a submit, a change of a field stores the value and clears the
    error of that field; the errors of the other fields stay. *)
Theorem handleFieldChange_clears_error fields formData fieldId value :
  handleFieldChange fieldId value formData (validateForm fields formData)
  = (<[fieldId := value]> formData,
     delete fieldId (validateForm fields formData)).
Proof.
  unfold handleFieldChange. f_equal.
  destruct (validateForm fields formData !! fieldId) as [m|] eqn:E.
  - now rewrite (validateForm_truthy _ _ _ _ E).
  - symmetry. now apply delete_id.
Qed.

(** In a schema whose field ids are unique, the initial data hold the
    default value of every field that is not derived and whose default is
    neither [undefined] nor the empty string, and nothing for the other
    fields. *)
Theorem initialData_of_field fields field :
  NoDup (Spec.fieldIds fields) ->
  field ∈ fields ->
  initialData fields !! FormField.id field
  = if FormField.isDerived field
       || isUndefined (FormField.defaultValue field)
       || isEmptyString (FormField.defaultValue field)
    then None else Some (FormField.defaultValue field).
Proof.
  unfold Spec.fieldIds, initialData. intros Hnd Hf.
  pose proof (fold_insert_lookup
                (fun f => negb (FormField.isDerived f)
                          && negb (isUndefined (FormField.defaultValue f))
                          && negb (isEmptyString (FormField.defaultValue f)))
                FormField.defaultValue fields ∅ field Hnd Hf) as H.
  unfold initialStep. cbn zeta. rewrite H, lookup_empty.
  destruct (FormField.isDerived field), (isUndefined _), (isEmptyString _);
    reflexivity.
Qed.

Lemma initialData_of_field_witness :
  initialData [Sample.nickname; Sample.age] !! "f2" = Some (VString "abc").
Proof.
  refine (eq_trans
            (initialData_of_field [Sample.nickname; Sample.age] Sample.nickname
               _ _) _).
  - cbn. apply NoDup_cons. split.
    + intros H. apply list_elem_of_singleton in H. discriminate.
    + apply NoDup_singleton.
  - apply elem_of_cons. now left.
  - reflexivity.
Defined.
End Preview.

Section DerivedEffect.
Import PreviewPage.
Variable host : Js.Host.

Lemma sum_ext (d d' : PreviewData) parents : forall acc,
  (forall k, k ∈ parents -> d !! k = d' !! k) ->
  fold_left (DerivedFields.sumStep d) parents acc
  = fold_left (DerivedFields.sumStep d') parents acc.
Proof.
  induction parents as [|p ps IH]; intros acc H; [reflexivity|].
  cbn. rewrite IH by (intros k Hk; apply H; now apply elem_of_cons; right).
  f_equal. unfold DerivedFields.sumStep, DerivedFields.get.
  rewrite (H p) by (apply elem_of_cons; now left). reflexivity.
Qed.

Lemma calculateDerivedValue_ext (d d' : PreviewData) f :
  (forall k, k ∈ Spec.reads f -> d !! k = d' !! k) ->
  DerivedFields.calculateDerivedValue host f d
  = DerivedFields.calculateDerivedValue host f d'.
Proof.
  unfold Spec.reads, DerivedFields.calculateDerivedValue.
  destruct (FormField.isDerived f); [|reflexivity].
  destruct (FormField.derivedConfig f) as [c|]; [|reflexivity].
  destruct (String.eqb (DerivedFieldConfig.formula c) "sum").
  - intros H. f_equal. unfold DerivedFields.calculateSum. now apply sum_ext.
  - destruct (String.eqb (DerivedFieldConfig.formula c) "age_from_birthdate");
      [|reflexivity].
    intros H. f_equal. unfold DerivedFields.calculateAge, DerivedFields.get.
    rewrite (H (default "undefined" (head (DerivedFieldConfig.parentFieldIds c))))
      by (apply list_elem_of_singleton; reflexivity).
    reflexivity.
Qed.

Lemma derivedStep_None (d : PreviewData) L :
  fold_left (derivedStep host d) L None = None.
Proof. induction L as [|a l IH]; [reflexivity|exact IH]. Qed.

Lemma get_insert_eq (u : PreviewData) k v :
  DerivedFields.get (<[k := v]> u) k = v.
Proof. unfold DerivedFields.get. now rewrite lookup_insert_eq. Qed.

Lemma get_insert_ne (u : PreviewData) k k' v :
  k <> k' -> DerivedFields.get (<[k := v]> u) k' = DerivedFields.get u k'.
Proof. intros H. unfold DerivedFields.get. now rewrite lookup_insert_ne. Qed.

(** One pass over the derived fields [L], from [updatedData = u]. *)
Lemma recalculate_fold (d : PreviewData) (L : list FormField.t) :
  forall (u : PreviewData) c u' c',
  NoDup (FormField.id <$> L) ->
  fold_left (derivedStep host d) L (Some (u, c)) = Some (u', c') ->
  (forall k, k ∉ FormField.id <$> L -> u' !! k = u !! k)
  /\ (forall f, f ∈ L ->
        let v := DerivedFields.calculateDerivedValue host f d in
        DerivedFields.get u' (FormField.id f) = v
        \/ (strictEquals (DerivedFields.get u (FormField.id f)) v = Some true
            /\ DerivedFields.get u' (FormField.id f)
               = DerivedFields.get u (FormField.id f)))
  /\ (c = true -> c' = true)
  /\ (c' = false ->
      u' = u
      /\ forall f, f ∈ L ->
           strictEquals (DerivedFields.get u (FormField.id f))
             (DerivedFields.calculateDerivedValue host f d) = Some true).
Proof.
  induction L as [|a l IH]; intros u c u' c' Hnd Hfold.
  - cbn in Hfold. injection Hfold as <- <-.
    repeat split; try tauto; intros f Hf; now apply elem_of_nil in Hf.
  - rewrite fmap_cons in Hnd. apply NoDup_cons in Hnd as [Ha Hl].
    cbn [fold_left derivedStep] in Hfold.
    destruct (strictEquals (DerivedFields.get u (FormField.id a))
                (DerivedFields.calculateDerivedValue host a d))
      as [[|]|] eqn:Es.
    + destruct (IH _ _ _ _ Hl Hfold) as (H1 & H2 & H3 & H4).
      assert (Hsame : DerivedFields.get u' (FormField.id a)
                      = DerivedFields.get u (FormField.id a)).
      { unfold DerivedFields.get. now rewrite H1. }
      split; [|split; [|split]].
      * intros k Hk. rewrite fmap_cons, not_elem_of_cons in Hk. now apply H1.
      * intros f Hf. apply elem_of_cons in Hf as [->|Hf]; [|now apply H2].
        right. split; [exact Es|exact Hsame].
      * exact H3.
      * intros Hc. destruct (H4 Hc) as [Hu Hall]. split; [exact Hu|].
        intros f Hf. apply elem_of_cons in Hf as [->|Hf]; [exact Es|now apply Hall].
    + destruct (IH _ _ _ _ Hl Hfold) as (H1 & H2 & H3 & H4).
      assert (Hc' : c' = true) by now apply H3.
      split; [|split; [|split]].
      * intros k Hk. rewrite fmap_cons, not_elem_of_cons in Hk.
        destruct Hk as [Hne Hk]. rewrite H1 by exact Hk.
        now rewrite lookup_insert_ne.
      * intros f Hf. apply elem_of_cons in Hf as [->|Hf].
        -- left. unfold DerivedFields.get at 1. rewrite H1 by exact Ha.
           now rewrite lookup_insert_eq.
        -- assert (Hne : FormField.id a <> FormField.id f).
           { intros E. apply Ha. rewrite E. now apply list_elem_of_fmap_2. }
           specialize (H2 f Hf). cbn zeta in H2.
           rewrite (get_insert_ne _ _ _ _ Hne) in H2. exact H2.
      * intros _. exact Hc'.
      * intros Hc. congruence.
    + now rewrite derivedStep_None in Hfold.
Qed.

Lemma derivedFields_NoDup (fields : list FormField.t) :
  NoDup (FormField.id <$> fields) ->
  NoDup (FormField.id <$> Spec.derivedFields fields).
Proof.
  unfold Spec.derivedFields. induction fields as [|a l IH]; intros H; [exact H|].
  rewrite fmap_cons in H. apply NoDup_cons in H as [Ha Hl]. cbn.
  destruct (FormField.isDerived a); [|now apply IH].
  rewrite fmap_cons. apply NoDup_cons. split; [|now apply IH].
  intros Hin. apply Ha. apply list_elem_of_fmap in Hin as (f & -> & Hf).
  apply list_elem_of_fmap_2. apply list_elem_of_In, filter_In in Hf as [Hf _].
  now apply list_elem_of_In.
Qed.

Lemma derivedFields_elem (fields : list FormField.t) f :
  f ∈ Spec.derivedFields fields <-> f ∈ fields /\ FormField.isDerived f = true.
Proof.
  unfold Spec.derivedFields. rewrite !list_elem_of_In, filter_In. reflexivity.
Qed.

(** One pass of the effect that recalculates the derived fields, in a
    schema whose field ids are unique.  Afterwards every derived field holds
    its derived value, computed from the data before the pass, or still
    holds a value that is strictly equal to it; no other key of the data is
    touched; and a pass that reports no change returns the data as they
    were. *)
Theorem recalculate_values fields formData updatedData hasChanges :
  NoDup (Spec.fieldIds fields) ->
  recalculate host fields formData = Some (updatedData, hasChanges) ->
  (forall field, field ∈ fields -> FormField.isDerived field = true ->
     let value := DerivedFields.calculateDerivedValue host field formData in
     DerivedFields.get updatedData (FormField.id field) = value
     \/ (strictEquals (DerivedFields.get formData (FormField.id field)) value
           = Some true
         /\ DerivedFields.get updatedData (FormField.id field)
            = DerivedFields.get formData (FormField.id field)))
  /\ (forall k, k ∉ Spec.fieldIds (Spec.derivedFields fields) ->
        updatedData !! k = formData !! k)
  /\ (hasChanges = false -> updatedData = formData).
Proof.
  unfold Spec.fieldIds, recalculate. intros Hnd Hfold.
  apply derivedFields_NoDup in Hnd.
  destruct (recalculate_fold _ _ _ _ _ _ Hnd Hfold) as (H1 & H2 & _ & H4).
  split; [|split].
  - intros field Hf Hd. apply H2. now apply derivedFields_elem.
  - exact H1.
  - intros Hc. now apply H4.
Qed.

Lemma recalculate_quiet (d : PreviewData) (L : list FormField.t) :
  forall (u : PreviewData) c,
  (forall f, f ∈ L ->
     strictEquals (DerivedFields.get u (FormField.id f))
       (DerivedFields.calculateDerivedValue host f d) = Some true) ->
  fold_left (derivedStep host d) L (Some (u, c)) = Some (u, c).
Proof.
  induction L as [|a l IH]; intros u c H; [reflexivity|].
  cbn [fold_left derivedStep].
  rewrite (H a) by (apply elem_of_cons; now left).
  apply IH. intros f Hf. apply H. apply elem_of_cons. now right.
Qed.

(** The effect settles after one pass.  In a schema whose field ids are
    unique, where no derived field reads the value of a derived field and
    every derived value is strictly equal to itself, the data that the
    effect leaves are a fixed point: run on them, the pass reports no change
    and the effect keeps them. *)
Theorem derivedEffect_settles fields formData formData' :
  NoDup (Spec.fieldIds fields) ->
  (forall field, field ∈ Spec.derivedFields fields ->
     Spec.reflexive (DerivedFields.calculateDerivedValue host field formData)) ->
  (forall field parent,
     field ∈ Spec.derivedFields fields -> parent ∈ Spec.derivedFields fields ->
     FormField.id parent ∉ Spec.reads field) ->
  derivedEffect host fields formData = Some formData' ->
  recalculate host fields formData' = Some (formData', false)
  /\ derivedEffect host fields formData' = Some formData'.
Proof.
  unfold Spec.fieldIds. intros Hnd Hrefl Hindep Heff.
  assert (Hquiet : recalculate host fields formData' = Some (formData', false));
    [|split; [exact Hquiet|unfold derivedEffect; now rewrite Hquiet]].
  unfold derivedEffect in Heff.
  destruct (recalculate host fields formData) as [[u c]|] eqn:Hrec; [|discriminate].
  injection Heff as Heff.
  pose proof (derivedFields_NoDup _ Hnd) as HndL.
  unfold recalculate in Hrec.
  destruct (recalculate_fold _ _ _ _ _ _ HndL Hrec) as (H1 & H2 & _ & H4).
  fold (Spec.derivedFields fields) in H1, H2, H4.
  (* what the pass leaves in the data that is kept *)
  assert (Hout : forall k, k ∉ FormField.id <$> Spec.derivedFields fields ->
                           formData' !! k = formData !! k).
  { intros k Hk. subst formData'. destruct c; [now apply H1|reflexivity]. }
  assert (Hval : forall f, f ∈ Spec.derivedFields fields ->
            strictEquals (DerivedFields.get formData' (FormField.id f))
              (DerivedFields.calculateDerivedValue host f formData) = Some true).
  { intros f Hf. subst formData'. destruct c.
    - destruct (H2 f Hf) as [E|[E1 E2]].
      + rewrite E. now apply Hrefl.
      + now rewrite E2.
    - now apply H4. }
  unfold recalculate. fold (Spec.derivedFields fields).
  apply recalculate_quiet. intros f Hf.
  rewrite (calculateDerivedValue_ext formData' formData f); [now apply Hval|].
  intros k Hk. apply Hout. intros Hin.
  apply list_elem_of_fmap in Hin as (g & -> & Hg).
  exact (Hindep f g Hf Hg Hk).
Qed.

Lemma strictEquals_NaN v : strictEquals v (VNumber Js.NaN) = Some false.
Proof. destruct v as [| x | | | | |]; try reflexivity. now destruct x. Qed.

Lemma recalculate_changed (d : PreviewData) (L : list FormField.t) :
  forall (u : PreviewData) u' c',
  fold_left (derivedStep host d) L (Some (u, true)) = Some (u', c') -> c' = true.
Proof.
  induction L as [|a l IH]; intros u u' c' H.
  - cbn in H. now injection H as _ <-.
  - cbn [fold_left derivedStep] in H.
    destruct (strictEquals _ _) as [[|]|]; [now apply IH in H..|].
    now rewrite derivedStep_None in H.
Qed.

(** A derived value that is [NaN] is never found in the data ([NaN] is not
    strictly equal to itself): a pass over a schema with such a field
    reports a change, whatever the data hold, so the effect runs again. *)
Theorem recalculate_NaN_reports_changes fields formData field :
  field ∈ fields ->
  FormField.isDerived field = true ->
  DerivedFields.calculateDerivedValue host field formData = VNumber Js.NaN ->
  match recalculate host fields formData with
  | Some (_, hasChanges) => hasChanges = true
  | None => True
  end.
Proof.
  intros Hf Hd Hv.
  destruct (recalculate host fields formData) as [[updatedData hasChanges]|] eqn:H;
    [|exact I].
  unfold recalculate in H.
  assert (HL : field ∈ List.filter FormField.isDerived fields).
  { apply list_elem_of_In, filter_In. split; [now apply list_elem_of_In|exact Hd]. }
  clear Hf. revert HL H. generalize (List.filter FormField.isDerived fields).
  intros L. generalize false. intros c. generalize formData at 2.
  induction L as [|a l IH]; intros u HL H; [now apply elem_of_nil in HL|].
  cbn [fold_left derivedStep] in H. apply elem_of_cons in HL as [<-|HL].
  - rewrite Hv, strictEquals_NaN in H. now apply recalculate_changed in H.
  - destruct (strictEquals _ _) as [[|]|].
    + exact (IH _ HL H).
    + now apply recalculate_changed in H.
    + now rewrite derivedStep_None in H.
Qed.
End DerivedEffect.

Lemma recalculate_values_witness :
  DerivedFields.get Sample.withAge "age" = VNumber (Js.ofZ 18)
  \/ (PreviewPage.strictEquals (DerivedFields.get Sample.values "age")
        (VNumber (Js.ofZ 18)) = Some true
      /\ DerivedFields.get Sample.withAge "age"
         = DerivedFields.get Sample.values "age").
Proof.
  refine (proj1 (recalculate_values Sample.host [Sample.birthdate; Sample.age]
                   Sample.values Sample.withAge true _ _)
            Sample.age _ _).
  - cbn. apply NoDup_cons. split.
    + intros H. apply list_elem_of_singleton in H. discriminate.
    + apply NoDup_singleton.
  - vm_compute. reflexivity.
  - apply elem_of_cons. right. apply elem_of_cons. now left.
  - reflexivity.
Defined.

Lemma derivedEffect_settles_witness :
  PreviewPage.recalculate Sample.host [Sample.birthdate; Sample.age] Sample.withAge
    = Some (Sample.withAge, false)
  /\ PreviewPage.derivedEffect Sample.host [Sample.birthdate; Sample.age]
       Sample.withAge
     = Some Sample.withAge.
Proof.
  apply (derivedEffect_settles Sample.host [Sample.birthdate; Sample.age]
           Sample.values Sample.withAge).
  - cbn. apply NoDup_cons. split.
    + intros H. apply list_elem_of_singleton in H. discriminate.
    + apply NoDup_singleton.
  - intros field Hf. cbn in Hf. apply list_elem_of_singleton in Hf. subst field.
    vm_compute. reflexivity.
  - intros field parent Hf Hp. cbn in Hf, Hp.
    apply list_elem_of_singleton in Hf, Hp. subst field parent.
    cbn. intros H. apply list_elem_of_singleton in H. discriminate.
  - vm_compute. reflexivity.
Defined.

Lemma recalculate_NaN_reports_changes_witness :
  match PreviewPage.recalculate Sample.host [Sample.total] Sample.unbounded with
  | Some (_, hasChanges) => hasChanges = true
  | None => True
  end.
Proof.
  apply (recalculate_NaN_reports_changes Sample.host [Sample.total]
           Sample.unbounded Sample.total).
  - apply elem_of_cons. now left.
  - reflexivity.
  - vm_compute. reflexivity.
Defined.

(* ===================================================================== *)
(** * Properties of the rule list *)
(* ===================================================================== *)

Section RuleList.
Import FieldConfigPanel.

Lemma rules_last field cs f :
  FormField.validationRules (dispatchAll f (map (callback field) cs))
  = match last cs with
    | Some (ValidationRules.onChange rules) => rules
    | Some (ValidationRules.onRequiredChange checked) =>
        default [] (Partial.validationRules (handleRequiredToggle field checked))
    | None => FormField.validationRules f
    end.
Proof.
  revert f. induction cs as [|c cs IH]; intros f; [reflexivity|].
  cbn [map]. change (dispatchAll f (callback field c :: map (callback field) cs))
    with (dispatchAll (spread f (callback field c)) (map (callback field) cs)).
  rewrite IH. destruct cs as [|c' cs]; [cbn; destruct c; reflexivity|].
  change (last (c :: c' :: cs)) with (last (c' :: cs)).
  destruct (last (c' :: cs)) as [c0|] eqn:E; [reflexivity|].
  now apply last_None in E.
Qed.

Lemma sublist_List_filter {A} (g : A -> bool) (l : list A) :
  (List.filter g l) `sublist_of` l.
Proof.
  induction l as [|x l IH]; [constructor|]. cbn.
  destruct (g x); [now apply sublist_skip|now apply sublist_cons].
Qed.

Lemma sublist_removeAt {A} (i : nat) (l : list A) :
  (ValidationRules.removeAt i l) `sublist_of` l.
Proof.
  unfold ValidationRules.removeAt. rewrite <- delete_take_drop.
  apply sublist_delete.
Qed.

Lemma updateRule_callbacks (p : ValidationRules.Props) index u cs :
  ValidationRules.updateRule p index u = Some cs ->
  exists rule,
    ValidationRules.rules p !! index = Some rule
    /\ cs = [ValidationRules.onChange
               (<[index := ValidationRules.spreadRule rule u]>
                  (ValidationRules.rules p))].
Proof.
  unfold ValidationRules.updateRule.
  destruct (ValidationRules.rules p !! index) as [rule|]; [|discriminate].
  intros [= <-]. eauto.
Qed.

Lemma availableForAdd_elem (p : ValidationRules.Props) type :
  type ∈ ValidationRules.availableForAdd p
  <-> (type ∉ Spec.ruleTypes (ValidationRules.rules p))
      /\ (type ∈ Validation.getAvailableValidationRules
                    (ValidationRules.fieldType p)).
Proof.
  unfold ValidationRules.availableForAdd, ValidationRules.usedTypes, Spec.ruleTypes.
  rewrite list_elem_of_filter. reflexivity.
Qed.

(** What an edit does to the list of rules. *)
Lemma edit_ruleStep field e field' :
  (forall index newType, e <> RuleTypeChange index newType) ->
  edit field e = Some field' ->
  Spec.ruleStep (FormField.type field) (FormField.validationRules field)
    (FormField.validationRules field').
Proof.
  intros Hretype. unfold edit.
  destruct (updatesOf field e) as [us|] eqn:Eu; [|discriminate].
  intros [= <-].
  assert (Hsame : Spec.ruleStep (FormField.type field)
                    (FormField.validationRules field)
                    (FormField.validationRules field))
    by (apply Spec.step_sublist; reflexivity).
  destruct e as [label|type|checked|value|options|value|isDerived config|
                 |index|index newType|index value|index message|];
    cbn [updatesOf] in Eu.
  - injection Eu as <-. exact Hsame.
  - injection Eu as <-. exact Hsame.
  - injection Eu as <-. cbn. destruct checked.
    + destruct (ValidationRules.hasRequiredRule _) eqn:Eh; [exact Hsame|].
      now apply Spec.step_required_first.
    + apply Spec.step_sublist, sublist_List_filter.
  - injection Eu as <-. exact Hsame.
  - injection Eu as <-. exact Hsame.
  - injection Eu as <-. exact Hsame.
  - injection Eu as <-. exact Hsame.
  - (* addRule *)
    injection Eu as <-. rewrite rules_last. unfold ValidationRules.addRule.
    destruct (ValidationRules.availableForAdd (rulesProps field))
      as [|ruleType rest] eqn:Ea; [exact Hsame|].
    cbn [last]. assert (Hin : ruleType ∈ ValidationRules.availableForAdd (rulesProps field))
      by (rewrite Ea; apply elem_of_cons; now left).
    apply availableForAdd_elem in Hin as [Hfresh Havail].
    exact (Spec.step_add _ _ ruleType Havail Hfresh).
  - (* deleteRule *)
    unfold ValidationRules.deleteRule in Eu.
    destruct (ValidationRules.rules (rulesProps field) !! index) as [r|];
      [|discriminate].
    cbn [fmap option_fmap option_map] in Eu. injection Eu as <-.
    rewrite rules_last.
    destruct (ValidationRules.isType notEmpty r); cbn [app last];
      apply Spec.step_sublist, sublist_removeAt.
  - now contradiction (Hretype index newType).
  - (* handleValueChange *)
    unfold ValidationRules.handleValueChange in Eu.
    destruct (String.eqb value "").
    + destruct (ValidationRules.updateRule _ _ _) as [cs|] eqn:Ec; [|discriminate].
      injection Eu as <-. apply updateRule_callbacks in Ec as (rule & Hr & ->).
      rewrite rules_last. cbn [last].
      exact (Spec.step_value _ _ index rule (Js.ofZ 1) Hr eq_refl).
    + destruct (negb (Js.isNaN (Js.parseInt value))
                && Js.ge (Js.parseInt value) (Js.ofZ 1)) eqn:Ev.
      * destruct (ValidationRules.updateRule _ _ _) as [cs|] eqn:Ec; [|discriminate].
        injection Eu as <-. apply updateRule_callbacks in Ec as (rule & Hr & ->).
        rewrite rules_last. cbn [last]. apply andb_true_iff in Ev as [_ Hge].
        exact (Spec.step_value _ _ index rule _ Hr Hge).
      * injection Eu as <-. exact Hsame.
  - (* handleMessageChange *)
    unfold ValidationRules.handleMessageChange in Eu.
    destruct (ValidationRules.updateRule _ _ _) as [cs|] eqn:Ec; [|discriminate].
    injection Eu as <-. apply updateRule_callbacks in Ec as (rule & Hr & ->).
    rewrite rules_last. cbn [last].
    exact (Spec.step_message _ _ index rule message Hr).
  - (* the effects of the editor *)
    injection Eu as <-. unfold effects. rewrite rules_last.
    unfold ValidationRules.effects, ValidationRules.requiredEffect,
      ValidationRules.cleanupEffect. cbn [rulesProps ValidationRules.rules
      ValidationRules.fieldType ValidationRules.isRequired].
    case_bool_decide as Hlen.
    + rewrite last_snoc. apply Spec.step_sublist, sublist_List_filter.
    + rewrite app_nil_r.
      destruct (FormField.required field
                && negb (ValidationRules.hasRequiredRule
                           (FormField.validationRules field))) eqn:Er;
        [|exact Hsame].
      cbn [last]. apply andb_true_iff in Er as [_ Hno].
      apply negb_true_iff in Hno. now apply Spec.step_required_last.
Qed.

Lemma edit_retype field index newType field' :
  edit field (RuleTypeChange index newType) = Some field' ->
  exists rule,
    FormField.validationRules field !! index = Some rule
    /\ FormField.validationRules field'
       = <[index := ValidationRule.mk newType
                      (if Spec.isBound newType then Some (Js.ofZ 1) else None)
                      (ValidationRules.getDefaultMessage (FormField.type field)
                         newType)]>
           (FormField.validationRules field).
Proof.
  unfold edit. cbn [updatesOf]. unfold ValidationRules.handleRuleTypeChange.
  destruct (ValidationRules.updateRule _ _ _) as [cs|] eqn:Ec; [|discriminate].
  cbn [fmap option_fmap option_map]. intros [= <-].
  apply updateRule_callbacks in Ec as (rule & Hr & ->).
  exists rule. split; [exact Hr|]. rewrite rules_last. reflexivity.
Qed.

Lemma retype_or_not (e : Edit) :
  (exists index newType, e = RuleTypeChange index newType)
  \/ (forall index newType, e <> RuleTypeChange index newType).
Proof. destruct e; try (right; discriminate). left. eauto. Qed.

Lemma Forall_sublist_of {A} (P : A -> Prop) (l l' : list A) :
  l' `sublist_of` l -> Forall P l -> Forall P l'.
Proof.
  intros Hs Hl. apply Forall_forall. intros x Hx.
  eapply Forall_forall in Hl; [exact Hl|]. eapply elem_of_sublist; eauto.
Qed.

(** No edit of the panel or of the rules editor sets a bound below 1: when
    every [minLength] and [maxLength] rule of the field carries a number
    that is at least 1, so does every such rule after the edit. *)
Theorem edit_keeps_bounds_positive field e field' :
  Spec.boundsPositive (FormField.validationRules field) ->
  edit field e = Some field' ->
  Spec.boundsPositive (FormField.validationRules field').
Proof.
  unfold Spec.boundsPositive. intros Hinv Hedit.
  assert (Hone : Js.ge (Js.ofZ 1) (Js.ofZ 1) = true) by reflexivity.
  destruct (retype_or_not e) as [(index & newType & ->)|Hother].
  - apply edit_retype in Hedit as (rule & Hr & ->).
    apply Forall_insert; [exact Hinv|]. cbn. intros Hb. rewrite Hb. eauto.
  - apply edit_ruleStep in Hedit; [|exact Hother].
    destruct Hedit as [rules' Hsub|message Hno|message Hno|type Ha Hf
                      |index rule n Hr Hn|index rule message Hr].
    + now apply (Forall_sublist_of _ _ _ Hsub).
    + apply Forall_cons. split; [|exact Hinv]. cbn. discriminate.
    + apply Forall_app. split; [exact Hinv|].
      apply Forall_singleton. cbn. discriminate.
    + apply Forall_app. split; [exact Hinv|].
      apply Forall_singleton. cbn. intros Hb. rewrite Hb. eauto.
    + apply Forall_insert; [exact Hinv|]. cbn. eauto.
    + apply Forall_insert; [exact Hinv|]. cbn.
      exact (Forall_lookup_1 _ _ _ _ Hinv Hr).
Qed.

Lemma edit_keeps_bounds_positive_witness :
  Spec.boundsPositive
    (FormField.validationRules
       (dispatchAll (Sample.field text false [Sample.minLength3])
          (map (callback (Sample.field text false [Sample.minLength3]))
             [ValidationRules.onChange
                [ValidationRule.mk minLength (Some (Js.ofZ 1))
                   "Minimum length required"]]))).
Proof.
  apply (edit_keeps_bounds_positive (Sample.field text false [Sample.minLength3])
           (RuleValueChange 0 "")).
  - apply Forall_singleton. intros _. eexists. split; reflexivity.
  - vm_compute. reflexivity.
Defined.

Lemma hasRequiredRule_false rules :
  ValidationRules.hasRequiredRule rules = false
  -> notEmpty ∉ Spec.ruleTypes rules.
Proof.
  unfold ValidationRules.hasRequiredRule, Spec.ruleTypes. intros H Hin.
  apply list_elem_of_fmap in Hin as (r & Hr & Hin).
  apply not_true_iff_false in H. apply H. apply existsb_exists.
  exists r. split; [now apply list_elem_of_In|].
  unfold ValidationRules.isType. now apply bool_decide_eq_true.
Qed.

Lemma NoDup_snoc_fresh {A} (l : list A) (x : A) :
  NoDup l -> x ∉ l -> NoDup (l ++ [x]).
Proof.
  intros Hl Hx. apply NoDup_app. split; [exact Hl|]. split.
  - intros y Hy Hy'. apply list_elem_of_singleton in Hy'. now subst.
  - apply NoDup_singleton.
Qed.

Lemma NoDup_insert_fresh {A} (l : list A) (i : nat) (x : A) :
  NoDup l -> x ∉ l -> NoDup (<[i := x]> l).
Proof.
  intros Hl Hx. destruct (l !! i) as [y|] eqn:E.
  - rewrite insert_take_drop by (now apply lookup_lt_Some in E).
    rewrite <- (take_drop_middle l i y E) in Hl, Hx.
    apply NoDup_app in Hl as (H1 & H2 & H3). apply NoDup_cons in H3 as [H3 H4].
    apply NoDup_app. split; [exact H1|]. split.
    + intros z Hz Hz'. apply elem_of_cons in Hz' as [->|Hz'].
      * apply Hx. apply elem_of_app. now left.
      * apply (H2 z Hz). apply elem_of_cons. now right.
    + apply NoDup_cons. split; [|exact H4].
      intros Hin. apply Hx. apply elem_of_app. right.
      apply elem_of_cons. now right.
  - rewrite list_insert_ge; [exact Hl|]. now apply lookup_ge_None.
Qed.

(** The rule list never holds two rules of one type, as long as a change
    of a rule's type picks what the select of the row offers: the type of
    the rule itself or a type that [availableForAdd] lists. *)
Theorem edit_keeps_rule_types_unique field e field' :
  NoDup (Spec.ruleTypes (FormField.validationRules field)) ->
  (forall index newType,
     e = RuleTypeChange index newType ->
     newType ∈ ValidationRules.availableForAdd (rulesProps field)
     \/ ValidationRule.type <$> FormField.validationRules field !! index
        = Some newType) ->
  edit field e = Some field' ->
  NoDup (Spec.ruleTypes (FormField.validationRules field')).
Proof.
  unfold Spec.ruleTypes. intros Hinv Hoffered Hedit.
  destruct (retype_or_not e) as [(index & newType & ->)|Hother].
  - apply edit_retype in Hedit as (rule & Hr & ->).
    rewrite list_fmap_insert. cbn.
    destruct (Hoffered index newType eq_refl) as [Ha|Hsame].
    + apply availableForAdd_elem in Ha as [Hfresh _].
      now apply NoDup_insert_fresh.
    + rewrite list_insert_id; [exact Hinv|]. now rewrite list_lookup_fmap.
  - apply edit_ruleStep in Hedit; [|exact Hother].
    destruct Hedit as [rules' Hsub|message Hno|message Hno|type Ha Hf
                      |index rule n Hr Hn|index rule message Hr].
    + eapply sublist_NoDup; [exact Hinv|]. now apply fmap_sublist.
    + rewrite fmap_cons. apply NoDup_cons. split; [|exact Hinv].
      now apply hasRequiredRule_false.
    + rewrite fmap_app. apply NoDup_snoc_fresh; [exact Hinv|].
      now apply hasRequiredRule_false.
    + rewrite fmap_app. now apply NoDup_snoc_fresh.
    + rewrite list_fmap_insert. cbn.
      rewrite list_insert_id; [exact Hinv|]. now rewrite list_lookup_fmap, Hr.
    + rewrite list_fmap_insert. cbn.
      rewrite list_insert_id; [exact Hinv|]. now rewrite list_lookup_fmap, Hr.
Qed.

Lemma edit_keeps_rule_types_unique_witness :
  NoDup (Spec.ruleTypes
           (FormField.validationRules
              (dispatchAll (Sample.field text false [Sample.minLength3])
                 (map (callback (Sample.field text false [Sample.minLength3]))
                    (ValidationRules.addRule
                       (rulesProps (Sample.field text false [Sample.minLength3]))))))).
Proof.
  apply (edit_keeps_rule_types_unique
           (Sample.field text false [Sample.minLength3]) AddRule).
  - apply NoDup_singleton.
  - intros index newType [=].
  - reflexivity.
Defined.
End RuleList.

(* ===================================================================== *)
(** * Properties of the default value check *)
(* ===================================================================== *)

Section DefaultValue.
Import FieldConfigPanel.

Lemma lt_not_NaN x y : Js.lt x y = true -> Js.isNaN x = false.
Proof. destruct x; try reflexivity. discriminate. Qed.

Lemma gt_not_NaN x y : Js.gt x y = true -> Js.isNaN x = false.
Proof. destruct x; try reflexivity. unfold Js.gt. now destruct y. Qed.

Lemma found_Some (rules : list ValidationRule.t) type test rule :
  found (List.find (ValidationRules.isType type) rules) test = Some rule ->
  rule ∈ rules /\ ValidationRule.type rule = type /\ test rule = true.
Proof.
  unfold found. destruct (List.find _ rules) as [r|] eqn:E; [|discriminate].
  destruct (test r) eqn:Et; [|discriminate]. intros [= <-].
  apply find_some in E as [Hin Ht]. split; [now apply list_elem_of_In|].
  split; [|exact Et]. unfold ValidationRules.isType in Ht.
  now apply bool_decide_eq_true in Ht.
Qed.

(** When the panel flags the default value, the field is a number field,
    saving is disabled, and the default value fails a [minLength] or
    [maxLength] rule of the field in [validateRule]. *)
Theorem flagged_default_fails_a_bound field :
  error (defaultValueValidation field) = true ->
  FormField.type field = number
  /\ isSaveDisabled field = true
  /\ exists rule,
       rule ∈ FormField.validationRules field
       /\ (ValidationRule.type rule = minLength
           \/ ValidationRule.type rule = maxLength)
       /\ Validation.validateRule rule (FormField.defaultValue field)
            (FormField.type field)
          = Some (ValidationRule.message rule).
Proof.
  intros Herr. split; [|split].
  - unfold defaultValueValidation in Herr.
    destruct (bool_decide_reflect (FormField.type field = number));
      [assumption|discriminate].
  - unfold isSaveDisabled. rewrite Herr. apply orb_true_r.
  - unfold defaultValueValidation in Herr.
    destruct (bool_decide_reflect (FormField.type field = number)) as [Et|];
      [|discriminate].
    destruct (truthyValue (FormField.defaultValue field)); [|discriminate].
    cbn zeta in Herr.
    destruct (found (List.find (ValidationRules.isType minLength) _) _)
      as [minRule|] eqn:Emin.
    + apply found_Some in Emin as (Hin & Ht & Hlt). exists minRule.
      split; [exact Hin|]. split; [now left|].
      unfold Validation.validateRule. rewrite Ht, Et.
      rewrite bool_decide_true by reflexivity. cbn zeta.
      now rewrite (lt_not_NaN _ _ Hlt), Hlt.
    + destruct (found (List.find (ValidationRules.isType maxLength) _) _)
        as [maxRule|] eqn:Emax; [|discriminate].
      apply found_Some in Emax as (Hin & Ht & Hgt). exists maxRule.
      split; [exact Hin|]. split; [now right|].
      unfold Validation.validateRule. rewrite Ht, Et.
      rewrite bool_decide_true by reflexivity. cbn zeta.
      now rewrite (gt_not_NaN _ _ Hgt), Hgt.
Qed.

Lemma flagged_default_fails_a_bound_witness :
  FormField.type Sample.quantity = number
  /\ isSaveDisabled Sample.quantity = true
  /\ exists rule,
       rule ∈ FormField.validationRules Sample.quantity
       /\ (ValidationRule.type rule = minLength
           \/ ValidationRule.type rule = maxLength)
       /\ Validation.validateRule rule (FormField.defaultValue Sample.quantity)
            (FormField.type Sample.quantity)
          = Some (ValidationRule.message rule).
Proof.
  apply (flagged_default_fails_a_bound Sample.quantity).
  vm_compute. reflexivity.
Defined.
End DefaultValue.

(* ===================================================================== *)
(** * The verdicts of the password and the notEmpty rule *)
(* ===================================================================== *)

Section RuleVerdicts.
Import Js Spec Validation.

Lemma Matches_atLeast p n : forall s,
  Matches (atLeast n (Class p)) s
  <-> (n <= length s)%nat /\ forallb p s = true.
Proof.
  induction n as [|n IH]; intros s; cbn [atLeast].
  - rewrite Matches_Star_Class. split; [intros H; split; [lia|exact H]|tauto].
  - split.
    + intros H. apply Matches_Cat_inv in H as (s1 & s2 & -> & H1 & H2).
      apply Matches_Class_inv in H1 as (c & -> & Hc). apply IH in H2 as [Hn Hp].
      cbn. rewrite Hc, Hp. split; [lia|reflexivity].
    + intros [Hn Hp]. destruct s as [|c s]; [cbn in Hn; lia|].
      cbn in Hn, Hp. apply andb_true_iff in Hp as [Hc Hp].
      apply (M_Cat _ _ [c] s); [now constructor|].
      apply IH. split; [lia|exact Hp].
Qed.

Lemma Matches_anything s : Matches (Star anyChar) s.
Proof.
  apply Matches_Star_Class. induction s as [|c s IH]; [reflexivity|exact IH].
Qed.

(** A lookahead for "anything on the line, then a character of the class",
    on a text without line terminators. *)
Lemma Matches_lookahead_class p s :
  forallb (fun c => negb (isLineTerminator c)) s = true ->
  Matches (lookahead (Cat (Star dot) (Class p))) s <-> existsb p s = true.
Proof.
  intros Hline. unfold lookahead. split.
  - intros H. apply Matches_Cat_inv in H as (s1 & s2 & -> & H1 & _).
    apply Matches_Cat_inv in H1 as (s0 & s1' & -> & _ & H1).
    apply Matches_Class_inv in H1 as (c & -> & Hc).
    apply existsb_exists. exists c. split; [|exact Hc].
    apply in_or_app. left. apply in_or_app. right. now left.
  - intros H. apply existsb_exists in H as (c & Hin & Hc).
    apply in_split in Hin as (s1 & s2 & ->).
    change (s1 ++ c :: s2) with (s1 ++ [c] ++ s2). rewrite app_assoc.
    apply M_Cat; [|apply Matches_anything].
    apply M_Cat; [|now constructor].
    apply Matches_Star_Class. rewrite forallb_app in Hline.
    apply andb_true_iff in Hline as [Hline _]. exact Hline.
Qed.

Lemma passwordRegex_shape s :
  test passwordRegex s = true <-> Spec.PasswordShape (chars s).
Proof.
  unfold test. rewrite matches_Matches. unfold passwordRegex, Spec.PasswordShape.
  split.
  - intros H. apply Matches_And_inv in H as [H1 H].
    apply Matches_And_inv in H as [H2 H3].
    apply Matches_atLeast in H3 as [Hn Hline].
    apply (Matches_lookahead_class _ _ Hline) in H1.
    apply (Matches_lookahead_class _ _ Hline) in H2. tauto.
  - intros (Hn & Hline & Hd & Hl).
    apply M_And; [now apply Matches_lookahead_class|].
    apply M_And; [now apply Matches_lookahead_class|].
    apply Matches_atLeast. tauto.
Qed.




Lemma forallb_dropWhile {A} (p q : A -> bool) l :
  forallb q l = true -> forallb q (dropWhile p l) = true.
Proof.
  induction l as [|x l IH]; [tauto|]. cbn. intros H.
  apply andb_true_iff in H as [Hx Hl]. destruct (p x); [now apply IH|].
  cbn. now rewrite Hx, Hl.
Qed.




(** The password rule passes the empty value and the values of the shape
    of a password, and fails every other value with its message.  (The shape
    asks for a lower-case letter, of which the default message of the rule,
    "Password must be at least 8 characters with a number", says nothing.) *)
Theorem password_rule_verdict rule value fieldType :
  ValidationRule.type rule = password ->
  let s := Spec.stringForm value in
  (s = "" \/ Spec.PasswordShape (chars s) ->
   validateRule rule value fieldType = None)
  /\ (s <> "" /\ ~ Spec.PasswordShape (chars s) ->
      validateRule rule value fieldType = Some (ValidationRule.message rule)).
Proof.
  intros Ht s. unfold validateRule. rewrite Ht. fold (Spec.stringForm value).
  fold s. split.
  - intros [->|Hshape]; [reflexivity|].
    apply passwordRegex_shape in Hshape. rewrite Hshape.
    now rewrite andb_false_r.
  - intros [Hne Hshape]. apply truthy_true_iff in Hne. rewrite Hne.
    destruct (test passwordRegex s) eqn:E; [|reflexivity].
    now apply passwordRegex_shape in E.
Qed.

Lemma password_rule_verdict_witness :
  ValidationRule.type
    (ValidationRule.mk password None
       "Password must be at least 8 characters with a number") = password
  /\ validateRule
       (ValidationRule.mk password None
          "Password must be at least 8 characters with a number")
       (VString "ABCDEFG1") text
     = Some "Password must be at least 8 characters with a number".
Proof.
  split; [reflexivity|].
  apply (password_rule_verdict
           (ValidationRule.mk password None
              "Password must be at least 8 characters with a number")
           (VString "ABCDEFG1") text); [reflexivity|].
  split; [discriminate|]. intros (_ & _ & _ & Hlower). discriminate Hlower.
Defined.


End RuleVerdicts.

Section FixedPanel.

(** The other copy of the panel cleans the rules itself: after its change of
    the field type the field has the new type, its rules are the relevant
    rules of the new type, and [required] is in sync with the [notEmpty]
    rule when it was before; a change to [number] leaves a default value
    that is a number or the empty string. *)
Theorem fixed_type_change_cleans_rules field type :
  let field' := spread field (FieldConfigPanelFixed.handleFieldTypeChange field type) in
  FormField.type field' = type
  /\ FormField.validationRules field'
     = ValidationRules.getRelevantRules type (FormField.validationRules field)
  /\ (Spec.inSync field -> Spec.inSync field')
  /\ (type = number ->
      FormField.defaultValue field' = VString ""
      \/ exists n, FormField.defaultValue field' = VNumber n
                   /\ Js.isNaN n = false).
Proof.
  cbn zeta. split; [reflexivity|].
  assert (Hdefault :
    type = number ->
    default (FormField.defaultValue field)
      (Partial.defaultValue
         (FieldConfigPanelFixed.handleFieldTypeChange field type))
    = VString ""
    \/ exists n,
         default (FormField.defaultValue field)
           (Partial.defaultValue
              (FieldConfigPanelFixed.handleFieldTypeChange field type))
         = VNumber n /\ Js.isNaN n = false).
  { intros ->. unfold FieldConfigPanelFixed.handleFieldTypeChange.
    cbn [Partial.defaultValue].
    repeat (case_bool_decide; try congruence; cbn [andb negb]); cbn; auto.
    destruct (truthyValue (FormField.defaultValue field)); cbn; auto.
    destruct (Js.isNaN (Number (FormField.defaultValue field))) eqn:E; cbn; eauto. }
  set (u := FieldConfigPanelFixed.handleFieldTypeChange field type) in *.
  set (cleaned := ValidationRules.getRelevantRules type
                    (FormField.validationRules field)).
  assert (Hrules :
    Partial.validationRules u
    = if bool_decide (length cleaned ≠ length (FormField.validationRules field))
      then Some cleaned else None) by reflexivity.
  assert (Hrequired :
    Partial.required u
    = if bool_decide (length cleaned ≠ length (FormField.validationRules field))
      then Some (ValidationRules.hasRequiredRule cleaned) else None)
    by reflexivity.
  unfold Spec.inSync, spread.
  cbn [FormField.validationRules FormField.required FormField.defaultValue].
  rewrite Hrules, Hrequired. clear Hrules Hrequired.
  case_bool_decide as Hlen; cbn [default].
  - split; [reflexivity|]. split; [reflexivity|exact Hdefault].
  - assert (Hsame : ValidationRules.getRelevantRules type
                      (FormField.validationRules field)
                    = FormField.validationRules field).
    { apply filter_all. fold (ValidationRules.getRelevantRules type
                                (FormField.validationRules field)).
      fold cleaned.
      destruct (decide (length cleaned
                        = length (FormField.validationRules field)));
        [assumption|contradiction]. }
    fold cleaned in Hsame. split; [now rewrite Hsame|].
    split; [tauto|exact Hdefault].
Qed.
End FixedPanel.


